(** * deid_export.container_export: a shallow embedding

    The module walks an origin project/subject/session/acquisition tree,
    reconciles each container with a destination project and exports the
    files of every session.  Python objects that the code shares and
    mutates (dicts and lists) live in an explicit heap; the remote store,
    the report file and the call log are fields of an explicit world that
    every operation threads, and an exception leaves the world as it was
    when it was raised. *)

From Stdlib Require Import ZArith Lia Ascii DecimalString DecimalPos.
From stdpp Require Import prelude strings.

Set Default Proof Using "Type*".
Set Warnings "-register-all".

(** ** Exceptions and the state-and-exception monad *)

(** The exceptions of a run.  [NameError] stands for its subclass
    [UnboundLocalError] too, and [OSError] for [FileNotFoundError]. *)
Inductive exn :=
| ValueError | TypeError | AttributeError | KeyError | NameError | OSError
| ApiException.

Inductive result (A : Type) :=
| Ok (a : A)
| Raise (e : exn).
Arguments Ok {A} a.
Arguments Raise {A} e.

(** A computation over a state [S]: the state after an exception is the
    state at the raise, as in Python. *)
Definition Py (S A : Type) : Type := S → result A * S.

Definition py_ret {S A} (a : A) : Py S A := λ s, (Ok a, s).
Definition py_bind {S A B} (k : A → Py S B) (m : Py S A) : Py S B :=
  λ s, match m s with
       | (Ok a, s') => k a s'
       | (Raise e, s') => (Raise e, s')
       end.
Definition raise {S A} (e : exn) : Py S A := λ s, (Raise e, s).
Definition get_state {S} : Py S S := λ s, (Ok s, s).
Definition put_state {S} (s : S) : Py S unit := λ _, (Ok tt, s).

#[global] Instance Py_ret {S} : MRet (Py S) := @py_ret S.
#[global] Instance Py_bind {S} : MBind (Py S) := @py_bind S.

(** [for x in xs: body x] *)
Fixpoint for_each {S A} (xs : list A) (body : A → Py S unit) : Py S unit :=
  match xs with
  | [] => mret tt
  | x :: xs' => body x ≫= λ _, for_each xs' body
  end.

(** A [for] loop that carries the variables it assigns *)
Fixpoint fold_m {S A B} (xs : list A) (acc : B) (body : B → A → Py S B) : Py S B :=
  match xs with
  | [] => mret acc
  | x :: xs' => body acc x ≫= λ acc', fold_m xs' acc' body
  end.

(** ** Python values and the heap *)

Abbreviation loc := nat.

Inductive value :=
| VNone
| VBool (b : bool)
| VInt (n : Z)
| VStr (s : string)
| VRef (l : loc).

#[global] Instance value_eq_dec : EqDecision value.
Proof. solve_decision. Defined.

(** A dict keeps its keys in insertion order; the keys here are strings
    (containers, templates and info maps are JSON-like). *)
Abbreviation dict := (list (string * value)).

Inductive obj :=
| ODict (d : dict)
| OList (xs : list value).

Abbreviation heap := (list obj).

Fixpoint dict_get {A} (d : list (string * A)) (k : string) : option A :=
  match d with
  | [] => None
  | (k', v) :: d' => if String.eqb k k' then Some v else dict_get d' k
  end.

(** [d[k] = v]: the value is replaced in place when the key is there, and
    the item goes to the end otherwise. *)
Fixpoint dict_set {A} (d : list (string * A)) (k : string) (v : A)
    : list (string * A) :=
  match d with
  | [] => [(k, v)]
  | (k', v') :: d' =>
      if String.eqb k k' then (k', v) :: d' else (k', v') :: dict_set d' k v
  end.

Definition dict_keys {A} (d : list (string * A)) : list string := map fst d.

Definition as_dict (h : heap) (v : value) : option dict :=
  match v with
  | VRef l => match h !! l with Some (ODict d) => Some d | _ => None end
  | _ => None
  end.

Definition as_list (h : heap) (v : value) : option (list value) :=
  match v with
  | VRef l => match h !! l with Some (OList xs) => Some xs | _ => None end
  | _ => None
  end.

(** [isinstance(v, dict)], [isinstance(v, list)] *)
Definition is_dict (h : heap) (v : value) : bool :=
  match as_dict h v with Some _ => true | None => false end.
Definition is_list (h : heap) (v : value) : bool :=
  match as_list h v with Some _ => true | None => false end.

(** [bool(v)] *)
Definition truthy (h : heap) (v : value) : bool :=
  match v with
  | VNone => false
  | VBool b => b
  | VInt n => negb (n =? 0)%Z
  | VStr s => negb (String.eqb s EmptyString)
  | VRef l =>
      match h !! l with
      | Some (ODict d) => match d with [] => false | _ => true end
      | Some (OList xs) => match xs with [] => false | _ => true end
      | None => true
      end
  end.

(** [s == v] for a string [s]: a string equals no value of another type. *)
Definition str_eq (s : string) (v : value) : bool :=
  match v with VStr s' => String.eqb s s' | _ => false end.

(** [s in xs] for a string [s] and the items [xs] of a list or tuple *)
Definition str_in (s : string) (xs : list value) : bool := existsb (str_eq s) xs.

(** [str.lower] on ASCII letters.  The code compares the result with
    ['all'] only, and no character outside ASCII lowers to [a] or [l]. *)
Definition ascii_lower (c : ascii) : ascii :=
  let n := nat_of_ascii c in
  if (65 <=? n)%nat && (n <=? 90)%nat then ascii_of_nat (n + 32) else c.

Fixpoint lower (s : string) : string :=
  match s with
  | EmptyString => EmptyString
  | String c s' => String (ascii_lower c) (lower s')
  end.

(** ** Strings

    A [str] is kept as the bytes of its UTF-8 encoding, a character being
    one to four bytes. *)

(** The double quote character *)
Definition dq : string := String (ascii_of_nat 34) EmptyString.

(** The ASCII digits *)
Definition is_digit (c : ascii) : bool :=
  let n := nat_of_ascii c in (48 <=? n)%nat && (n <=? 57)%nat.

(** The other decimal digits (category Nd of Unicode 14.0, that of
    Python 3.11), which [\d] matches too in a pattern that is a [str]: the
    first and the last code point of each run of digits, by the number of
    bytes of their encoding *)
Definition digits_2 : list (N * N) :=
  [(1632, 1641); (1776, 1785); (1984, 1993)]%N.

Definition digits_3 : list (N * N) :=
  [(2406, 2415); (2534, 2543); (2662, 2671); (2790, 2799); (2918, 2927);
   (3046, 3055); (3174, 3183); (3302, 3311); (3430, 3439); (3558, 3567);
   (3664, 3673); (3792, 3801); (3872, 3881); (4160, 4169); (4240, 4249);
   (6112, 6121); (6160, 6169); (6470, 6479); (6608, 6617); (6784, 6793);
   (6800, 6809); (6992, 7001); (7088, 7097); (7232, 7241); (7248, 7257);
   (42528, 42537); (43216, 43225); (43264, 43273); (43472, 43481);
   (43504, 43513); (43600, 43609); (44016, 44025); (65296, 65305)]%N.

Definition digits_4 : list (N * N) :=
  [(66720, 66729); (68912, 68921); (69734, 69743); (69872, 69881);
   (69942, 69951); (70096, 70105); (70384, 70393); (70736, 70745);
   (70864, 70873); (71248, 71257); (71360, 71369); (71472, 71481);
   (71904, 71913); (72016, 72025); (72784, 72793); (73040, 73049);
   (73120, 73129); (92768, 92777); (92864, 92873); (93008, 93017);
   (120782, 120831); (123200, 123209); (123632, 123641); (125264, 125273);
   (130032, 130041)]%N.

Definition in_runs (runs : list (N * N)) (cp : N) : bool :=
  existsb (λ r, (r.1 <=? cp)%N && (cp <=? r.2)%N) runs.

(** The six bits that a continuation byte carries *)
Definition low6 (c : ascii) : option N :=
  let n := N_of_ascii c in
  if (128 <=? n)%N && (n <=? 191)%N then Some (n - 128)%N else None.

(** The bytes are the encoding of a decimal digit, in two, three or four
    bytes. *)
Definition is_digit2 (a b : ascii) : bool :=
  let n := N_of_ascii a in
  (192 <=? n)%N && (n <=? 223)%N
  && match low6 b with
     | Some y => in_runs digits_2 ((n - 192) * 64 + y)%N
     | None => false
     end.

Definition is_digit3 (a b c : ascii) : bool :=
  let n := N_of_ascii a in
  (224 <=? n)%N && (n <=? 239)%N
  && match low6 b, low6 c with
     | Some y, Some z => in_runs digits_3 ((n - 224) * 4096 + y * 64 + z)%N
     | _, _ => false
     end.

Definition is_digit4 (a b c d : ascii) : bool :=
  let n := N_of_ascii a in
  (240 <=? n)%N && (n <=? 247)%N
  && match low6 b, low6 c, low6 d with
     | Some y, Some z, Some u =>
         in_runs digits_4 ((n - 240) * 262144 + y * 4096 + z * 64 + u)%N
     | _, _, _ => false
     end.

(** [\d*]: the string after the decimal digits it starts with *)
Fixpoint skip_digits (s : string) : string :=
  match s with
  | String a s1 =>
      if is_digit a then skip_digits s1
      else
        match s1 with
        | String b s2 =>
            if is_digit2 a b then skip_digits s2
            else
              match s2 with
              | String c s3 =>
                  if is_digit3 a b c then skip_digits s3
                  else
                    match s3 with
                    | String d s4 =>
                        if is_digit4 a b c d then skip_digits s4 else s
                    | EmptyString => s
                    end
              | EmptyString => s
              end
        | EmptyString => s
        end
  | EmptyString => s
  end.

(** [[\.]?] *)
Definition skip_dot (s : string) : string :=
  match s with
  | String c s' => if Ascii.eqb c (ascii_of_nat 46) then s' else s
  | EmptyString => s
  end.

(** [$] matches at the end of the string and before a newline that ends it. *)
Definition at_end (s : string) : bool :=
  match s with
  | EmptyString => true
  | String c EmptyString => Ascii.eqb c (ascii_of_nat 10)
  | _ => false
  end.

(** [re.match(r'^[\d]+[\.]?[\d]*$', s)]: [\d+] has taken a digit when what
    is left is not the whole string. *)
Definition numeric_string (s : string) : bool :=
  let r := skip_digits s in
  negb (String.eqb r s) && at_end (skip_digits (skip_dot r)).

(** The string part of [quote_numeric_string] *)
Definition quote_str (s : string) : string :=
  if numeric_string s then dq +:+ s +:+ dq else s.

(** [t in s] for two strings *)
Definition is_substring (t s : string) : bool :=
  match String.index 0 t s with Some _ => true | None => false end.

(** [os.path.basename] *)
Fixpoint basename_from (s acc : string) : string :=
  match s with
  | EmptyString => acc
  | String c s' =>
      if Ascii.eqb c (ascii_of_nat 47) then basename_from s' s'
      else basename_from s' acc
  end.
Definition basename (path : string) : string := basename_from path path.

Fixpoint all_dots (s : string) : bool :=
  match s with
  | EmptyString => true
  | String c s' => Ascii.eqb c (ascii_of_nat 46) && all_dots s'
  end.

(** The extension of [os.path.splitext]: from the last dot of the last
    component, unless only dots come before it. *)
Fixpoint ext_from (s : string) (seen : string) : string :=
  match s with
  | EmptyString => EmptyString
  | String c s' =>
      let later := ext_from s' (seen +:+ String c EmptyString) in
      if negb (String.eqb later EmptyString) then later
      else if Ascii.eqb c (ascii_of_nat 46) && negb (all_dots seen) then s
      else EmptyString
  end.
Definition splitext_ext (path : string) : string :=
  ext_from (basename path) EmptyString.

Definition starts_with (p s : string) : bool := String.prefix p s.

(** *** Heap operations *)

Definition new_object (o : obj) : Py heap value :=
  λ h, (Ok (VRef (length h)), h ++ [o]).
Definition new_dict (d : dict) : Py heap value := new_object (ODict d).
Definition new_list (xs : list value) : Py heap value := new_object (OList xs).

(** [v.get(k)], with [None] for a missing key *)
Definition py_get (v : value) (k : string) : Py heap value :=
  λ h, match as_dict h v with
       | Some d => (Ok (default VNone (dict_get d k)), h)
       | None => (Raise AttributeError, h)
       end.

(** [v.get(k, dflt)] *)
Definition py_get_default (v : value) (k : string) (dflt : value) : Py heap value :=
  λ h, match as_dict h v with
       | Some d => (Ok (default dflt (dict_get d k)), h)
       | None => (Raise AttributeError, h)
       end.

(** [v[k]] *)
Definition getitem (v : value) (k : string) : Py heap value :=
  λ h, match as_dict h v with
       | Some d => match dict_get d k with
                   | Some x => (Ok x, h)
                   | None => (Raise KeyError, h)
                   end
       | None => (Raise TypeError, h)
       end.

(** [v[k] = x] *)
Definition setitem (v : value) (k : string) (x : value) : Py heap unit :=
  λ h, match v with
       | VRef l =>
           match h !! l with
           | Some (ODict d) => (Ok tt, <[l := ODict (dict_set d k x)]> h)
           | _ => (Raise TypeError, h)
           end
       | _ => (Raise TypeError, h)
       end.

(** [v.append(x)] *)
Definition list_append (v : value) (x : value) : Py heap unit :=
  λ h, match v with
       | VRef l =>
           match h !! l with
           | Some (OList xs) => (Ok tt, <[l := OList (xs ++ [x])]> h)
           | _ => (Raise AttributeError, h)
           end
       | _ => (Raise AttributeError, h)
       end.

(** The items of a list, for [in] and [for] *)
Definition list_items (v : value) : Py heap (list value) :=
  λ h, match as_list h v with
       | Some xs => (Ok xs, h)
       | None => (Raise TypeError, h)
       end.

(** ** JSON documents and container snapshots *)

Inductive json :=
| JNone
| JBool (b : bool)
| JInt (n : Z)
| JStr (s : string)
| JList (xs : list json)
| JDict (kvs : list (string * json)).

(** [thread f xs h]: [f] on each element in turn, on the heap the one
    before has left *)
Fixpoint thread {A B} (f : A → heap → B * heap) (xs : list A) (h : heap)
    : list B * heap :=
  match xs with
  | [] => ([], h)
  | x :: xs' =>
      let '(v, h1) := f x h in
      let '(vs, h2) := thread f xs' h1 in
      (v :: vs, h2)
  end.

(** Building the Python object of a document: every list and dict of the
    document becomes a new heap object. *)
Fixpoint thaw (j : json) (h : heap) : value * heap :=
  match j with
  | JNone => (VNone, h)
  | JBool b => (VBool b, h)
  | JInt n => (VInt n, h)
  | JStr s => (VStr s, h)
  | JList xs =>
      let '(vs, h1) := thread thaw xs h in
      (VRef (length h1), h1 ++ [OList vs])
  | JDict kvs =>
      let '(d, h1) :=
        thread (λ kv h, let '(k, x) := kv in
                        let '(v, h') := thaw x h in ((k, v), h')) kvs h in
      (VRef (length h1), h1 ++ [ODict d])
  end.

(** A file of a container *)
Record file := { f_name : string; f_type : option string }.

(** A container as the origin store returns it: [c_label] is the label of
    a session or an acquisition and the code of a subject, [c_info] the
    info map. *)
Record container := {
  c_id : string;
  c_label : string;
  c_info : list (string * json);
  c_fields : list (string * json);
  c_files : list file
}.

(** [container.to_dict()]: a new dict per call. *)
Definition to_dict (c : container) : Py heap value :=
  λ h, let '(v, h') :=
         thaw (JDict (("id", JStr (c_id c)) :: ("label", JStr (c_label c))
                        :: ("info", JDict (c_info c)) :: c_fields c)) h in
       (Ok v, h').

(** The origin tree.  A session is handed around with its acquisitions,
    its subject and its project, which the code reaches through
    [session.acquisitions()], [session.subject] and [session.project]. *)
Record session_node := {
  ses_container : container;
  ses_acquisitions : list container
}.

Record subject_node := {
  sub_container : container;
  sub_sessions : list session_node
}.

Record project_node := {
  p_container : container;
  p_subjects : list subject_node
}.

Record origin_session := {
  os_session : container;
  os_acquisitions : list container;
  os_subject : container;
  os_project : container
}.

(** [subject.sessions()] *)
Definition sessions_of (project : container) (s : subject_node)
    : list origin_session :=
  map (λ n, {| os_session := ses_container n;
               os_acquisitions := ses_acquisitions n;
               os_subject := sub_container s;
               os_project := project |}) (sub_sessions s).

(** What [fw_client.get(container_id)] returns for the scope of a run *)
Inductive scope :=
| ProjectScope (p : project_node)
| SubjectScope (project : container) (s : subject_node)
| SessionScope (s : origin_session)
| OtherScope (container_type : string).

Definition scope_type (c : scope) : string :=
  match c with
  | ProjectScope _ => "project"
  | SubjectScope _ _ => "subject"
  | SessionScope _ => "session"
  | OtherScope t => t
  end.

(** ** The destination store

    Modelled from the spec: the remote store (spec 3, 4.2 and 6) is
    outside the repository.  A container of the destination has an
    identifier (its position in the store), a type, a parent, a label (the
    code of a subject), metadata fields and an info map.  What a request
    sends is the object graph below the payload at the time of the call: a
    value with the heap it is read in. *)

Inductive ctype := Project | Subject | Session | Acquisition.

Definition ctype_eqb (a b : ctype) : bool :=
  match a, b with
  | Project, Project | Subject, Subject | Session, Session
  | Acquisition, Acquisition => true
  | _, _ => false
  end.

Definition ctype_name (t : ctype) : string :=
  match t with
  | Project => "project" | Subject => "subject"
  | Session => "session" | Acquisition => "acquisition"
  end.

Definition snapshot : Type := heap * value.

Record dcontainer := {
  d_type : ctype;
  d_parent : option nat;
  d_label : string;
  d_fields : list (string * snapshot);
  d_info : list (string * snapshot)
}.

Abbreviation store := (list dcontainer).

(** [info.export.origin_id] of a destination container *)
Definition d_origin_id (c : dcontainer) : option string :=
  match dict_get (d_info c) "export" with
  | Some (h, v) =>
      match as_dict h v with
      | Some d => match dict_get d "origin_id" with
                  | Some (VStr s) => Some s
                  | _ => None
                  end
      | None => None
      end
  | None => None
  end.

(** ** Files, export jobs and report rows *)

(** A reference to an origin container: its type and its id *)
Definition origin_ref : Type := ctype * string.

(** Modelled from the spec: [FileExporter] (deid_export/file_exporter.py)
    is not among the sources.  A job (spec 3, FileExportJob) has an origin
    parent, an origin filename, a destination parent, a destination filename
    override, an overwrite flag, a state and an error text. *)
Record FileExporter := {
  fe_origin_parent : origin_ref;
  fe_origin_filename : string;
  fe_dest_parent : nat;
  fe_filename : option string;
  fe_overwrite : bool;
  fe_state : string;
  fe_errors : option string;
  fe_file_id : option string
}.

(** Modelled from the spec (4.3): the destination filename of a job is the
    override when there is one, and the origin filename otherwise. *)
Definition export_filename (fe : FileExporter) : string :=
  default (fe_origin_filename fe) (fe_filename fe).

(** A row of the report, with the columns of spec 6; [r_origin_parent] is
    the pair of the columns [origin_parent_type] and [origin_parent]. *)
Record row := {
  r_origin_filename : string;
  r_origin_parent : origin_ref;
  r_export_filename : option string;
  r_export_file_id : option string;
  r_export_parent : option nat;
  r_state : string;
  r_errors : option string
}.

(** A call of [_export_session], kept to observe the schedule of a run *)
Record call := {
  call_session : string;
  call_project_files : bool;
  call_subject_files : bool;
  call_error_msg : option string
}.

(** ** The world *)

Record world := {
  w_heap : heap;
  w_store : store;
  w_reports : list (string * list row);
  w_templates : list (string * option json);
  w_transfers : list FileExporter;
  w_calls : list call;
  w_tmp : nat
}.

Definition set_heap (w : world) (h : heap) : world :=
  {| w_heap := h; w_store := w_store w; w_reports := w_reports w;
     w_templates := w_templates w; w_transfers := w_transfers w;
     w_calls := w_calls w; w_tmp := w_tmp w |}.
Definition set_store (w : world) (st : store) : world :=
  {| w_heap := w_heap w; w_store := st; w_reports := w_reports w;
     w_templates := w_templates w; w_transfers := w_transfers w;
     w_calls := w_calls w; w_tmp := w_tmp w |}.
Definition set_reports (w : world) (fs : list (string * list row)) : world :=
  {| w_heap := w_heap w; w_store := w_store w; w_reports := fs;
     w_templates := w_templates w; w_transfers := w_transfers w;
     w_calls := w_calls w; w_tmp := w_tmp w |}.
Definition set_templates (w : world) (ts : list (string * option json)) : world :=
  {| w_heap := w_heap w; w_store := w_store w; w_reports := w_reports w;
     w_templates := ts; w_transfers := w_transfers w;
     w_calls := w_calls w; w_tmp := w_tmp w |}.
Definition set_transfers (w : world) (ts : list FileExporter) : world :=
  {| w_heap := w_heap w; w_store := w_store w; w_reports := w_reports w;
     w_templates := w_templates w; w_transfers := ts;
     w_calls := w_calls w; w_tmp := w_tmp w |}.
Definition set_calls (w : world) (cs : list call) : world :=
  {| w_heap := w_heap w; w_store := w_store w; w_reports := w_reports w;
     w_templates := w_templates w; w_transfers := w_transfers w;
     w_calls := cs; w_tmp := w_tmp w |}.
Definition set_tmp (w : world) (n : nat) : world :=
  {| w_heap := w_heap w; w_store := w_store w; w_reports := w_reports w;
     w_templates := w_templates w; w_transfers := w_transfers w;
     w_calls := w_calls w; w_tmp := n |}.

(** A computation on the heap, run in the world *)
Definition in_heap {A} (m : Py heap A) : Py world A :=
  λ w, let '(r, h) := m (w_heap w) in (r, set_heap w h).

(** ** Collaborators outside the repository *)

(** The mapping of old subject codes to new ones that
    [deid_template.validate] returns *)
Definition subject_table : Type := list (string * string).

(** What a call of [deid_template.get_updated_template] comes to: the
    template it writes, or an exception, of which the code reads the text
    [str(e)] and nothing else *)
Inductive derivation :=
| Derived (template : json)
| Failed (text : string).

Class Collaborators := {
  (** [hashlib.sha1(s.encode()).hexdigest()] *)
  sha1_hexdigest : string → string;
  (** [str(x)] for a list or a dict *)
  py_repr : heap → loc → string;
  (** [json.load] and [yaml.load] of the file at a path that is not one
      of the templates written during the run: the document of the file,
      every list and dict of which is an object of its own (a YAML file is
      taken without aliases) *)
  read_template : string → result json;
  (** the state and the error text of a new [FileExporter] *)
  exporter_state : origin_ref → string → nat → option string → bool
                   → string * option string;
  (** [FileExporter.local_deid_export]: the state, the error text and the
      id of the exported file afterwards *)
  local_deid_export : FileExporter → string
                      → string * option string * option string;
  (** [deid_template.validate] *)
  validate : string → string → string → string → result (option subject_table);
  (** [deid_template.get_updated_template] *)
  get_updated_template : subject_table → snapshot → string → string → string
                         → derivation
}.

Section ContainerExport.
Context `{Collaborators}.

Definition META_WHITELIST_DICT (container_type : string) : option (list string) :=
  if String.eqb container_type "acquisition" then
    Some ["timestamp"; "timezone"; "uid"]
  else if String.eqb container_type "subject" then
    Some ["firstname"; "lastname"; "sex"; "cohort"; "ethnicity"; "race";
          "species"; "strain"]
  else if String.eqb container_type "session" then
    Some ["age"; "operator"; "timestamp"; "timezone"; "uid"; "weight"]
  else None.

Definition hash_string (input_str : string) : string := sha1_hexdigest input_str.

(** The first argument of [create_metadata_dict]: a dict, or a container
    object, which has [reload] and [to_dict]. *)
Inductive origin_arg :=
| Snapshot (v : value)
| Live (c : container).

(** [create_metadata_dict], lines 141-153: the whitelists of the config.
    [meta_wl] and [info_wl] are the two empty lists the caller has just
    made; a list found in the config is used as it is, not copied. *)
Definition parse_whitelists (container_type : string) (container_config : value)
    (meta_wl info_wl : value) : Py heap (value * value) :=
  h ← get_state;
  match as_dict h container_config with
  | None => mret (meta_wl, info_wl)
  | Some config =>
      match as_dict h (default VNone (dict_get config "whitelist")) with
      | None => mret (meta_wl, info_wl)
      | Some whitelist_dict =>
          let metadata := default VNone (dict_get whitelist_dict "metadata") in
          let info := default VNone (dict_get whitelist_dict "info") in
          meta_wl ←
            (if is_list h metadata then mret metadata
             else match metadata with
                  | VStr s =>
                      if String.eqb (lower s) "all" then
                        match META_WHITELIST_DICT container_type with
                        | Some fields => new_list (map VStr fields)
                        | None => raise TypeError
                        end
                      else mret meta_wl
                  | _ => mret meta_wl
                  end);
          h ← get_state;
          if is_list h info then mret (meta_wl, info)
          else match info with
               | VStr s =>
                   if String.eqb (lower s) "all" then
                     list_append meta_wl (VStr "info") ≫= λ _,
                     mret (meta_wl, info_wl)
                   else mret (meta_wl, info_wl)
               | _ => mret (meta_wl, info_wl)
               end
      end
  end.

(** Lines 162-164, the body of the loop over the items of the origin info *)
Definition copy_info_item (meta_dict info_wl : value) (item : string * value)
    : Py heap unit :=
  let '(key, val) := item in
  allowed ← list_items info_wl;
  if str_in key allowed then
    target ← getitem meta_dict "info";
    setitem target key val
  else mret tt.

(** Lines 155-164: [meta_dict['info']] is the origin's own info object when
    ['info'] is in [meta_wl], and a new dict with the whitelisted items
    otherwise.  The loop writes to that new dict only, so the items of the
    origin info are those at its start. *)
Definition copy_info (origin_container meta_dict meta_wl info_wl : value)
    : Py heap unit :=
  empty_info ← new_dict [];
  setitem meta_dict "info" empty_info ≫= λ _,
  wl ← list_items meta_wl;
  if str_in "info" wl then
    origin_info ← py_get origin_container "info";
    setitem meta_dict "info" origin_info
  else
    origin_info ← py_get origin_container "info";
    h ← get_state;
    match as_dict h origin_info with
    | Some items => for_each items (copy_info_item meta_dict info_wl)
    | None => mret tt
    end.

(** Line 167: [meta_dict['info']['export'] = {'origin_id': hash_string(id)}];
    the right-hand side is evaluated first, and [encode] is an attribute
    of strings only. *)
Definition set_export_origin_id (origin_container meta_dict : value)
    : Py heap unit :=
  oid ← py_get origin_container "id";
  digest ← match oid with
           | VStr s => mret (hash_string s)
           | _ => raise AttributeError
           end;
  export ← new_dict [("origin_id", VStr digest)];
  target ← getitem meta_dict "info";
  setitem target "export" export.

(** [meta_dict.keys()] *)
Definition keys_of (v : value) : Py heap (list string) :=
  λ h, match as_dict h v with
       | Some d => (Ok (dict_keys d), h)
       | None => (Raise AttributeError, h)
       end.

(** Lines 172-173, the body of the loop over [meta_wl] *)
Definition copy_field (origin_container : value)
    (meta_whitelist : option (list string)) (meta_dict item : value)
    : Py heap unit :=
  permitted ← match meta_whitelist with
              | Some fields =>
                  mret (match item with
                        | VStr s => existsb (String.eqb s) fields
                        | _ => false
                        end)
              | None => raise TypeError
              end;
  match item with
  | VStr s =>
      if (permitted : bool) then
        v ← py_get origin_container s;
        h ← get_state;
        if truthy h v then
          keys ← keys_of meta_dict;
          if existsb (String.eqb s) keys then mret tt
          else v ← py_get origin_container s; setitem meta_dict s v
        else mret tt
      else mret tt
  | _ => mret tt
  end.

(** Lines 168-173: the fields that are not info *)
Definition copy_fields (origin_container : value) (container_type : string)
    (meta_dict meta_wl : value) : Py heap unit :=
  let meta_whitelist := META_WHITELIST_DICT container_type in
  wl ← list_items meta_wl;
  for_each wl (copy_field origin_container meta_whitelist meta_dict).

Definition create_metadata_dict (origin_container : origin_arg)
    (container_type : string) (container_config : value) : Py heap value :=
  origin_container ← match origin_container with
                     | Live c => to_dict c
                     | Snapshot v => mret v
                     end;
  oid ← py_get origin_container "id";
  h ← get_state;
  if negb (truthy h oid) then raise ValueError else
  meta_dict ← new_dict [];
  meta_wl ← new_list [];
  info_wl ← new_list [];
  '(meta_wl, info_wl) ←
    parse_whitelists container_type container_config meta_wl info_wl;
  copy_info origin_container meta_dict meta_wl info_wl ≫= λ _,
  set_export_origin_id origin_container meta_dict ≫= λ _,
  copy_fields origin_container container_type meta_dict meta_wl ≫= λ _,
  mret meta_dict.

(** [str(x)] *)
Definition py_str (h : heap) (v : value) : string :=
  match v with
  | VNone => "None"
  | VBool true => "True"
  | VBool false => "False"
  | VInt n => NilZero.string_of_int (Z.to_int n)
  | VStr s => s
  | VRef l => py_repr h l
  end.

(** A value that is not a string is coerced with [str] (and a warning). *)
Definition quote_numeric_string (input_str : value) : Py heap string :=
  λ h, (Ok (quote_str (py_str h input_str)), h).

(** *** The operations of the store

    Modelled from the spec (4.2 and 6): the remote query engine is outside
    the repository.  A filter is a string, the comma-joined [field=value]
    conditions that all have to hold.  A value between double quotes is the
    string between them; a bare value that looks purely numeric (digits,
    with one decimal point at most) is a number, which no label, code or
    origin id equals; any other bare value is a string.  A piece of the
    filter that is no [field=value], and a condition on a field other than
    the label, the code and [info.export.origin_id], hold for no
    container. *)

(** The pieces of [s] between the separators, after [piece] *)
Fixpoint split_on (sep : ascii) (piece s : string) : list string :=
  match s with
  | EmptyString => [piece]
  | String c s' =>
      if Ascii.eqb c sep then piece :: split_on sep EmptyString s'
      else split_on sep (piece +:+ String c EmptyString) s'
  end.

(** [s] cut at its first separator, after [field] *)
Fixpoint cut_on (sep : ascii) (field s : string) : option (string * string) :=
  match s with
  | EmptyString => None
  | String c s' =>
      if Ascii.eqb c sep then Some (field, s')
      else cut_on sep (field +:+ String c EmptyString) s'
  end.

(** [s] without its last character, when that is [c] *)
Fixpoint but_last (c : ascii) (s : string) : option string :=
  match s with
  | EmptyString => None
  | String a EmptyString => if Ascii.eqb a c then Some EmptyString else None
  | String a s' => String a <$> but_last c s'
  end.

(** The string between the double quotes of a quoted value *)
Definition unquote (v : string) : option string :=
  match v with
  | String a r => if Ascii.eqb a (ascii_of_nat 34) then but_last (ascii_of_nat 34) r
                  else None
  | EmptyString => None
  end.

(** Digits, with one decimal point at most when [point] *)
Fixpoint numeral_tail (point : bool) (s : string) : bool :=
  match s with
  | EmptyString => true
  | String c s' =>
      if is_digit c then numeral_tail point s'
      else Ascii.eqb c (ascii_of_nat 46) && point && numeral_tail false s'
  end.

(** A value that looks purely numeric *)
Definition numeral (v : string) : bool :=
  match v with
  | String c s' => is_digit c && numeral_tail true s'
  | EmptyString => false
  end.

(** The string that a value of a condition stands for, none for a number *)
Definition literal (v : string) : option string :=
  match unquote v with
  | Some s => Some s
  | None => if numeral v then None else Some v
  end.

Definition cond_holds (c : dcontainer) (cond : string) : bool :=
  match cut_on "=" EmptyString cond with
  | Some (field, val) =>
      if String.eqb field "label" || String.eqb field "code" then
        match literal val with
        | Some s => String.eqb s (d_label c)
        | None => false
        end
      else if String.eqb field "info.export.origin_id" then
        match literal val, d_origin_id c with
        | Some s, Some o => String.eqb s o
        | _, _ => false
        end
      else false
  | None => false
  end.

Definition child_matches (parent : nat) (ty : ctype) (filter : string)
    (c : dcontainer) : bool :=
  ctype_eqb (d_type c) ty
  && match d_parent c with Some p => (p =? parent)%nat | None => false end
  && forallb (cond_holds c) (split_on "," EmptyString filter).

Fixpoint find_index {A} (f : A → bool) (xs : list A) (i : nat) : option nat :=
  match xs with
  | [] => None
  | x :: xs' => if f x then Some i else find_index f xs' (S i)
  end.

(** [parent.<children>.find_first(filter)] *)
Definition find_first (parent : nat) (ty : ctype) (filter : string)
    : Py world (option nat) :=
  λ w, (Ok (find_index (child_matches parent ty filter) (w_store w) 0), w).

Definition snap (h : heap) (d : dict) : list (string * snapshot) :=
  map (λ '(k, v), (k, (h, v))) d.

Definition is_reserved (k : string) : bool :=
  String.eqb k "info" || String.eqb k "label" || String.eqb k "code".

(** The info map of a payload: none when the payload has no info *)
Definition payload_info (h : heap) (d : dict) : result dict :=
  match dict_get d "info" with
  | None | Some VNone => Ok []
  | Some v => match as_dict h v with
              | Some di => Ok di
              | None => Raise ApiException
              end
  end.

(** [parent.add_<child>(<names>=label, **payload)]: a keyword given twice
    is a [TypeError]; labels and codes are strings (spec 3). *)
Definition add_child (parent : nat) (ty : ctype) (names : list string)
    (label payload : value) : Py world nat :=
  λ w,
    let h := w_heap w in
    match as_dict h payload with
    | None => (Raise TypeError, w)
    | Some d =>
        if existsb (λ k, existsb (String.eqb k) names) (dict_keys d)
        then (Raise TypeError, w)
        else
          match label, payload_info h d with
          | VStr s, Ok di =>
              let c := {| d_type := ty; d_parent := Some parent; d_label := s;
                          d_fields :=
                            snap h (List.filter (λ kv, negb (is_reserved kv.1)) d);
                          d_info := snap h di |} in
              (Ok (length (w_store w)), set_store w (w_store w ++ [c]))
          | _, _ => (Raise ApiException, w)
          end
    end.

(** The items of [new] are set in [old]; the binding of a key that counts
    is its first one, as for [dict_get]. *)
Definition merge {A} (old new : list (string * A)) : list (string * A) :=
  fold_right (λ kv acc, dict_set acc kv.1 kv.2) old new.

(** [container.update(payload)]: the fields and the info items of the
    payload are set, and nothing else is touched (spec 4.2). *)
Definition update (id : nat) (payload : value) : Py world unit :=
  λ w,
    let h := w_heap w in
    match w_store w !! id, as_dict h payload with
    | Some c, Some d =>
        let label :=
          match dict_get d "label", dict_get d "code" with
          | Some v, _ | None, Some v => Some v
          | None, None => None
          end in
        match label, payload_info h d with
        | Some (VStr s), Ok di =>
            (Ok tt, set_store w (<[id :=
               {| d_type := d_type c; d_parent := d_parent c; d_label := s;
                  d_fields := merge (d_fields c)
                    (snap h (List.filter (λ kv, negb (is_reserved kv.1)) d));
                  d_info := merge (d_info c) (snap h di) |}]> (w_store w)))
        | None, Ok di =>
            (Ok tt, set_store w (<[id :=
               {| d_type := d_type c; d_parent := d_parent c;
                  d_label := d_label c;
                  d_fields := merge (d_fields c)
                    (snap h (List.filter (λ kv, negb (is_reserved kv.1)) d));
                  d_info := merge (d_info c) (snap h di) |}]> (w_store w)))
        | _, _ => (Raise ApiException, w)
        end
    | _, _ => (Raise ApiException, w)
    end.

(** [if not config: config = dict()] *)
Definition config_or_dict (config : value) : Py heap value :=
  h ← get_state;
  if truthy h config then mret config else new_dict [].

(** *** The matchers.  [reload] returns the container it is called on: the
    origin does not change during a run, and a destination container is
    read from the store at each use. *)

Definition find_or_create_subject (origin_subject : container) (dest_proj : nat)
    (subject_config : value) : Py world nat :=
  subject_config ← in_heap (config_or_dict subject_config);
  new_code ← in_heap (py_get_default subject_config "code"
                        (VStr (c_label origin_subject)));
  query_code ← in_heap (quote_numeric_string new_code);
  dest_subject ← find_first dest_proj Subject ("code=" +:+ query_code);
  meta_dict ← in_heap (create_metadata_dict (Live origin_subject) "subject"
                         subject_config);
  match dest_subject with
  | None => add_child dest_proj Subject ["code"; "label"] new_code meta_dict
  | Some dest_subject => update dest_subject meta_dict ≫= λ _, mret dest_subject
  end.

Definition find_or_create_subject_session (origin_session : container)
    (dest_subject : nat) (session_config : value) : Py world nat :=
  session_config ← in_heap (config_or_dict session_config);
  new_label ← in_heap (py_get_default session_config "label"
                         (VStr (c_label origin_session)));
  quoted ← in_heap (quote_numeric_string new_label);
  let query := "label=" +:+ quoted +:+ ",info.export.origin_id="
               +:+ dq +:+ hash_string (c_id origin_session) +:+ dq in
  dest_session ← find_first dest_subject Session query;
  meta_dict ← in_heap (create_metadata_dict (Live origin_session) "session"
                         session_config);
  match dest_session with
  | None => add_child dest_subject Session ["label"] new_label meta_dict
  | Some dest_session => update dest_session meta_dict ≫= λ _, mret dest_session
  end.

Definition find_or_create_session_acquisition (origin_acquisition : container)
    (dest_session : nat) (acquisition_config : value) : Py world nat :=
  acquisition_config ← in_heap (config_or_dict acquisition_config);
  quoted ← in_heap (quote_numeric_string (VStr (c_label origin_acquisition)));
  let query := "label=" +:+ quoted +:+ ",info.export.origin_id="
               +:+ dq +:+ hash_string (c_id origin_acquisition) +:+ dq in
  dest_acquisition ← find_first dest_session Acquisition query;
  meta_dict ← in_heap (create_metadata_dict (Live origin_acquisition)
                         "acquisition" acquisition_config);
  match dest_acquisition with
  | None => add_child dest_session Acquisition ["label"]
              (VStr (c_label origin_acquisition)) meta_dict
  | Some dest_acquisition =>
      update dest_acquisition meta_dict ≫= λ _, mret dest_acquisition
  end.

(** *** File export jobs *)

Definition new_FileExporter (origin_parent : origin_ref) (origin_filename : string)
    (dest_parent : nat) (filename : option string) (overwrite : bool)
    : FileExporter :=
  let '(st, err) :=
    exporter_state origin_parent origin_filename dest_parent filename overwrite in
  {| fe_origin_parent := origin_parent; fe_origin_filename := origin_filename;
     fe_dest_parent := dest_parent; fe_filename := filename;
     fe_overwrite := overwrite; fe_state := st; fe_errors := err;
     fe_file_id := None |}.

Definition get_status_dict (fe : FileExporter) : row :=
  {| r_origin_filename := fe_origin_filename fe;
     r_origin_parent := fe_origin_parent fe;
     r_export_filename := Some (export_filename fe);
     r_export_file_id := fe_file_id fe;
     r_export_parent := Some (fe_dest_parent fe);
     r_state := fe_state fe;
     r_errors := fe_errors fe |}.

(** [file.type in xs] for the items [xs] of a list; the type of a file is
    a string or [None]. *)
Definition listed (file_type : option string) (xs : list value) : bool :=
  match file_type with
  | Some t => str_in t xs
  | None => existsb (λ v, match v with VNone => true | _ => false end) xs
  end.

(** [file.type in filetype_list]: membership in a list, a key test in a
    dict, a substring test in a string *)
Definition type_in (file_type : option string) (filetype_list : value)
    : Py heap bool :=
  λ h,
    match as_list h filetype_list, as_dict h filetype_list, filetype_list with
    | Some xs, _, _ => (Ok (listed file_type xs), h)
    | None, Some d, _ =>
        (Ok (match file_type with
             | Some t => existsb (String.eqb t) (dict_keys d)
             | None => false
             end), h)
    | None, None, VStr s =>
        match file_type with
        | Some t => (Ok (is_substring t s), h)
        | None => (Raise TypeError, h)
        end
    | None, None, _ => (Raise TypeError, h)
    end.

Definition initialize_container_file_export (origin_type : ctype)
    (origin_container : container) (dest_container : nat)
    (filename_dict : list (string * string)) (filetype_list : value)
    (overwrite : bool) : Py heap (list FileExporter) :=
  fold_m (c_files origin_container) [] (λ file_exporter_list container_file,
    let export_filename := dict_get filename_dict (f_name container_file) in
    listed ← type_in (f_type container_file) filetype_list;
    if (listed : bool) then
      let tmp_file_exporter :=
        new_FileExporter (origin_type, c_id origin_container)
          (f_name container_file) dest_container export_filename overwrite in
      mret (file_exporter_list ++ [tmp_file_exporter])
    else mret file_exporter_list).

(** The module-level [local_file_export]: the job is rebuilt from its
    status dict and run unless it is already in error. *)
Definition local_file_export (file_exporter_dict : row) (template_path : string)
    (overwrite : bool) : Py world row :=
  λ w,
    let file_exporter :=
      new_FileExporter (r_origin_parent file_exporter_dict)
        (r_origin_filename file_exporter_dict)
        (default 0 (r_export_parent file_exporter_dict))
        (r_export_filename file_exporter_dict) overwrite in
    if String.eqb (fe_state file_exporter) "error" then
      (Ok (get_status_dict file_exporter), w)
    else
      let '(st, err, fid) := local_deid_export file_exporter template_path in
      let done :=
        {| fe_origin_parent := fe_origin_parent file_exporter;
           fe_origin_filename := fe_origin_filename file_exporter;
           fe_dest_parent := fe_dest_parent file_exporter;
           fe_filename := fe_filename file_exporter;
           fe_overwrite := fe_overwrite file_exporter;
           fe_state := st; fe_errors := err; fe_file_id := fid |} in
      (Ok (get_status_dict done),
       set_transfers w (w_transfers w ++ [file_exporter])).

(** *** [SessionExporter]: the object is passed to each method and
    returned by it *)

Record SessionExporter := {
  se_export_config : value;
  se_origin_project : container;
  se_dest_proj : nat;
  se_origin : origin_session;
  se_file_types : value;
  se_files : list FileExporter;
  se_dest_subject : option nat;
  se_dest : option nat
}.

Definition with_dest_subject (self : SessionExporter) (d : option nat) :=
  {| se_export_config := se_export_config self;
     se_origin_project := se_origin_project self;
     se_dest_proj := se_dest_proj self; se_origin := se_origin self;
     se_file_types := se_file_types self; se_files := se_files self;
     se_dest_subject := d; se_dest := se_dest self |}.
Definition with_dest (self : SessionExporter) (d : option nat) :=
  {| se_export_config := se_export_config self;
     se_origin_project := se_origin_project self;
     se_dest_proj := se_dest_proj self; se_origin := se_origin self;
     se_file_types := se_file_types self; se_files := se_files self;
     se_dest_subject := se_dest_subject self; se_dest := d |}.
Definition with_files (self : SessionExporter) (fs : list FileExporter) :=
  {| se_export_config := se_export_config self;
     se_origin_project := se_origin_project self;
     se_dest_proj := se_dest_proj self; se_origin := se_origin self;
     se_file_types := se_file_types self; se_files := fs;
     se_dest_subject := se_dest_subject self; se_dest := se_dest self |}.

(** [container.subject] of a destination container: its parent *)
Definition parent_of (id : nat) : Py world nat :=
  λ w, match w_store w !! id with
       | Some c => match d_parent c with
                   | Some p => (Ok p, w)
                   | None => (Raise AttributeError, w)
                   end
       | None => (Raise ApiException, w)
       end.

(** [SessionExporter.__init__] *)
Definition new_SessionExporter (origin_session : origin_session)
    (dest_proj_id : nat) (export_config : value)
    (dest_container_id : option nat) : Py world SessionExporter :=
  export_config ← in_heap (h ← get_state;
                           if is_dict h export_config then mret export_config
                           else new_dict []);
  dicom ← in_heap (new_list [VStr "dicom"]);
  file_types ← in_heap (py_get_default export_config "file_types" dicom);
  dest_subject ← match dest_container_id with
                 | Some id => parent_of id ≫= λ p, mret (Some p)
                 | None => mret None
                 end;
  mret {| se_export_config := export_config;
          se_origin_project := os_project origin_session;
          se_dest_proj := dest_proj_id; se_origin := origin_session;
          se_file_types := file_types; se_files := [];
          se_dest_subject := dest_subject; se_dest := dest_container_id |}.

Definition find_or_create_dest_subject (self : SessionExporter)
    : Py world SessionExporter :=
  match se_dest_subject self with
  | Some _ => mret self
  | None =>
      subject_config ← in_heap (py_get (se_export_config self) "subject");
      dest_subject ← find_or_create_subject (os_subject (se_origin self))
                       (se_dest_proj self) subject_config;
      mret (with_dest_subject self (Some dest_subject))
  end.

Definition find_or_create_dest (self : SessionExporter)
    : Py world SessionExporter :=
  match se_dest self with
  | Some _ => mret self
  | None =>
      self ← match se_dest_subject self with
             | Some _ => mret self
             | None => find_or_create_dest_subject self
             end;
      match se_dest_subject self with
      | None => raise AttributeError
      | Some dest_subject =>
          session_config ← in_heap (py_get (se_export_config self) "session");
          dest ← find_or_create_subject_session (os_session (se_origin self))
                   dest_subject session_config;
          mret (with_dest self (Some dest))
      end
  end.

Definition find_or_create_acquisitions (self : SessionExporter)
    : Py world SessionExporter :=
  self ← match se_dest self with
         | Some _ => mret self
         | None => find_or_create_dest self
         end;
  match se_dest self with
  | None => raise AttributeError
  | Some dest =>
      for_each (os_acquisitions (se_origin self)) (λ acquisition,
        acquisition_config ← in_heap (py_get (se_export_config self) "acquisition");
        find_or_create_session_acquisition acquisition dest acquisition_config
          ≫= λ _, mret tt) ≫= λ _,
      mret self
  end.

Definition initialize_files (self : SessionExporter)
    (subject_files project_files : bool)
    (filename_dict : option (list (string * string)))
    : Py world SessionExporter :=
  let filename_dict := default [] filename_dict in
  self ← match se_dest self with
         | Some _ => mret self
         | None => find_or_create_dest self
         end;
  match se_dest self with
  | None => raise AttributeError
  | Some dest =>
      (* project files *)
      self ← (if project_files then
                proj_file_list ← in_heap (initialize_container_file_export
                  Project (se_origin_project self) (se_dest_proj self)
                  filename_dict (se_file_types self) false);
                mret (with_files self (se_files self ++ proj_file_list))
              else mret self);
      (* subject files *)
      self ← (if subject_files then
                dest_subject ← parent_of dest;
                subj_file_list ← in_heap (initialize_container_file_export
                  Subject (os_subject (se_origin self)) dest_subject
                  filename_dict (se_file_types self) false);
                mret (with_files self (se_files self ++ subj_file_list))
              else mret self);
      (* session files *)
      sess_file_list ← in_heap (initialize_container_file_export
        Session (os_session (se_origin self)) dest
        filename_dict (se_file_types self) false);
      let self := with_files self (se_files self ++ sess_file_list) in
      (* acquisition files *)
      fold_m (os_acquisitions (se_origin self)) self (λ self origin_acq,
        acquisition_config ← in_heap (py_get (se_export_config self) "acquisition");
        dest_acq ← find_or_create_session_acquisition origin_acq dest
                     acquisition_config;
        tmp_acq_file_list ← in_heap (initialize_container_file_export
          Acquisition origin_acq dest_acq
          filename_dict (se_file_types self) false);
        mret (with_files self (se_files self ++ tmp_acq_file_list)))
  end.

(** [SessionExporter.local_file_export]: the jobs do not share state, and
    [joblib.Parallel] returns their results in the order of submission;
    they are run here one after the other. *)
Definition run_file_exports (self : SessionExporter) (template_path : string)
    (overwrite : bool) : Py world (list row) :=
  let file_list := map get_status_dict (se_files self) in
  fold_m file_list [] (λ dict_list file_exporter,
    status ← local_file_export file_exporter template_path overwrite;
    mret (dict_list ++ [status])).

Definition get_status_df (self : SessionExporter) : option (list row) :=
  match se_files self with
  | [] => None
  | files => Some (map get_status_dict files)
  end.

(** *** Templates and reports *)

Definition read_file (path : string) : Py world json :=
  λ w, match dict_get (w_templates w) path with
       | Some (Some j) => (Ok j, w)
       | Some None => (Raise OSError, w)
       | None => match read_template path with
                 | Ok j => (Ok j, w)
                 | Raise e => (Raise e, w)
                 end
       end.

Definition load_template_file (template_file_path : string) : Py world value :=
  let ext := splitext_ext (lower template_file_path) in
  if String.eqb ext ".json" || String.eqb ext ".yml" || String.eqb ext ".yaml"
  then
    λ w, match read_file template_file_path w with
         | (Ok j, w') => in_heap (λ h, let '(v, h') := thaw j h in (Ok v, h')) w'
         | (Raise ValueError, w') => (Raise ValueError, w')
         | (Raise e, w') => (Raise e, w')
         end
  else mret VNone.

(** [if path:] for an optional path *)
Definition given (path : option string) : option string :=
  match path with
  | Some p => if String.eqb p EmptyString then None else Some p
  | None => None
  end.

Definition isfile (path : string) : Py world bool :=
  λ w, (Ok (match dict_get (w_reports w) path with Some _ => true | None => false end), w).

(** [df.to_csv(path, index=False)] *)
Definition to_csv (path : string) (df : list row) : Py world unit :=
  λ w, (Ok tt, set_reports w (dict_set (w_reports w) path df)).

(** [df.to_csv(path, mode='a', header=False, index=False)] *)
Definition append_csv (path : string) (df : list row) : Py world unit :=
  λ w, (Ok tt, set_reports w
          (dict_set (w_reports w) path
             (default [] (dict_get (w_reports w) path) ++ df))).

Definition export_session (origin_session : origin_session) (dest_proj_id : nat)
    (template_path : string) (subject_files project_files : bool)
    (csv_output_path : option string) (overwrite : bool)
    : Py world (option (list row)) :=
  template ← load_template_file template_path;
  no_config ← in_heap (new_dict []);
  export_config ← in_heap (py_get_default template "export" no_config);
  session_exporter ← new_SessionExporter origin_session dest_proj_id
                       export_config None;
  session_exporter ← initialize_files session_exporter subject_files
                       project_files None;
  session_export_df ← run_file_exports session_exporter template_path overwrite;
  if (1 <=? length session_export_df)%nat then
    match given csv_output_path with
    | Some path => to_csv path session_export_df
    | None => mret tt
    end ≫= λ _,
    mret (Some session_export_df)
  else mret None.

Definition error_rows (parent_type : ctype) (parent_obj : container)
    (filetypes : list string) (error_msg : string) : list row :=
  map (λ file_obj,
         {| r_origin_filename := f_name file_obj;
            r_origin_parent := (parent_type, c_id parent_obj);
            r_export_filename := None; r_export_file_id := None;
            r_export_parent := None; r_state := "error";
            r_errors := Some error_msg |})
      (List.filter (λ file_obj, match f_type file_obj with
                           | Some t => bool_decide (t ∈ filetypes)
                           | None => false
                           end) (c_files parent_obj)).

Definition get_session_error_df (session_obj : origin_session)
    (error_msg : string) (filetypes : option (list string))
    (project_files subject_files : bool) : list row :=
  let filetypes := default ["dicom"] filetypes in
  (if project_files
   then error_rows Project (os_project session_obj) filetypes error_msg else [])
  ++ (if subject_files
      then error_rows Subject (os_subject session_obj) filetypes error_msg else [])
  ++ error_rows Session (os_session session_obj) filetypes error_msg
  ++ concat (map (λ acquisition_obj,
                    error_rows Acquisition acquisition_obj filetypes error_msg)
               (os_acquisitions session_obj)).

(** *** [export_container] and its local functions, which take the
    variables of the enclosing call as arguments *)

Definition count_errors (df : list row) : nat :=
  length (List.filter (λ r, String.eqb (r_state r) "error") df).

Definition _export_session (dest_proj_id : nat) (csv_output_path : option string)
    (overwrite : bool) (session : origin_session) (session_template_path : string)
    (project_files subject_files : bool) (sess_error_msg : option string)
    : Py world nat :=
  (λ w, (Ok tt, set_calls w (w_calls w ++
           [{| call_session := c_id (os_session session);
               call_project_files := project_files;
               call_subject_files := subject_files;
               call_error_msg := sess_error_msg |}]))) ≫= λ _,
  session_df ← match given sess_error_msg with
               | Some msg =>
                   mret (Some (get_session_error_df session msg None false false))
               | None =>
                   export_session session dest_proj_id session_template_path
                     subject_files project_files None overwrite
               end;
  (* session_df['state'].value_counts().get('error', 0) *)
  df_count ← match session_df with
              | None => raise TypeError
              | Some [] => raise KeyError
              | Some rows => mret (count_errors rows)
              end;
  match session_df, given csv_output_path with
  | Some rows, Some path =>
      present ← isfile path;
      if negb present && (1 <=? length rows)%nat then to_csv path rows
      else if present && (1 <=? length rows)%nat then append_csv path rows
      else mret tt
  | _, _ => mret tt
  end ≫= λ _,
  mret df_count.

(** [with tempfile.TemporaryDirectory() as temp_dir]: the directory and the
    files in it are removed when the block is left, by an exception too. *)
Definition with_temp_dir {A} (body : string → Py world A) : Py world A :=
  λ w,
    let temp_dir := "/tmp/tmp" +:+ NilZero.string_of_uint (Nat.to_uint (w_tmp w)) in
    let '(r, w') := body temp_dir (set_tmp w (S (w_tmp w))) in
    (r, set_templates w'
          (map (λ '(path, content),
                  if starts_with (temp_dir +:+ "/") path then (path, None)
                  else (path, content))
               (w_templates w'))).

(** [subject] is the variable of the loop over the subjects of a project,
    which no other scope assigns. *)
Definition _get_subject_template (df : subject_table) (template_obj : value)
    (template_path old_code_col : string) (subject : option container)
    (subject_obj : container) (directory_path : string)
    : Py world (string * option string) :=
  let subj_template_path :=
    directory_path +:+ "/" +:+ c_id subject_obj +:+ "_" +:+ basename template_path in
  λ w,
    match get_updated_template df (w_heap w, template_obj) (c_label subject_obj)
            old_code_col subj_template_path with
    | Derived template =>
        (Ok (subj_template_path, None),
         set_templates w (dict_set (w_templates w) subj_template_path (Some template)))
    | Failed text =>
        match subject with
        | Some subject =>
            (Ok (subj_template_path,
                 Some ("An exception occured when creating subject template for "
                       +:+ c_label subject +:+ ": " +:+ text)), w)
        | None => (Raise NameError, w)
        end
    end.

(** A local variable that may not be assigned yet *)
Definition read_local {S A} (x : option A) : Py S A :=
  match x with
  | Some a => mret a
  | None => raise NameError
  end.

Definition _export_subject (dest_proj_id : nat) (template_path : string)
    (csv_output_path : option string) (overwrite : bool)
    (df : option subject_table) (template_obj : value) (old_code_col : string)
    (subject : option container) (project : container)
    (subject_obj : subject_node) (project_files : bool) : Py world nat :=
  with_temp_dir (λ temp_dir,
    '(subj_template_path, subj_error_msg) ←
      match df with
      | Some table =>
          '(path, msg) ← _get_subject_template table template_obj template_path
                            old_code_col subject (sub_container subject_obj)
                            temp_dir;
          mret (path, Some msg)
      | None => mret (template_path, None)
      end;
    '(subject_error_count, _, _) ←
      fold_m (sessions_of project subject_obj) (0, true, project_files)
        (λ '(subject_error_count, subject_files, project_files) session,
           sess_error_msg ← read_local subj_error_msg;
           sess_count ← _export_session dest_proj_id csv_output_path overwrite
                          session subj_template_path project_files subject_files
                          sess_error_msg;
           mret (subject_error_count + sess_count, false, false));
    mret subject_error_count).

Definition export_container (container : scope) (dest_proj_id : nat)
    (template_path : string) (csv_output_path : option string)
    (overwrite : bool) (subject_csv_path : option string)
    (new_code_col old_code_col : string) : Py world nat :=
  template_obj ← load_template_file template_path;
  h ← in_heap get_state;
  df ← match given subject_csv_path with
       | Some csv_path =>
           if truthy h template_obj then
             λ w, (validate template_path csv_path old_code_col new_code_col, w)
           else mret None
       | None => mret None
       end;
  if negb (bool_decide (scope_type container ∈ ["subject"; "project"; "session"]))
  then raise ValueError
  else
    match container with
    | ProjectScope p =>
        '(error_count, _) ←
          fold_m (p_subjects p) (0, true) (λ '(error_count, project_files) subject,
            subj_error_count ← _export_subject dest_proj_id template_path
                                 csv_output_path overwrite df template_obj
                                 old_code_col (Some (sub_container subject))
                                 (p_container p) subject project_files;
            mret (error_count + subj_error_count, false));
        mret error_count
    | SubjectScope project s =>
        _export_subject dest_proj_id template_path csv_output_path overwrite df
          template_obj old_code_col None project s false
    | SessionScope s =>
        '(sess_template_path, session_export_error) ←
          with_temp_dir (λ temp_dir,
            match df with
            | Some table =>
                '(path, msg) ← _get_subject_template table template_obj
                                  template_path old_code_col None (os_subject s)
                                  temp_dir;
                mret (path, Some msg)
            | None => mret (template_path, None)
            end);
        sess_error_msg ← read_local session_export_error;
        _export_session dest_proj_id csv_output_path overwrite s
          sess_template_path false false sess_error_msg
    | OtherScope _ => mret 0
    end.

End ContainerExport.

(** ** What the properties are stated with *)

Definition kept (h h' : heap) (l : loc) : Prop :=
  ∀ o, h !! l = Some o → h' !! l = Some o.

Definition kept_except (P : loc → Prop) (h h' : heap) : Prop :=
  length h ≤ length h' ∧ ∀ l, ¬ P l → kept h h' l.

(** A list stays a list, and the only items it may get are ['info'] at its
    end: the one write to a list of the module is [meta_wl.append('info')]. *)
Definition lists_stay (h h' : heap) : Prop :=
  ∀ l xs, h !! l = Some (OList xs) →
          ∃ n, h' !! l = Some (OList (xs ++ replicate n (VStr "info"))).

Definition whitelist_metadata (h : heap) (cfg : value) : value :=
  match as_dict h cfg with
  | Some config =>
      match as_dict h (default VNone (dict_get config "whitelist")) with
      | Some whitelist_dict => default VNone (dict_get whitelist_dict "metadata")
      | None => VNone
      end
  | None => VNone
  end.

(** [payload['info']['export']['origin_id']], read from the info value *)
Definition stamped (h : list obj) (vi : value) (digest : string) : Prop :=
  ∃ di le de, as_dict h vi = Some di ∧ dict_get di "export" = Some (VRef le)
              ∧ h !! le = Some (ODict de)
              ∧ dict_get de "origin_id" = Some (VStr digest).

(** [payload['info']['export']['origin_id']] *)
Definition origin_id_stamp (h : list obj) (payload : value) : option value :=
  d ← as_dict h payload;
  info ← dict_get d "info";
  di ← as_dict h info;
  export ← dict_get di "export";
  de ← as_dict h export;
  dict_get de "origin_id".

(** A heap has no reference to an object that does not exist. *)
Definition closed_value (n : nat) (v : value) : bool :=
  match v with VRef l => (l <? n)%nat | _ => true end.

Definition closed (h : list obj) : bool :=
  forallb (λ o, match o with
                | ODict d => forallb (λ kv, closed_value (length h) kv.2) d
                | OList xs => forallb (closed_value (length h)) xs
                end) h.

(** The id and the info of the first argument of [create_metadata_dict] *)
Definition origin_id (h : list obj) (origin : origin_arg) : option value :=
  match origin with
  | Snapshot v => d ← as_dict h v; dict_get d "id"
  | Live c => Some (VStr (c_id c))
  end.

Definition origin_info_is_dict (h : list obj) (origin : origin_arg) : bool :=
  match origin with
  | Snapshot v =>
      match as_dict h v with
      | Some d => is_dict h (default VNone (dict_get d "info"))
      | None => false
      end
  | Live c => true
  end.

Definition sample_heap : list obj :=
  [ODict [("k", VInt 1)];
   ODict [("id", VStr "a"); ("info", VRef 0)];
   ODict [("info", VStr "all")];
   ODict [("whitelist", VRef 2)]].

(** A destination with a project, a subject and a session, and a heap with
    the config [{'label': 'NEW'}] *)
Definition sample_world : world :=
  {| w_heap := [ODict [("label", VStr "NEW")]];
     w_store := [{| d_type := Project; d_parent := None; d_label := "dest";
                    d_fields := []; d_info := [] |};
                 {| d_type := Subject; d_parent := Some 0; d_label := "001";
                    d_fields := []; d_info := [] |};
                 {| d_type := Session; d_parent := Some 1; d_label := "S1";
                    d_fields := []; d_info := [] |}];
     w_reports := []; w_templates := []; w_transfers := []; w_calls := [];
     w_tmp := 0 |}.

Definition sample_acquisition : container :=
  {| c_id := "a1"; c_label := "A1"; c_info := []; c_fields := []; c_files := [] |}.

(** *** A sample run *)
(** Collaborators for the sample run: a digest that is easy to read, a
    template with an export section, transfers that succeed but for
    [bad.dcm], and a subject CSV with one row *)
Definition sample_collaborators : Collaborators :=
  {| sha1_hexdigest := λ s, "#" +:+ s;
     py_repr := λ _ _, "<object>";
     read_template := λ _,
       Ok (JDict [("export",
                   JDict [("session",
                           JDict [("whitelist",
                                   JDict [("info", JStr "all");
                                          ("metadata", JList [JStr "age"])])])])]);
     exporter_state := λ _ _ _ _ _, ("pending", None);
     local_deid_export := λ fe _,
       if String.eqb (fe_origin_filename fe) "bad.dcm"
       then ("error", Some "boom", None)
       else ("success", None, Some "file-id");
     validate := λ _ _ _ _, Ok (Some [("old", "new")]);
     get_updated_template := λ _ _ _ _ _, Derived (JDict []) |}.

Definition sample_container (id label : string) (files : list file) : container :=
  {| c_id := id; c_label := label; c_info := [("k", JInt 1)];
     c_fields := [("age", JInt 3)]; c_files := files |}.

Definition dicom_file (name : string) : file :=
  {| f_name := name; f_type := Some "dicom" |}.

Definition sample_project : container := sample_container "p1" "P" [dicom_file "p.dcm"].
Definition sample_subject : container := sample_container "s1" "001" [dicom_file "s.dcm"].

(** A session with two DICOM files, one of which fails to transfer *)
Definition sample_session : session_node :=
  {| ses_container := sample_container "ses1" "S1"
                        [dicom_file "scan.dcm"; dicom_file "bad.dcm"];
     ses_acquisitions := [sample_container "a1" "A1" [dicom_file "a.dcm"]] |}.

(** A session with no DICOM file *)
Definition sample_notes : session_node :=
  {| ses_container := sample_container "ses2" "S2"
                        [{| f_name := "notes.txt"; f_type := Some "text" |}];
     ses_acquisitions := [sample_container "a2" "A2"
                            [{| f_name := "x.bin"; f_type := None |}]] |}.

Definition sample_origin (n : session_node) : origin_session :=
  {| os_session := ses_container n; os_acquisitions := ses_acquisitions n;
     os_subject := sample_subject; os_project := sample_project |}.

(** A project whose first subject has no session *)
Definition sample_tree : project_node :=
  {| p_container := sample_project;
     p_subjects := [{| sub_container := sample_container "s0" "000" [];
                       sub_sessions := [] |};
                    {| sub_container := sample_subject;
                       sub_sessions := [sample_session] |}] |}.

(** A subject without files, whose one session has no DICOM file *)
Definition sample_quiet_subject : subject_node :=
  {| sub_container := sample_container "s0" "000" [];
     sub_sessions := [sample_notes] |}.

(** A project with two subjects, the first one with two sessions *)
Definition sample_full_tree : project_node :=
  {| p_container := sample_project;
     p_subjects :=
       [{| sub_container := sample_subject;
           sub_sessions :=
             [sample_session;
              {| ses_container := sample_container "ses3" "S3" [dicom_file "c.dcm"];
                 ses_acquisitions := [] |}] |};
        {| sub_container := sample_container "s2" "002" [];
           sub_sessions :=
             [{| ses_container := sample_container "ses4" "S4" [dicom_file "d.dcm"];
                 ses_acquisitions := [] |}] |}] |}.

(** An origin snapshot whose info has a key ['export'], with the config
    [{'whitelist': {'info': 'all'}}] *)
Definition sample_export_heap : list obj :=
  [ODict [("export", VStr "mine")];
   ODict [("id", VStr "a"); ("info", VRef 0)];
   ODict [("info", VStr "all")];
   ODict [("whitelist", VRef 2)]].

(** An origin snapshot with a field that no container type has, with the
    config [{'whitelist': {'metadata': ['age', 'secret', 'id']}}] *)
Definition sample_metadata_heap : list obj :=
  [ODict [];
   ODict [("id", VStr "a"); ("age", VInt 3); ("secret", VInt 1); ("info", VRef 0)];
   OList [VStr "age"; VStr "secret"; VStr "id"];
   ODict [("metadata", VRef 2)];
   ODict [("whitelist", VRef 3)]].

(** A container with three files, and a heap with the file types
    [['dicom', 'nifti']] *)
Definition sample_files : container :=
  {| c_id := "c1"; c_label := "C"; c_info := []; c_fields := [];
     c_files := [dicom_file "a.dcm";
                 {| f_name := "b.txt"; f_type := None |};
                 {| f_name := "c.nii"; f_type := Some "nifti" |}] |}.

Definition sample_types_heap : list obj := [OList [VStr "dicom"; VStr "nifti"]].

(** A destination with one project *)
Definition sample_destination : world :=
  {| w_heap := [];
     w_store := [{| d_type := Project; d_parent := None; d_label := "dest";
                    d_fields := []; d_info := [] |}];
     w_reports := []; w_templates := []; w_transfers := []; w_calls := [];
     w_tmp := 0 |}.


(** Collaborators for which no subject template can be written *)
Definition sample_unwritable : Collaborators :=
  {| sha1_hexdigest := @sha1_hexdigest sample_collaborators;
     py_repr := @py_repr sample_collaborators;
     read_template := @read_template sample_collaborators;
     exporter_state := @exporter_state sample_collaborators;
     local_deid_export := @local_deid_export sample_collaborators;
     validate := @validate sample_collaborators;
     get_updated_template := λ _ _ _ _ _, Failed "no such code" |}.


(** An origin container that has no id *)
Definition sample_unsaved : container :=
  {| c_id := ""; c_label := "S9"; c_info := []; c_fields := []; c_files := [] |}.

Section Vocabulary.
Context `{Collaborators}.







(** The label or code a matcher uses, for a config that is [None] or a
    dict: the override of the config when it has one, the origin's own
    otherwise. *)
Definition effective_label (h : list obj) (config : value) (key own : string)
    : option string :=
  match config with
  | VNone => Some own
  | _ =>
      match as_dict h config with
      | Some d =>
          match d, dict_get d key with
          | [], _ | _, None => Some own
          | _, Some (VStr s) => Some s
          | _, Some _ => None
          end
      | None => None
      end
  end.


(** What a run leaves of the destination, the uploads, the reports and the
    calls *)
Definition outside (w : world) :=
  (w_store w, w_reports w, w_transfers w, w_calls w).

(** A scope in which [export_container] reaches a session *)
Definition has_session (container : scope) : Prop :=
  match container with
  | SessionScope _ => True
  | SubjectScope _ s => sub_sessions s ≠ []
  | ProjectScope p => ∃ s, s ∈ p_subjects p ∧ sub_sessions s ≠ []
  | OtherScope _ => False
  end.

(** What the heap of a run may become: the dicts that exist stay as they
    are, and the lists that exist get at most ['info'] items. *)
Definition evol (h h' : list obj) : Prop :=
  kept_except (λ l, is_list h (VRef l) = true) h h' ∧ lists_stay h h'.

(** What exporting a session leaves: the calls, and the heap up to [evol] *)
Definition wframe (w w' : world) : Prop :=
  w_calls w' = w_calls w ∧ evol (w_heap w) (w_heap w').

(** Every outcome of a computation is related to its start. *)
Definition respects {S A} (R : S → S → Prop) (m : Py S A) : Prop :=
  ∀ s r s', m s = (r, s') → R s s'.






(** A run that leaves the calls as they are *)
Definition calls_kept (w w' : world) : Prop := w_calls w' = w_calls w.


Definition is_ok {A} (r : result A) : Prop :=
  match r with Ok _ => True | Raise _ => False end.



(** The files [SessionExporter.initialize_files] looks at *)
Definition files_in_scope (s : origin_session) (subject_files project_files : bool)
    : list file :=
  (if project_files then c_files (os_project s) else [])
  ++ (if subject_files then c_files (os_subject s) else [])
  ++ c_files (os_session s)
  ++ concat (map c_files (os_acquisitions s)).

(** The allowed file types of a template, as [export_session] and
    [SessionExporter.__init__] get them:
    [export_config = template.get('export', dict())], replaced by [dict()]
    when it is not a dict, then
    [export_config.get('file_types', ['dicom'])]. *)
Definition session_file_types (template : value) : Py heap value :=
  no_config ← new_dict [];
  export_config ← py_get_default template "export" no_config;
  export_config ← (h ← get_state;
                   if is_dict h export_config then mret export_config
                   else new_dict []);
  dicom ← new_list [VStr "dicom"];
  py_get_default export_config "file_types" dicom.

(** [file.type in file_types] says no. *)
Definition unlisted (h : list obj) (file_types : value) (t : option string) : Prop :=
  type_in t file_types h = (Ok false, h).

(** The type of a file is in the allowed file types of the template. *)
Definition allowed (template : value) (h : list obj) (t : option string) : bool :=
  match session_file_types template h with
  | (Ok file_types, h') =>
      match type_in t file_types h' with
      | (Ok false, _) => false
      | _ => true
      end
  | (Raise _, _) => false
  end.

(** What [SessionExporter.__init__] and the methods before
    [initialize_files] leave of a session exporter *)
Definition same_jobs (a b : SessionExporter) : Prop :=
  se_files b = se_files a ∧ se_file_types b = se_file_types a
  ∧ se_origin b = se_origin a ∧ se_origin_project b = se_origin_project a
  ∧ se_export_config b = se_export_config a ∧ se_dest_proj b = se_dest_proj a.

(** A string of decimal digits: nothing is left after them. *)
Definition digits (s : string) : bool := String.eqb (skip_digits s) EmptyString.

(** What the pattern of [quote_numeric_string] reads as: digits, then a dot
    or none, then digits or none; [$] lets a newline end the string. *)
Definition numeric_form (s : string) : Prop :=
  ∃ whole dot frac nl,
    s = whole +:+ dot +:+ frac +:+ nl
    ∧ whole ≠ EmptyString ∧ digits whole = true ∧ digits frac = true
    ∧ (dot = EmptyString ∨ dot = ".")
    ∧ (nl = EmptyString ∨ nl = String (ascii_of_nat 10) EmptyString).





(** The container a matcher decides on: the first one that its query
    selects, and a new one at the end of the store when there is none *)
Definition first_or_new (f : dcontainer → bool) (st : list dcontainer) : nat :=
  default (length st) (find_index f st 0).



(** A config without whitelists: [None], or a dict that has no key
    ['whitelist'] *)
Definition no_whitelist (h : list obj) (cfg : value) : Prop :=
  cfg = VNone ∨ ∃ c, as_dict h cfg = Some c ∧ dict_get c "whitelist" = None.

(** The payload of a container that has the id [s] and nothing else: the
    dict, the two empty whitelists, its info and the stamp *)
Definition stamp_only (n : nat) (digest : string) : list obj :=
  [ODict [("info", VRef (n + 3))]; OList []; OList [];
   ODict [("export", VRef (n + 4))]; ODict [("origin_id", VStr digest)]].

(** The job that the module-level [local_file_export] rebuilds from the
    status dict of a job *)
Definition rebuilt (overwrite : bool) (fe : FileExporter) : FileExporter :=
  new_FileExporter (fe_origin_parent fe) (fe_origin_filename fe)
    (fe_dest_parent fe) (Some (export_filename fe)) overwrite.

(** The rows of the report file at a path; none when there is no file *)
Definition report_at (path : string) (w : world) : list row :=
  default [] (dict_get (w_reports w) path).

(** A run that leaves the report files as they are *)
Definition reports_kept (w w' : world) : Prop := w_reports w' = w_reports w.

(** A destination that has grown: no container is gone, and those that
    were there have their type, their parent and their label (or code). *)
Definition store_grows (st st' : list dcontainer) : Prop :=
  length st ≤ length st'
  ∧ ∀ i c, st !! i = Some c →
           ∃ c', st' !! i = Some c' ∧ d_type c' = d_type c
                 ∧ d_parent c' = d_parent c ∧ d_label c' = d_label c.

Definition grows (w w' : world) : Prop := store_grows (w_store w) (w_store w').



(** The DICOM files of a container, in the order of its file list *)
Definition dicom_files (c : container) : list file :=
  List.filter (λ f, bool_decide (f_type f = Some "dicom")) (c_files c).

(** The row of a file that was not exported, for the reason [msg]: the
    name of the file and its container, no exported file, the state
    ['error'] and the reason *)
Definition unexported (ty : ctype) (c : container) (msg : string) (f : file) : row :=
  {| r_origin_filename := f_name f; r_origin_parent := (ty, c_id c);
     r_export_filename := None; r_export_file_id := None;
     r_export_parent := None; r_state := "error"; r_errors := Some msg |}.

(** One such row for each DICOM file of a session, then for each DICOM
    file of its acquisitions, acquisition after acquisition *)
Definition session_unexported (s : origin_session) (msg : string) : list row :=
  map (unexported Session (os_session s) msg) (dicom_files (os_session s))
  ++ concat (map (λ a, map (unexported Acquisition a msg) (dicom_files a))
               (os_acquisitions s)).

(** A value that is the root of a tree of objects: the objects of the tree
    are those of [lo, hi), the root is the last one, and the trees of the
    items of a list, or of the values of a dict, lie one after the other
    before it. *)
Inductive tree (h : list obj) : nat → nat → value → Prop :=
| tree_none lo : tree h lo lo VNone
| tree_bool lo b : tree h lo lo (VBool b)
| tree_int lo n : tree h lo lo (VInt n)
| tree_str lo s : tree h lo lo (VStr s)
| tree_list lo hi vs :
    h !! hi = Some (OList vs) → trees h lo hi vs → tree h lo (S hi) (VRef hi)
| tree_dict lo hi d :
    h !! hi = Some (ODict d) → trees h lo hi (map snd d) →
    tree h lo (S hi) (VRef hi)
with trees (h : list obj) : nat → nat → list value → Prop :=
| trees_nil lo : trees h lo lo []
| trees_cons lo mid hi v vs :
    lo ≤ mid → mid ≤ hi → tree h lo mid v → trees h mid hi vs →
    trees h lo hi (v :: vs).

(** A reference is to an object of [lo, hi). *)
Definition within (lo hi : nat) (v : value) : Prop :=
  match v with VRef l => lo ≤ l < hi | _ => True end.

(** The list at [l] is left as it is. *)
Definition list_kept (l : loc) (h h' : list obj) : Prop :=
  ∀ xs, h !! l = Some (OList xs) → h' !! l = Some (OList xs).

(** The list at [l] is not the metadata whitelist of the config, in any
    heap that the run may make of [h]. *)
Definition spared (h : list obj) (cfg : value) (l : loc) : Prop :=
  ∀ h', evol h h' → VRef l ≠ whitelist_metadata h' cfg.

Definition wkept (l : loc) (w w' : world) : Prop :=
  list_kept l (w_heap w) (w_heap w').

(** What names a job, and a row of a report: the container of the file and
    the name of the file *)
Definition job_key (fe : FileExporter) : origin_ref * string :=
  (fe_origin_parent fe, fe_origin_filename fe).

Definition row_key (r : row) : origin_ref * string :=
  (r_origin_parent r, r_origin_filename r).

(** The files of a container that [ok] takes by their type, in the order
    of its file list *)
Definition listed_files (ok : option string → bool) (ty : ctype) (c : container)
    : list (origin_ref * string) :=
  map (λ f, ((ty, c_id c), f_name f)) (List.filter (λ f, ok (f_type f)) (c_files c)).

(** The jobs of a session: the files of the project under [project_files],
    those of the subject under [subject_files], those of the session and
    those of its acquisitions *)
Definition session_jobs (ok : option string → bool) (s : origin_session)
    (subject_files project_files : bool) : list (origin_ref * string) :=
  (if project_files then listed_files ok Project (os_project s) else [])
  ++ (if subject_files then listed_files ok Subject (os_subject s) else [])
  ++ listed_files ok Session (os_session s)
  ++ concat (map (listed_files ok Acquisition) (os_acquisitions s)).

(** [file.type in file_types] does not say no. *)
Definition picks (ft : value) (h : list obj) (t : option string) : bool :=
  match type_in t ft h with
  | (Ok false, _) => false
  | _ => true
  end.

(** The file types are an object of [h0], and a list of file types is the
    metadata whitelist of no config of [ec]. *)
Definition settled (h0 : list obj) (ec ft : value) : Prop :=
  ∃ d, as_dict h0 ec = Some d
       ∧ ∀ l, ft = VRef l →
              l < length h0
              ∧ ∀ k, k ≠ "file_types" → spared h0 (default VNone (dict_get d k)) l.

(** A heap that [h0] has become, with the list of file types as it was *)
Definition steady (h0 : list obj) (ft : value) (w : world) : Prop :=
  evol h0 (w_heap w) ∧ ∀ l, ft = VRef l → list_kept l h0 (w_heap w).

(** [v.get(k)] for a dict [v] of the heap, [None] otherwise *)
Definition config_at (h : list obj) (v : value) (k : string) : value :=
  match as_dict h v with
  | Some d => default VNone (dict_get d k)
  | None => VNone
  end.

(** The config of a kind of container in a template:
    [template.get('export').get(key)], [None] without an export config
    that is a dict *)
Definition container_config (h : list obj) (template : value) (key : string) : value :=
  config_at h (config_at h template "export") key.

(** The subject whose template [export_container] makes outside of the
    loop over the subjects of a project *)
Definition lone_subject (c : scope) : option container :=
  match c with
  | SubjectScope _ s => Some (sub_container s)
  | SessionScope s => Some (os_subject s)
  | _ => None
  end.

End Vocabulary.

Section Properties.
Context `{Collaborators}.

(** ** The monad *)

Lemma bind_inv {S A B} (m : Py S A) (k : A → Py S B) s r s' :
  (m ≫= k) s = (r, s') →
  (∃ a s1, m s = (Ok a, s1) ∧ k a s1 = (r, s'))
  ∨ (∃ e, m s = (Raise e, s') ∧ r = Raise e).
Proof.
  unfold mbind, Py_bind, py_bind. destruct (m s) as [[a|e] s1]; intros Hk.
  - left. eauto.
  - right. inversion Hk; subst. eauto.
Qed.

Lemma ret_inv {S A} (a : A) (s : S) r s' :
  (mret a : Py S A) s = (r, s') → r = Ok a ∧ s' = s.
Proof. unfold mret, Py_ret, py_ret. intros Hr; inversion Hr; auto. Qed.

(** ** Dicts *)

Lemma eqb_refl' k : String.eqb k k = true.
Proof. apply String.eqb_refl. Qed.

Lemma dict_get_set_eq {A} (d : list (string * A)) k v :
  dict_get (dict_set d k v) k = Some v.
Proof.
  induction d as [|[k' v'] d IH]; simpl.
  - by rewrite String.eqb_refl.
  - destruct (String.eqb k k') eqn:E; simpl; rewrite E; auto.
Qed.

Lemma dict_get_set_ne {A} (d : list (string * A)) k k' v :
  k ≠ k' → dict_get (dict_set d k v) k' = dict_get d k'.
Proof.
  intros Hne. induction d as [|[k0 v0] d IH]; simpl.
  - destruct (String.eqb k' k) eqn:E; auto.
    apply String.eqb_eq in E. congruence.
  - destruct (String.eqb k k0) eqn:E; simpl.
    + apply String.eqb_eq in E. subst k0.
      destruct (String.eqb k' k) eqn:E'; auto.
      apply String.eqb_eq in E'. congruence.
    + by rewrite IH.
Qed.

Lemma dict_set_set {A} (d : list (string * A)) k v v' :
  dict_set (dict_set d k v) k v' = dict_set d k v'.
Proof.
  induction d as [|[k0 v0] d IH]; simpl.
  - by rewrite String.eqb_refl.
  - destruct (String.eqb k k0) eqn:E; simpl; rewrite E; auto. by rewrite IH.
Qed.

Lemma dict_keys_set {A} (d : list (string * A)) k v x :
  x ∈ dict_keys (dict_set d k v) → x = k ∨ x ∈ dict_keys d.
Proof.
  unfold dict_keys. induction d as [|[k0 v0] d IH]; simpl.
  - intros Hx. apply list_elem_of_singleton in Hx. auto.
  - destruct (String.eqb k k0) eqn:E; simpl; intros Hx.
    + auto.
    + apply elem_of_cons in Hx as [->|Hx].
      * right. left.
      * destruct (IH Hx); auto. right. by right.
Qed.

Lemma dict_get_keys {A} (d : list (string * A)) k :
  k ∈ dict_keys d ↔ is_Some (dict_get d k).
Proof.
  unfold dict_keys. induction d as [|[k0 v0] d IH]; simpl.
  - split; [intros Hk; by apply elem_of_nil in Hk | intros [? ?]; done].
  - destruct (String.eqb k k0) eqn:E.
    + apply String.eqb_eq in E. subst. split; eauto. intros _. left.
    + rewrite <- IH. split.
      * intros Hk. apply elem_of_cons in Hk as [->|Hk]; auto.
        by rewrite String.eqb_refl in E.
      * intros Hk. by right.
Qed.

Lemma existsb_eqb s (l : list string) :
  existsb (String.eqb s) l = true ↔ s ∈ l.
Proof.
  rewrite existsb_exists. split.
  - intros (x & Hx & E). apply String.eqb_eq in E. subst. by apply list_elem_of_In.
  - intros Hs. exists s. split; [by apply list_elem_of_In | apply String.eqb_refl].
Qed.

Lemma dict_get_merge {A} (old new : list (string * A)) k :
  dict_get (merge old new) k =
  match dict_get new k with Some v => Some v | None => dict_get old k end.
Proof.
  unfold merge. induction new as [|[k0 v0] new IH]; simpl; auto.
  destruct (String.eqb k k0) eqn:E.
  - apply String.eqb_eq in E. subst. apply dict_get_set_eq.
  - rewrite dict_get_set_ne; auto. intros ->. by rewrite String.eqb_refl in E.
Qed.

Lemma dict_get_snap h (d : dict) k :
  dict_get (snap h d) k = (λ v, (h, v)) <$> dict_get d k.
Proof.
  unfold snap. induction d as [|[k0 v0] d IH]; simpl; auto.
  destruct (String.eqb k k0); auto.
Qed.


(** ** Heaps *)

Lemma kept_except_refl P h : kept_except P h h.
Proof. split; [lia | intros l _ o Ho; done]. Qed.

Lemma kept_except_trans P h1 h2 h3 :
  kept_except P h1 h2 → kept_except P h2 h3 → kept_except P h1 h3.
Proof.
  intros [L1 K1] [L2 K2]. split; [lia|].
  intros l Hl o Ho. apply (K2 l Hl), (K1 l Hl), Ho.
Qed.

Lemma kept_except_weaken (P Q : loc → Prop) h h' :
  (∀ l, l < length h → P l → Q l) → kept_except P h h' → kept_except Q h h'.
Proof.
  intros HPQ [L K]. split; [done|]. intros l Hl o Ho.
  apply K; [|done]. intros HP. apply Hl, HPQ; [|done].
  by apply lookup_lt_Some in Ho.
Qed.

Lemma kept_except_alloc P h o : kept_except P h (h ++ [o]).
Proof.
  split; [rewrite length_app; simpl; lia|].
  intros l _ o' Ho. rewrite lookup_app_l; [done|]. by apply lookup_lt_Some in Ho.
Qed.

Lemma kept_except_insert (P : loc → Prop) h l o :
  P l → kept_except P h (<[l := o]> h).
Proof.
  intros HP. split; [by rewrite length_insert|].
  intros l' Hl' o' Ho'. rewrite list_lookup_insert_ne; [done|]. congruence.
Qed.

Lemma lists_kept_stay (h h' : list obj) :
  (∀ l xs, h !! l = Some (OList xs) → h' !! l = Some (OList xs)) →
  lists_stay h h'.
Proof. intros Hk l xs Hl. exists 0. simpl. rewrite app_nil_r. auto. Qed.

Lemma lists_stay_refl h : lists_stay h h.
Proof. by apply lists_kept_stay. Qed.

Lemma lists_stay_trans h1 h2 h3 :
  lists_stay h1 h2 → lists_stay h2 h3 → lists_stay h1 h3.
Proof.
  intros S1 S2 l xs Hl. destruct (S1 l xs Hl) as [n1 Hl1].
  destruct (S2 l _ Hl1) as [n2 Hl2]. exists (n1 + n2).
  by rewrite replicate_add, app_assoc.
Qed.

Lemma lists_stay_alloc h o : lists_stay h (h ++ [o]).
Proof.
  apply lists_kept_stay. intros l xs Hl. rewrite lookup_app_l; [done|].
  by apply lookup_lt_Some in Hl.
Qed.

Lemma lists_stay_insert_list h l xs :
  h !! l = Some (OList xs) →
  lists_stay h (<[l := OList (xs ++ [VStr "info"])]> h).
Proof.
  intros Hl l' xs' Hl'. destruct (decide (l = l')) as [->|Hne].
  - exists 1. rewrite list_lookup_insert_eq; [|by apply lookup_lt_Some in Hl'].
    simpl. congruence.
  - exists 0. simpl. rewrite app_nil_r. by rewrite list_lookup_insert_ne.
Qed.

Lemma lists_stay_insert_dict h l d d' :
  h !! l = Some (ODict d) → lists_stay h (<[l := ODict d']> h).
Proof.
  intros Hl. apply lists_kept_stay. intros l' xs' Hl'.
  rewrite list_lookup_insert_ne; [done|]. intros ->. congruence.
Qed.

Lemma is_list_stay h h' v : lists_stay h h' → is_list h v = true → is_list h' v = true.
Proof.
  unfold is_list, as_list. intros Hs. destruct v as [| | | |l]; try done.
  destruct (h !! l) as [[d|xs]|] eqn:E; try done.
  destruct (Hs l xs E) as [n ->]. done.
Qed.

Lemma is_list_lookup h v : is_list h v = true → ∃ l xs, v = VRef l ∧ h !! l = Some (OList xs).
Proof.
  unfold is_list, as_list. destruct v as [| | | |l]; try done.
  destruct (h !! l) as [[d|xs]|] eqn:E; try done. eauto.
Qed.

Lemma lookup_alloc (h : list obj) o : (h ++ [o]) !! length h = Some o.
Proof. by rewrite list_lookup_middle. Qed.

Lemma is_list_alloc h xs : is_list (h ++ [OList xs]) (VRef (length h)) = true.
Proof. unfold is_list, as_list. by rewrite lookup_alloc. Qed.

Lemma is_list_insert h l xs o :
  h !! l = Some o → is_list (<[l := OList xs]> h) (VRef l) = true.
Proof.
  intros Hl. unfold is_list, as_list.
  rewrite list_lookup_insert_eq; [done|]. by apply lookup_lt_Some in Hl.
Qed.

Lemma kept_except_alloc_insert P (h : list obj) o o' :
  kept_except P h (<[length h := o']> (h ++ [o])).
Proof.
  split; [rewrite length_insert, length_app; simpl; lia|].
  intros l _ o1 Ho. pose proof (lookup_lt_Some _ _ _ Ho).
  rewrite list_lookup_insert_ne; [|lia]. by rewrite lookup_app_l.
Qed.

Lemma lists_stay_alloc_insert (h : list obj) o xs :
  lists_stay h (<[length h := OList xs]> (h ++ [o])).
Proof.
  apply lists_kept_stay. intros l ys Hl. pose proof (lookup_lt_Some _ _ _ Hl).
  rewrite list_lookup_insert_ne; [|lia]. by rewrite lookup_app_l.
Qed.

Lemma is_list_true_lookup h l :
  is_list h (VRef l) = true ↔ ∃ xs, h !! l = Some (OList xs).
Proof.
  unfold is_list, as_list. destruct (h !! l) as [[d|xs]|]; split; try done; eauto.
  all: intros [? ?]; done.
Qed.

Ltac heap_facts :=
  repeat match goal with
  | |- _ ∧ _ => split
  | |- kept_except _ ?h ?h => apply kept_except_refl
  | |- kept_except _ ?h (?h ++ [_]) => apply kept_except_alloc
  | |- kept_except _ ?h (<[length ?h := _]> (?h ++ [_])) => apply kept_except_alloc_insert
  | |- lists_stay ?h ?h => apply lists_stay_refl
  | |- lists_stay ?h (?h ++ [_]) => apply lists_stay_alloc
  | H : ?h !! ?l = Some (OList ?xs)
    |- lists_stay ?h (<[?l := OList (?xs ++ [VStr "info"])]> ?h) =>
      apply (lists_stay_insert_list _ _ _ H)
  | |- lists_stay ?h (<[length ?h := OList _]> (?h ++ [_])) => apply lists_stay_alloc_insert
  | |- is_list (?h ++ [OList _]) (VRef (length ?h)) = true => apply is_list_alloc
  | H : ?h !! ?l = Some _ |- is_list (<[?l := OList _]> ?h) (VRef ?l) = true =>
      apply (is_list_insert _ _ _ _ H)
  | |- is_list (<[length ?h := OList _]> (?h ++ [_])) (VRef (length ?h)) = true =>
      apply (is_list_insert _ _ _ _ (lookup_alloc _ _))
  | H : is_list ?h ?v = true |- is_list _ ?v = true =>
      apply (is_list_stay h); [|exact H]
  end.

Ltac not_a_list :=
  repeat match goal with
  | E : (?h ++ [_]) !! length ?h = _ |- _ => rewrite lookup_alloc in E
  | H : is_list _ ?v = true, E : ?v = _ |- _ => rewrite E in H
  | H : is_list ?h (VRef ?l) = true, E : ?h !! ?l = _ |- _ =>
      unfold is_list, as_list in H; rewrite E in H
  end; done.

Lemma parse_whitelists_spec T cfg m0 i0 h r h' :
  parse_whitelists T cfg m0 i0 h = (r, h') →
  is_list h m0 = true → is_list h i0 = true →
  kept_except (λ l, (VRef l = whitelist_metadata h cfg ∨ VRef l = m0)
                    ∧ is_list h (VRef l) = true) h h'
  ∧ lists_stay h h'
  ∧ match r with
    | Ok (m, i) => is_list h' m = true ∧ is_list h' i = true
    | Raise e => e = TypeError ∧ META_WHITELIST_DICT T = None
    end.
Proof.
  intros Hrun Hm0 Hi0.
  unfold parse_whitelists, whitelist_metadata in *.
  unfold mbind, Py_bind, py_bind, get_state, mret, Py_ret, py_ret, raise,
    new_list, new_object, list_append in Hrun.
  simpl in Hrun.
  repeat case_match; simplify_eq.
  all: try (exfalso; not_a_list).
  all: heap_facts; try done.
  all: try (apply kept_except_insert; split; [auto|apply is_list_true_lookup; eauto]).
Qed.

(** *** The primitive steps *)

Lemma bind_run {S A B} (m : Py S A) (k : A → Py S B) s :
  (m ≫= k) s = match m s with
               | (Ok a, s') => k a s'
               | (Raise e, s') => (Raise e, s')
               end.
Proof. reflexivity. Qed.

Lemma setitem_run h l d k x :
  h !! l = Some (ODict d) →
  setitem (VRef l) k x h = (Ok tt, <[l := ODict (dict_set d k x)]> h).
Proof. intros Hl. unfold setitem. by rewrite Hl. Qed.

Lemma py_get_run h v d k :
  as_dict h v = Some d → py_get v k h = (Ok (default VNone (dict_get d k)), h).
Proof. intros Hd. unfold py_get. by rewrite Hd. Qed.

Lemma getitem_run h v d k x :
  as_dict h v = Some d → dict_get d k = Some x → getitem v k h = (Ok x, h).
Proof. intros Hd Hk. unfold getitem. by rewrite Hd, Hk. Qed.

Lemma list_items_run h v :
  is_list h v = true → ∃ xs, list_items v h = (Ok xs, h).
Proof.
  unfold is_list, list_items. destruct (as_list h v) as [xs|]; [eauto|done].
Qed.

Lemma as_dict_lookup h v d :
  as_dict h v = Some d ↔ ∃ l, v = VRef l ∧ h !! l = Some (ODict d).
Proof.
  unfold as_dict. split.
  - destruct v as [| | | |l]; try done.
    destruct (h !! l) as [[d'|xs]|] eqn:E; try done. intros [= ->]. eauto.
  - intros (l & -> & ->). done.
Qed.

Lemma as_dict_kept h h' v d :
  (∀ l, v = VRef l → kept h h' l) → as_dict h v = Some d → as_dict h' v = Some d.
Proof.
  intros Hk Hd. apply as_dict_lookup in Hd as (l & -> & Hl).
  apply as_dict_lookup. exists l. split; [done|]. by apply (Hk l).
Qed.

(** The loop of [copy_info] writes to the new info dict only. *)
Lemma copy_info_loop meta_dict info_wl lmd le items :
  ∀ h dm di r h',
    meta_dict = VRef lmd →
    h !! lmd = Some (ODict dm) → dict_get dm "info" = Some (VRef le) →
    h !! le = Some (ODict di) → le ≠ lmd → is_list h info_wl = true →
    for_each items (copy_info_item meta_dict info_wl) h = (r, h') →
    r = Ok tt ∧ length h' = length h
    ∧ (∀ l, l ≠ le → h' !! l = h !! l)
    ∧ ∃ di', h' !! le = Some (ODict di').
Proof.
  induction items as [|[key val] items IH]; intros h dm di r h' -> Hmd Hinfo Hle Hne Hwl Hrun.
  - apply ret_inv in Hrun as [-> ->]. eauto.
  - simpl in Hrun. rewrite bind_run in Hrun. unfold copy_info_item in Hrun at 1.
    rewrite bind_run in Hrun.
    destruct (list_items_run _ _ Hwl) as [allowed Hallowed].
    rewrite Hallowed in Hrun.
    destruct (str_in key allowed).
    + rewrite bind_run in Hrun.
      rewrite (getitem_run h (VRef lmd) dm "info" (VRef le)) in Hrun;
        [|by apply as_dict_lookup; eauto|done].
      rewrite (setitem_run h le di) in Hrun; [|done].
      pose proof (lookup_lt_Some _ _ _ Hle) as Hlt.
      eapply IH in Hrun as (-> & Hlen & Hother & di' & Hdi'); eauto.
      * split; [done|]. rewrite Hlen, length_insert. split; [done|].
        split; [|eauto]. intros l Hl. rewrite Hother; [|done].
        by rewrite list_lookup_insert_ne.
      * by rewrite list_lookup_insert_ne.
      * by rewrite list_lookup_insert_eq.
      * eapply is_list_stay; [|done]. eapply lists_stay_insert_dict; done.
    + simpl in Hrun. eapply IH in Hrun; eauto.
Qed.



Lemma copy_info_spec origin meta_dict meta_wl info_wl lmd dmd d0 h r h' :
  copy_info origin meta_dict meta_wl info_wl h = (r, h') →
  meta_dict = VRef lmd → h !! lmd = Some (ODict dmd) →
  as_dict h origin = Some d0 → origin ≠ meta_dict →
  is_list h meta_wl = true → is_list h info_wl = true →
  r = Ok tt
  ∧ kept_except (λ l, l = lmd) h h'
  ∧ ∃ vi, h' !! lmd = Some (ODict (dict_set dmd "info" vi))
          ∧ ((vi = VRef (length h) ∧ ∃ di, h' !! length h = Some (ODict di))
             ∨ vi = default VNone (dict_get d0 "info")).
Proof.
  intros Hrun -> Hmd Hd0 Hne Hmwl Hiwl.
  pose proof (lookup_lt_Some _ _ _ Hmd) as Hlt.
  apply as_dict_lookup in Hd0 as (lo & -> & Hlo).
  assert (lo ≠ lmd) as Hlo_ne by congruence.
  pose proof (lookup_lt_Some _ _ _ Hlo) as Hlo_lt.
  unfold copy_info in Hrun. rewrite bind_run in Hrun. simpl in Hrun.
  rewrite bind_run in Hrun.
  rewrite (setitem_run _ lmd dmd) in Hrun; [|by rewrite lookup_app_l].
  set (h1 := <[lmd := ODict (dict_set dmd "info" (VRef (length h)))]> (h ++ [ODict []])) in *.
  assert (kept_except (λ l, l = lmd) h h1) as K1.
  { eapply kept_except_trans; [apply kept_except_alloc|].
    by apply kept_except_insert. }
  assert (lists_stay h h1) as S1.
  { eapply lists_stay_trans; [apply lists_stay_alloc|].
    eapply lists_stay_insert_dict. by rewrite lookup_app_l. }
  assert (h1 !! lmd = Some (ODict (dict_set dmd "info" (VRef (length h))))) as Hmd1.
  { subst h1. rewrite list_lookup_insert_eq; [done|]. rewrite length_app; lia. }
  assert (h1 !! length h = Some (ODict [])) as Hle1.
  { subst h1. rewrite list_lookup_insert_ne; [|lia]. apply lookup_alloc. }
  assert (h1 !! lo = Some (ODict d0)) as Hlo1.
  { apply K1; done. }
  rewrite bind_run in Hrun.
  destruct (list_items_run h1 meta_wl) as [wl Hwl]; [by eapply is_list_stay|].
  rewrite Hwl in Hrun.
  destruct (str_in "info" wl).
  - rewrite bind_run in Hrun.
    rewrite (py_get_run h1 (VRef lo) d0) in Hrun; [|by apply as_dict_lookup; eauto].
    rewrite (setitem_run _ lmd _ _ _ Hmd1) in Hrun.
    inversion Hrun; subst r h'; clear Hrun.
    split; [done|]. split.
    + eapply kept_except_trans; [exact K1|]. by apply kept_except_insert.
    + exists (default VNone (dict_get d0 "info")). split; [|by right].
      rewrite list_lookup_insert_eq; [|by apply lookup_lt_Some in Hmd1].
      by rewrite dict_set_set.
  - rewrite bind_run in Hrun.
    rewrite (py_get_run h1 (VRef lo) d0) in Hrun; [|by apply as_dict_lookup; eauto].
    rewrite bind_run in Hrun. simpl in Hrun.
    destruct (as_dict h1 (default VNone (dict_get d0 "info"))) as [items|] eqn:Eitems.
    + eapply (copy_info_loop _ _ lmd (length h)) in Hrun
        as (-> & Hlen & Hother & di' & Hdi'); eauto.
      * split; [done|]. split.
        -- destruct K1 as [L1 K1]. split; [lia|].
           intros l Hl o Ho. pose proof (lookup_lt_Some _ _ _ Ho).
           rewrite Hother; [|lia]. by apply K1.
        -- exists (VRef (length h)). split; [|left; eauto].
           rewrite Hother; [done|lia].
      * apply dict_get_set_eq.
      * lia.
      * by eapply is_list_stay.
    + apply ret_inv in Hrun as [-> ->]. split; [done|]. split; [done|].
      exists (VRef (length h)). split; [done|]. left. eauto.
Qed.

Lemma ret_run {S A} (a : A) (s : S) : (mret a : Py S A) s = (Ok a, s).
Proof. reflexivity. Qed.

Lemma raise_run {S A} e (s : S) : (raise e : Py S A) s = (Raise e, s).
Proof. reflexivity. Qed.

Lemma get_state_run {S} (s : S) : get_state s = (Ok s, s).
Proof. reflexivity. Qed.

Lemma new_dict_run d h : new_dict d h = (Ok (VRef (length h)), h ++ [ODict d]).
Proof. reflexivity. Qed.

Lemma new_list_run xs h : new_list xs h = (Ok (VRef (length h)), h ++ [OList xs]).
Proof. reflexivity. Qed.

Ltac py_step H :=
  rewrite bind_run in H;
  first [ rewrite ret_run in H | rewrite raise_run in H
        | rewrite get_state_run in H | rewrite new_dict_run in H
        | rewrite new_list_run in H ];
  cbv beta iota in H.

Lemma set_export_origin_id_spec origin meta_dict lmd dmd vi d0 h r h' :
  set_export_origin_id origin meta_dict h = (r, h') →
  meta_dict = VRef lmd → h !! lmd = Some (ODict dmd) →
  dict_get dmd "info" = Some vi → as_dict h origin = Some d0 →
  kept_except (λ l, VRef l = vi) h h' ∧ lists_stay h h'
  ∧ match r with
    | Ok _ => ∃ s dmd', default VNone (dict_get d0 "id") = VStr s
                        ∧ stamped h' vi (hash_string s)
                        ∧ h' !! lmd = Some (ODict dmd')
                        ∧ dict_get dmd' "info" = Some vi
                        ∧ (vi ≠ VRef lmd → dmd' = dmd)
    | Raise e =>
        (e = AttributeError ∧ h' = h
         ∧ ∀ s, default VNone (dict_get d0 "id") ≠ VStr s)
        ∨ (e = TypeError ∧ as_dict h vi = None)
    end.
Proof.
  intros Hrun -> Hmd Hinfo Hd0.
  unfold set_export_origin_id in Hrun. rewrite bind_run in Hrun.
  rewrite (py_get_run _ _ _ _ Hd0) in Hrun. cbv beta iota in Hrun.
  destruct (default VNone (dict_get d0 "id")) as [| | |s|];
    try (py_step Hrun; inversion Hrun; subst;
         split_and!; [apply kept_except_refl|apply lists_stay_refl|left; done]).
  pose proof (lookup_lt_Some _ _ _ Hmd) as Hlt.
  py_step Hrun. py_step Hrun. rewrite bind_run in Hrun.
  rewrite (getitem_run _ (VRef lmd) dmd "info" vi) in Hrun;
    [| by apply as_dict_lookup; exists lmd; rewrite lookup_app_l | done].
  cbv beta iota in Hrun.
  set (de := [("origin_id", VStr (hash_string s))]) in *.
  unfold setitem in Hrun. destruct vi as [| | | |li];
    try (inversion Hrun; subst; split_and!;
         [apply kept_except_alloc|apply lists_stay_alloc|right; done]).
  destruct ((h ++ [ODict de]) !! li) as [[di|xs]|] eqn:Eli;
    inversion Hrun; subst; clear Hrun.
  - split_and!.
    + eapply kept_except_trans; [apply kept_except_alloc|].
      by apply kept_except_insert.
    + eapply lists_stay_trans; [apply lists_stay_alloc|].
      by eapply lists_stay_insert_dict.
    + pose proof (lookup_lt_Some _ _ _ Eli) as Hli.
      assert (stamped (<[li:=ODict (dict_set di "export" (VRef (length h)))]>
                         (h ++ [ODict de])) (VRef li) (hash_string s)) as Hst.
      { exists (dict_set di "export" (VRef (length h))), (length h).
        destruct (decide (li = length h)) as [->|Hne].
        * rewrite lookup_alloc in Eli. inversion Eli; subst di.
          eexists. split_and!.
          -- unfold as_dict. by rewrite list_lookup_insert_eq.
          -- apply dict_get_set_eq.
          -- by rewrite list_lookup_insert_eq.
          -- done.
        * exists de. split_and!.
          -- unfold as_dict. by rewrite list_lookup_insert_eq.
          -- apply dict_get_set_eq.
          -- rewrite list_lookup_insert_ne; [|done]. apply lookup_alloc.
          -- done. }
      destruct (decide (li = lmd)) as [->|Hne].
      * rewrite lookup_app_l in Eli; [|done].
        assert (di = dmd) as -> by congruence.
        exists s, (dict_set dmd "export" (VRef (length h))). split_and!; try done.
        -- by rewrite list_lookup_insert_eq.
        -- by rewrite dict_get_set_ne.
      * exists s, dmd. split_and!; try done.
        rewrite list_lookup_insert_ne; [|done]. by rewrite lookup_app_l.
  - split_and!; [apply kept_except_alloc|apply lists_stay_alloc|].
    right. split; [done|]. unfold as_dict.
    destruct (h !! li) as [[d|xs']|] eqn:E; try done.
    rewrite lookup_app_l in Eli; [congruence|]. by apply lookup_lt_Some in E.
  - split_and!; [apply kept_except_alloc|apply lists_stay_alloc|].
    right. split; [done|]. unfold as_dict.
    destruct (h !! li) as [[d|xs']|] eqn:E; try done.
    rewrite lookup_app_l in Eli; [congruence|]. by apply lookup_lt_Some in E.
Qed.

Lemma keys_of_run h v d : as_dict h v = Some d → keys_of v h = (Ok (dict_keys d), h).
Proof. intros Hd. unfold keys_of. by rewrite Hd. Qed.

Lemma copy_field_spec origin mw lmd dmd d0 item h r h' :
  copy_field origin mw (VRef lmd) item h = (r, h') →
  h !! lmd = Some (ODict dmd) → as_dict h origin = Some d0 →
  (r = Ok tt
   ∧ (h' = h
      ∨ ∃ s v fields, mw = Some fields ∧ s ∈ fields ∧ (s ∉ dict_keys dmd)
                      ∧ h' = <[lmd := ODict (dict_set dmd s v)]> h))
  ∨ (r = Raise TypeError ∧ mw = None ∧ h' = h).
Proof.
  intros Hrun Hmd Hd0. unfold copy_field in Hrun.
  destruct mw as [fields|]; [|py_step Hrun; inversion Hrun; auto].
  py_step Hrun.
  destruct item as [| | |s|]; try (rewrite ret_run in Hrun; inversion Hrun; auto).
  destruct (existsb (String.eqb s) fields) eqn:Efields;
    [|rewrite ret_run in Hrun; inversion Hrun; auto].
  rewrite bind_run, (py_get_run _ _ _ _ Hd0) in Hrun. cbv beta iota in Hrun.
  py_step Hrun.
  destruct (truthy h _); [|rewrite ret_run in Hrun; inversion Hrun; auto].
  rewrite bind_run, (keys_of_run h (VRef lmd) dmd) in Hrun;
    [|by apply as_dict_lookup; eauto].
  cbv beta iota in Hrun.
  destruct (existsb (String.eqb s) (dict_keys dmd)) eqn:Ekeys;
    [rewrite ret_run in Hrun; inversion Hrun; auto|].
  rewrite bind_run, (py_get_run _ _ _ _ Hd0) in Hrun. cbv beta iota in Hrun.
  rewrite (setitem_run _ _ _ _ _ Hmd) in Hrun. inversion Hrun; subst.
  left. split; [done|]. right. eexists s, _, fields. split_and!; try done.
  - by apply existsb_eqb.
  - intros Hin. apply existsb_eqb in Hin. congruence.
Qed.

Lemma copy_fields_loop origin mw lmd d0 dmd wl :
  ∀ h dmd1 r h',
    for_each wl (copy_field origin mw (VRef lmd)) h = (r, h') →
    h !! lmd = Some (ODict dmd1) → as_dict h origin = Some d0 →
    origin ≠ VRef lmd →
    (∀ k v, dict_get dmd k = Some v → dict_get dmd1 k = Some v) →
    (∀ k, k ∈ dict_keys dmd1 →
          k ∈ dict_keys dmd ∨ ∃ fields, mw = Some fields ∧ k ∈ fields) →
    length h' = length h ∧ (∀ l, l ≠ lmd → h' !! l = h !! l)
    ∧ (∃ dmd', h' !! lmd = Some (ODict dmd')
               ∧ (∀ k v, dict_get dmd k = Some v → dict_get dmd' k = Some v)
               ∧ (∀ k, k ∈ dict_keys dmd' →
                       k ∈ dict_keys dmd ∨ ∃ fields, mw = Some fields ∧ k ∈ fields))
    ∧ match r with
      | Ok _ => True
      | Raise e => e = TypeError ∧ mw = None
      end.
Proof.
  induction wl as [|item wl IH]; intros h dmd1 r h' Hrun Hmd Hd0 Hne Hext Hkeys.
  - apply ret_inv in Hrun as [-> ->]. split_and!; eauto.
  - simpl in Hrun. rewrite bind_run in Hrun.
    destruct (copy_field origin mw (VRef lmd) item h) as [r1 h1] eqn:Estep.
    eapply copy_field_spec in Estep as [[-> Hh1]|(-> & -> & ->)]; eauto.
    + destruct Hh1 as [->|(s & v & fields & -> & Hs & Hfresh & ->)].
      * eapply IH; eauto.
      * pose proof (lookup_lt_Some _ _ _ Hmd) as Hlt.
        apply as_dict_lookup in Hd0 as (lo & -> & Hlo).
        assert (lo ≠ lmd) by congruence.
        eapply IH in Hrun as (Hlen & Hother & Hmd' & Hr).
        -- rewrite length_insert in Hlen. split_and!; [done| |done|done].
           intros l Hl. rewrite Hother; [|done]. by rewrite list_lookup_insert_ne.
        -- by rewrite list_lookup_insert_eq.
        -- apply as_dict_lookup. exists lo. split; [done|].
           by rewrite list_lookup_insert_ne.
        -- done.
        -- intros k v' Hk. rewrite dict_get_set_ne; [by apply Hext|].
           intros ->. apply Hfresh. apply dict_get_keys. rewrite (Hext _ _ Hk). eauto.
        -- intros k Hk. apply dict_keys_set in Hk as [->|Hk]; eauto.
    + inversion Hrun; subst. split_and!; eauto.
Qed.

Lemma copy_fields_spec origin T lmd dmd d0 meta_wl h r h' :
  copy_fields origin T (VRef lmd) meta_wl h = (r, h') →
  h !! lmd = Some (ODict dmd) → as_dict h origin = Some d0 →
  origin ≠ VRef lmd → is_list h meta_wl = true →
  length h' = length h ∧ (∀ l, l ≠ lmd → h' !! l = h !! l)
  ∧ (∃ dmd', h' !! lmd = Some (ODict dmd')
             ∧ (∀ k v, dict_get dmd k = Some v → dict_get dmd' k = Some v)
             ∧ (∀ k, k ∈ dict_keys dmd' →
                     k ∈ dict_keys dmd
                     ∨ ∃ fields, META_WHITELIST_DICT T = Some fields ∧ k ∈ fields))
  ∧ match r with
    | Ok _ => True
    | Raise e => e = TypeError ∧ META_WHITELIST_DICT T = None
    end.
Proof.
  intros Hrun Hmd Hd0 Hne Hwl. unfold copy_fields in Hrun.
  rewrite bind_run in Hrun.
  destruct (list_items_run _ _ Hwl) as [wl Hitems]. rewrite Hitems in Hrun.
  eapply copy_fields_loop in Hrun; eauto.
Qed.

Lemma as_dict_None_kept h h' v :
  (∀ l, v = VRef l → l < length h → kept h h' l) →
  (∀ l, v = VRef l → l < length h) →
  as_dict h' v = None → as_dict h v = None.
Proof.
  intros Hk Hlt Hn. destruct (as_dict h v) as [d|] eqn:E; [|done].
  apply as_dict_lookup in E as (l & -> & Hl).
  apply Hk in Hl; auto. unfold as_dict in Hn. by rewrite Hl in Hn.
Qed.

Lemma kept_except_compose (P Q R : nat → Prop) (h1 h2 h3 : list obj) :
  kept_except P h1 h2 → kept_except Q h2 h3 →
  (∀ l, ¬ R l → ¬ P l) →
  (∀ l o, h1 !! l = Some o → ¬ R l → ¬ Q l) →
  kept_except R h1 h3.
Proof.
  intros [L1 K1] [L2 K2] HP HQ. split; [lia|].
  intros l Hl o Ho. apply K2; [by eapply HQ|]. apply K1; auto.
Qed.

Lemma stamped_extend h h' lmd d d' vi digest :
  stamped h vi digest →
  (∀ l, l ≠ lmd → h' !! l = h !! l) →
  h !! lmd = Some (ODict d) → h' !! lmd = Some (ODict d') →
  (∀ k v, dict_get d k = Some v → dict_get d' k = Some v) →
  stamped h' vi digest.
Proof.
  intros (di & le & de & Hdi & Hexp & Hle & Hde) Hother Hd Hd' Hext.
  apply as_dict_lookup in Hdi as (li & -> & Hli).
  assert (∃ di', h' !! li = Some (ODict di')
                 ∧ dict_get di' "export" = Some (VRef le)) as (di' & Hli' & Hexp').
  { destruct (decide (li = lmd)) as [->|Hne].
    - exists d'. split; [done|]. apply Hext. congruence.
    - exists di. by rewrite Hother. }
  assert (∃ de', h' !! le = Some (ODict de')
                 ∧ dict_get de' "origin_id" = Some (VStr digest)) as (de' & Hle' & Hde').
  { destruct (decide (le = lmd)) as [->|Hne].
    - exists d'. split; [done|]. apply Hext. congruence.
    - exists de. by rewrite Hother. }
  exists di', le, de'. split_and!; try done. unfold as_dict. by rewrite Hli'.
Qed.

(** The outcome of [create_metadata_dict] on a dict *)
Lemma create_metadata_dict_spec origin T cfg d0 h r h' :
  create_metadata_dict (Snapshot origin) T cfg h = (r, h') →
  as_dict h origin = Some d0 →
  let oid := default VNone (dict_get d0 "id") in
  let oinfo := default VNone (dict_get d0 "info") in
  kept_except (λ l, is_list h (VRef l) = true ∨ VRef l = oinfo) h h'
  ∧ lists_stay h h'
  ∧ match r with
    | Ok p =>
        p = VRef (length h)
        ∧ ∃ s vi dmd,
            oid = VStr s ∧ s ≠ EmptyString
            ∧ h' !! length h = Some (ODict dmd)
            ∧ dict_get dmd "info" = Some vi
            ∧ (vi = oinfo ∨ ∃ l, vi = VRef l ∧ length h < l)
            ∧ stamped h' vi (hash_string s)
            ∧ (vi ≠ VRef (length h) →
               ∀ k, k ∈ dict_keys dmd →
                    k = "info"
                    ∨ ∃ fields, META_WHITELIST_DICT T = Some fields ∧ k ∈ fields)
    | Raise e =>
        (e = ValueError ∧ truthy h oid = false)
        ∨ (e = AttributeError ∧ ∀ s, oid ≠ VStr s)
        ∨ (e = TypeError
           ∧ (META_WHITELIST_DICT T = None ∨ as_dict h oinfo = None))
    end.
Proof.
  intros Hrun Hd0 oid oinfo. unfold create_metadata_dict in Hrun.
  py_step Hrun. rewrite bind_run, (py_get_run _ _ _ _ Hd0) in Hrun.
  cbv beta iota in Hrun. fold oid in Hrun. py_step Hrun.
  destruct (truthy h oid) eqn:Etruthy; cbn [negb] in Hrun; cbv iota in Hrun.
  2: { rewrite raise_run in Hrun; inversion Hrun; subst.
       split_and!; [apply kept_except_refl|apply lists_stay_refl|auto]. }
  py_step Hrun. py_step Hrun. py_step Hrun.
  set (lmd := length h) in *.
  set (h3 := ((h ++ [ODict []]) ++ [OList []]) ++ [OList []]) in *.
  assert (h3 !! lmd = Some (ODict [])) as Hmd3.
  { subst h3. rewrite lookup_app_l, lookup_app_l; [apply lookup_alloc| |];
      rewrite ?length_app; simpl; lia. }
  assert (kept_except (λ _, False) h h3) as K3.
  { subst h3. repeat (eapply kept_except_trans; [|apply kept_except_alloc]).
    apply kept_except_refl. }
  assert (lists_stay h h3) as S3.
  { subst h3. repeat (eapply lists_stay_trans; [|apply lists_stay_alloc]).
    apply lists_stay_refl. }
  apply as_dict_lookup in Hd0 as (lo & -> & Hlo).
  pose proof (lookup_lt_Some _ _ _ Hlo) as Hlo_lt. fold lmd in Hlo_lt.
  assert (is_list h3 (VRef (length (h ++ [ODict []]))) = true) as Hm0.
  { subst h3. unfold is_list, as_list.
    rewrite lookup_app_l; [by rewrite lookup_alloc|].
    rewrite !length_app. simpl. lia. }
  assert (is_list h3 (VRef (length ((h ++ [ODict []]) ++ [OList []]))) = true) as Hi0.
  { subst h3. unfold is_list, as_list. by rewrite lookup_alloc. }
  rewrite bind_run in Hrun.
  destruct (parse_whitelists _ _ _ _ h3) as [r1 h4] eqn:Eparse.
  apply parse_whitelists_spec in Eparse as (K4 & S4 & Hr1); [|done|done].
  assert (kept_except (λ l, is_list h (VRef l) = true) h h4) as K04.
  { eapply kept_except_compose; [exact K3|exact K4|tauto|].
    intros l o Ho Hl [_ Hlist]. apply Hl.
    apply is_list_true_lookup in Hlist as [xs Hxs].
    pose proof (proj2 K3 l (λ x, x) o Ho) as Ho3. rewrite Hxs in Ho3.
    inversion Ho3; subst. apply is_list_true_lookup. eauto. }
  assert (lists_stay h h4) as S04 by (by eapply lists_stay_trans).
  assert (h4 !! lmd = Some (ODict [])) as Hmd4.
  { apply K4; [|done]. intros [_ Hl]. apply is_list_true_lookup in Hl as [xs Hxs].
    congruence. }
  assert (h4 !! lo = Some (ODict d0)) as Hlo4.
  { apply K04; [|done]. intros Hl. apply is_list_true_lookup in Hl as [xs Hxs].
    congruence. }
  destruct r1 as [[meta_wl info_wl]|e]; cbv beta iota in Hrun.
  2: { inversion Hrun; subst. destruct Hr1 as [-> HT]. split_and!.
       - eapply kept_except_weaken; [|exact K04]. tauto.
       - done.
       - auto. }
  destruct Hr1 as [Hmwl Hiwl].
  rewrite bind_run in Hrun.
  destruct (copy_info _ _ _ _ h4) as [r2 h5] eqn:Ecopy.
  eapply (copy_info_spec _ _ _ _ lmd [] d0) in Ecopy
    as (-> & K5 & vi & Hmd5 & Hvi); eauto.
  2: { apply as_dict_lookup. eauto. }
  2: { intros [= ->]. lia. }
  cbv beta iota in Hrun. simpl dict_set in Hmd5.
  assert (h5 !! lo = Some (ODict d0)) as Hlo5.
  { apply K5; [lia|done]. }
  assert (length h ≤ length h4) as Hlen4 by apply K04.
  rewrite bind_run in Hrun.
  destruct (set_export_origin_id _ _ h5) as [r3 h6] eqn:Estamp.
  assert (as_dict h5 (VRef lo) = Some d0) as Hd5 by (apply as_dict_lookup; eauto).
  assert (dict_get [("info", vi)] "info" = Some vi) as Hget by done.
  pose proof (set_export_origin_id_spec _ _ lmd _ vi d0 _ _ _ Estamp eq_refl
                Hmd5 Hget Hd5) as (K6 & S6 & Hr3).
  fold oid in Hr3.
  assert (vi = oinfo ∨ ∃ l, vi = VRef l ∧ lmd < l) as Hvi'.
  { destruct Hvi as [[-> _]| ->]; [right|by left].
    eexists. split; [done|]. pose proof (lookup_lt_Some _ _ _ Hmd4). lia. }
  assert (kept_except (λ l, is_list h (VRef l) = true ∨ VRef l = oinfo) h h6) as K06.
  { eapply kept_except_compose; [exact K04| |tauto|].
    - eapply (kept_except_trans (λ l, l = lmd ∨ VRef l = vi)).
      + eapply kept_except_weaken; [|exact K5]. intros; by left.
      + eapply kept_except_weaken; [|exact K6]. intros; by right.
    - intros l o Ho Hl. simpl. pose proof (lookup_lt_Some _ _ _ Ho) as Hlt.
      intros [->|Hv]; [lia|].
      destruct Hvi' as [Hvi'|(l' & Hvi' & Hl')].
      + apply Hl. right. congruence.
      + rewrite Hvi' in Hv. inversion Hv. lia. }
  assert (lists_stay h h6) as S06.
  { eapply lists_stay_trans; [exact S04|]. eapply lists_stay_trans; [|exact S6].
    apply lists_kept_stay.
    intros l xs Hl. apply K5; [|done]. intros ->. congruence. }
  destruct r3 as [[]|e].
  2: { inversion Hrun; subst. split_and!; [done|done|].
       destruct Hr3 as [(-> & _ & Hid)|[-> Hnone]]; [auto|].
       right; right. split; [done|]. right.
       destruct Hvi as [[-> [di Hdi]]| ->].
       - unfold as_dict in Hnone. by rewrite Hdi in Hnone.
       - destruct (as_dict h oinfo) as [d|] eqn:E; [|done]. exfalso.
         apply as_dict_lookup in E as (l & El & Hl). fold oinfo in Hnone.
         rewrite El in Hnone. unfold as_dict in Hnone.
         pose proof (lookup_lt_Some _ _ _ Hl).
         assert (h5 !! l = Some (ODict d)) as Hl5.
         { apply K5; [lia|]. apply K04; [|done].
           intros Hx. apply is_list_true_lookup in Hx as [? ?]. congruence. }
         by rewrite Hl5 in Hnone. }
  destruct Hr3 as (s & dmd6 & Hid & Hstamp & Hmd6 & Hinfo6 & Hsame).
  rewrite bind_run in Hrun.
  destruct (copy_fields _ _ _ _ h6) as [r4 h7] eqn:Efields.
  assert (∃ d6, as_dict h6 (VRef lo) = Some d6) as [d6 Hd6].
  { destruct (decide (vi = VRef lo)) as [->|Hne].
    - destruct Hstamp as (di & _ & _ & Hdi & _). eauto.
    - exists d0. apply as_dict_lookup. exists lo. split; [done|].
      apply K6; [congruence|done]. }
  eapply (copy_fields_spec _ _ lmd dmd6 d6) in Efields
    as (Hlen7 & Hother & (dmd7 & Hmd7 & Hext & Hkeys) & Hr4); eauto.
  2: { intros [= ->]. lia. }
  2: { eapply is_list_stay; [exact S6|]. eapply is_list_stay; [|exact Hmwl].
       apply lists_kept_stay.
       intros l xs Hl. apply K5; [|done]. intros ->. congruence. }
  assert (kept_except (λ l, is_list h (VRef l) = true ∨ VRef l = oinfo) h h7) as K07.
  { destruct K06 as [L6 K06]. split; [lia|]. intros l Hl o Ho.
    pose proof (lookup_lt_Some _ _ _ Ho). rewrite Hother; [|lia]. by apply K06. }
  assert (lists_stay h h7) as S07.
  { intros l xs Hl. destruct (S06 l xs Hl) as [n Hl'].
    exists n. rewrite Hother; [done|]. intros ->. congruence. }
  destruct r4 as [[]|e]; cbv beta iota in Hrun.
  2: { inversion Hrun; subst. destruct Hr4 as [-> HT]. split_and!; auto. }
  rewrite ret_run in Hrun. inversion Hrun; subst r h'.
  split_and!; [done|done|done|].
  exists s, vi, dmd7. split_and!; try done.
  - intros ->. rewrite Hid in Etruthy. done.
  - by apply Hext.
  - eapply stamped_extend; eauto.
  - intros Hfresh k Hk. apply Hkeys in Hk as [Hk|Hk]; [|by right].
    rewrite (Hsame Hfresh) in Hk. left.
    apply list_elem_of_singleton in Hk. done.
Qed.

(** ** Documents *)

Section json_induction.
Variable P : json → Prop.
Hypothesis HNone : P JNone.
Hypothesis HBool : ∀ b, P (JBool b).
Hypothesis HInt : ∀ n, P (JInt n).
Hypothesis HStr : ∀ s, P (JStr s).
Hypothesis HList : ∀ xs, Forall P xs → P (JList xs).
Hypothesis HDict : ∀ kvs, Forall (λ kv, P kv.2) kvs → P (JDict kvs).

(** Induction on a document, with the property for the items of a list and
    the values of a dict *)
Lemma json_nested_ind (j : json) : P j.
Proof.
  revert j. fix IH 1. intros [|b|n|s|xs|kvs].
  - exact HNone.
  - apply HBool.
  - apply HInt.
  - apply HStr.
  - apply HList. induction xs as [|x xs IHxs]; constructor; [apply IH|exact IHxs].
  - apply HDict. induction kvs as [|kv kvs IHkvs]; constructor;
      [apply IH|exact IHkvs].
Qed.
End json_induction.

Lemma thread_extends {A B} (f : A → list obj → B * list obj) xs :
  Forall (λ x, ∀ h, ∃ k, (f x h).2 = h ++ k) xs →
  ∀ h, ∃ k, (thread f xs h).2 = h ++ k.
Proof.
  induction 1 as [|x xs Hx _ IH]; intros h; simpl.
  - exists []. by rewrite app_nil_r.
  - destruct (Hx h) as [k1 Hk1]. destruct (f x h) as [v h1]. simpl in Hk1. subst h1.
    destruct (IH (h ++ k1)) as [k2 Hk2].
    destruct (thread f xs (h ++ k1)) as [vs h2]. simpl in *. subst h2.
    exists (k1 ++ k2). by rewrite app_assoc.
Qed.

Lemma thaw_extends j : ∀ h, ∃ k, (thaw j h).2 = h ++ k.
Proof.
  induction j as [| | | |xs IH|kvs IH] using json_nested_ind; intros h; simpl;
    try (exists []; by rewrite app_nil_r).
  - destruct (thread_extends thaw xs IH h) as [k Hk].
    destruct (thread thaw xs h) as [vs h1]. simpl in *. subst.
    exists (k ++ [OList vs]). by rewrite app_assoc.
  - match goal with |- context [thread ?f kvs h] => set (f0 := f) end.
    destruct (thread_extends f0 kvs) with (h := h) as [k Hk].
    { eapply Forall_impl; [exact IH|]. intros [key x] Hx h0. simpl in *.
      destruct (Hx h0) as [k Hk]. destruct (thaw x h0). simpl in *. eauto. }
    destruct (thread f0 kvs h) as [d h1]. simpl in *. subst.
    exists (k ++ [ODict d]). by rewrite app_assoc.
Qed.

Lemma to_dict_spec c h :
  ∃ k d0 di lo li,
    to_dict c h = (Ok (VRef lo), h ++ k)
    ∧ (h ++ k) !! lo = Some (ODict d0)
    ∧ dict_get d0 "id" = Some (VStr (c_id c))
    ∧ dict_get d0 "info" = Some (VRef li)
    ∧ (h ++ k) !! li = Some (ODict di) ∧ length h ≤ li.
Proof.
  unfold to_dict. simpl.
  pose proof (thaw_extends (JDict (c_info c)) h) as [k1 Hk1].
  simpl in Hk1.
  match goal with |- context [thread ?f (c_info c) h] => set (f0 := f) in * end.
  destruct (thread f0 (c_info c) h) as [di h1] eqn:E1. simpl in Hk1.
  match goal with |- context [thread f0 (c_fields c) ?hh] => set (h2 := hh) in * end.
  destruct (thread_extends f0 (c_fields c)) with (h := h2) as [k2 Hk2].
  { apply Forall_forall. intros [key x] _ h0. simpl.
    destruct (thaw_extends x h0) as [k Hk]. destruct (thaw x h0). simpl in *. eauto. }
  destruct (thread f0 (c_fields c) h2) as [dfields h3] eqn:E3. simpl in Hk2.
  assert (∃ k1', h1 = h ++ k1') as [k1' ->].
  { destruct (thread_extends f0 (c_info c)) with (h := h) as [k Hk].
    - apply Forall_forall. intros [key x] _ h0. simpl.
      destruct (thaw_extends x h0) as [k Hk]. destruct (thaw x h0). simpl in *. eauto.
    - rewrite E1 in Hk. simpl in Hk. eauto. }
  subst h2 h3.
  eexists ((k1' ++ [ODict di]) ++ k2 ++ [ODict _]), _, di, _, (length (h ++ k1')).
  split_and!.
  - rewrite !app_assoc. reflexivity.
  - rewrite !app_assoc. apply lookup_alloc.
  - done.
  - done.
  - match goal with |- (h ++ (k1' ++ [?a]) ++ ?rest) !! _ = _ =>
      replace (h ++ (k1' ++ [a]) ++ rest) with ((h ++ k1') ++ a :: rest)
        by (by rewrite <- !app_assoc)
    end.
    by apply list_lookup_middle.
  - rewrite length_app. lia.
Qed.

Lemma create_metadata_dict_live c T cfg h v h1 :
  to_dict c h = (Ok v, h1) →
  create_metadata_dict (Live c) T cfg h = create_metadata_dict (Snapshot v) T cfg h1.
Proof.
  intros Hto. unfold create_metadata_dict.
  rewrite bind_run, Hto. by rewrite (bind_run (mret v)), ret_run.
Qed.

(** The outcome of [create_metadata_dict] on a container *)
Lemma create_metadata_dict_live_spec c T cfg h r h' :
  create_metadata_dict (Live c) T cfg h = (r, h') →
  kept_except (λ l, is_list h (VRef l) = true) h h'
  ∧ lists_stay h h'
  ∧ match r with
    | Ok p =>
        c_id c ≠ EmptyString
        ∧ ∃ dmd vi,
            as_dict h' p = Some dmd ∧ dict_get dmd "info" = Some vi
            ∧ stamped h' vi (hash_string (c_id c))
            ∧ ∀ k, k ∈ dict_keys dmd →
                   k = "info"
                   ∨ ∃ fields, META_WHITELIST_DICT T = Some fields ∧ k ∈ fields
    | Raise e =>
        (e = ValueError ∧ c_id c = EmptyString)
        ∨ (e = TypeError ∧ META_WHITELIST_DICT T = None)
    end.
Proof.
  intros Hrun.
  destruct (to_dict_spec c h) as (k & d0 & di & lo & li & Hto & Hlo & Hid & Hinfo & Hli & Hge).
  rewrite (create_metadata_dict_live _ _ _ _ _ _ Hto) in Hrun.
  eapply create_metadata_dict_spec in Hrun as (K & S & Hr);
    [|by apply as_dict_lookup; eauto].
  rewrite Hid, Hinfo in *. simpl in *.
  assert (kept_except (λ _, False) h (h ++ k)) as K0.
  { split; [rewrite length_app; lia|]. intros l _ o Ho.
    rewrite lookup_app_l; [done|]. by apply lookup_lt_Some in Ho. }
  split_and!.
  - eapply kept_except_compose; [exact K0|exact K|tauto|].
    intros l o Ho Hl [Hlist|[= ->]].
    + apply Hl. apply is_list_true_lookup in Hlist as [xs Hxs].
      apply is_list_true_lookup. exists xs.
      rewrite lookup_app_l in Hxs; [done|]. by apply lookup_lt_Some in Ho.
    + apply lookup_lt_Some in Ho. lia.
  - eapply lists_stay_trans; [|exact S]. apply lists_kept_stay.
    intros l xs Hl. rewrite lookup_app_l; [done|]. by apply lookup_lt_Some in Hl.
  - destruct r as [p|e].
    + destruct Hr as (-> & s & vi & dmd & [= <-] & Hs & Hmd & Hvi & Hwhere & Hst & Hkeys).
      split; [done|]. exists dmd, vi. split_and!; try done.
      * unfold as_dict. by rewrite Hmd.
      * apply Hkeys. apply lookup_lt_Some in Hli.
        destruct Hwhere as [->|(l & -> & Hl)]; intros [= ?]; lia.
    + destruct Hr as [[-> Hfalse]|[[-> Hne]|[-> [HT|Hnone]]]]; auto.
      * left. split; [done|]. destruct (c_id c); [done|]. done.
      * exfalso. by eapply Hne.
      * exfalso. unfold as_dict in Hnone. by rewrite Hli in Hnone.
Qed.

Lemma stamped_origin_id_stamp h p d vi digest :
  as_dict h p = Some d → dict_get d "info" = Some vi → stamped h vi digest →
  origin_id_stamp h p = Some (VStr digest).
Proof.
  intros Hp Hinfo (di & le & de & Hdi & Hexp & Hle & Hde).
  unfold origin_id_stamp. rewrite Hp. simpl. rewrite Hinfo. simpl.
  rewrite Hdi. simpl. rewrite Hexp. simpl. unfold as_dict. rewrite Hle. done.
Qed.

Lemma dict_get_elem {A} (d : list (string * A)) k v :
  dict_get d k = Some v → (k, v) ∈ d.
Proof.
  induction d as [|[k0 v0] d IH]; simpl; [done|].
  destruct (String.eqb k k0) eqn:E.
  - apply String.eqb_eq in E. intros [= ->]. subst. left.
  - intros Hk. right. auto.
Qed.

Lemma closed_dict_get h l d k l' :
  closed h = true → h !! l = Some (ODict d) → dict_get d k = Some (VRef l') →
  l' < length h.
Proof.
  intros Hc Hl Hk. unfold closed in Hc. rewrite forallb_forall in Hc.
  apply list_elem_of_lookup_2, list_elem_of_In, Hc in Hl.
  rewrite forallb_forall in Hl. apply dict_get_elem, list_elem_of_In, Hl in Hk.
  simpl in Hk. by apply Nat.ltb_lt in Hk.
Qed.

(** C3. Whitelist closure: the keys of the dictionary that
    [create_metadata_dict] returns are fields of the container type's
    whitelist or ['info'], whatever the origin and the config are. *)
Theorem create_metadata_dict_keys_whitelisted origin T cfg h payload h' :
  closed h = true →
  create_metadata_dict origin T cfg h = (Ok payload, h') →
  ∃ d, as_dict h' payload = Some d
       ∧ ∀ k, k ∈ dict_keys d →
              k ∈ default [] (META_WHITELIST_DICT T) ∨ k = "info".
Proof.
  intros Hclosed Hrun. destruct origin as [v|c].
  - destruct (as_dict h v) as [d0|] eqn:Hd0.
    2: { unfold create_metadata_dict in Hrun. py_step Hrun.
         rewrite bind_run in Hrun. unfold py_get in Hrun. rewrite Hd0 in Hrun. done. }
    eapply create_metadata_dict_spec in Hrun as (_ & _ & Hr); [|done].
    destruct Hr as (-> & s & vi & dmd & _ & _ & Hmd & Hinfo & Hwhere & _ & Hkeys).
    exists dmd. split; [unfold as_dict; by rewrite Hmd|].
    intros k Hk. apply Hkeys in Hk as [->|(fields & -> & Hk)]; auto.
    destruct Hwhere as [->|(l & -> & Hl)]; [|intros [= ?]; lia].
    apply as_dict_lookup in Hd0 as (lo & -> & Hlo).
    intros Heq. destruct (dict_get d0 "info") as [oi|] eqn:Eoi; [|done].
    simpl in Heq. subst oi.
    pose proof (closed_dict_get _ _ _ _ _ Hclosed Hlo Eoi). lia.
  - eapply create_metadata_dict_live_spec in Hrun as (_ & _ & Hr).
    destruct Hr as (_ & dmd & vi & Hmd & _ & _ & Hkeys).
    exists dmd. split; [done|]. intros k Hk.
    apply Hkeys in Hk as [->|(fields & -> & Hk)]; auto.
Qed.

(** C4. The stamp: with an origin that has an id, the payload that
    [create_metadata_dict] returns has
    [payload['info']['export']['origin_id'] == hash_string(id)], whatever
    the origin info holds; the call raises only when the info it is told to
    take whole is not a dict, and then a [TypeError]. *)
Theorem create_metadata_dict_stamps_origin_id origin T cfg h s :
  origin_id h origin = Some (VStr s) → s ≠ EmptyString →
  T ∈ ["subject"; "session"; "acquisition"] →
  match create_metadata_dict origin T cfg h with
  | (Ok payload, h') => origin_id_stamp h' payload = Some (VStr (hash_string s))
  | (Raise e, _) => e = TypeError ∧ origin_info_is_dict h origin = false
  end.
Proof.
  intros Hid Hs HT.
  assert (META_WHITELIST_DICT T ≠ None) as HM.
  { repeat (apply elem_of_cons in HT as [->|HT]; [done|]). by apply elem_of_nil in HT. }
  destruct (create_metadata_dict origin T cfg h) as [r h'] eqn:Hrun.
  destruct origin as [v|c]; simpl in Hid.
  - destruct (as_dict h v) as [d0|] eqn:Hd0; [|done]. simpl in Hid.
    eapply create_metadata_dict_spec in Hrun as (_ & _ & Hr); [|done].
    rewrite Hid in Hr. simpl in Hr. destruct r as [p|e].
    + destruct Hr as (-> & s' & vi & dmd & [= <-] & _ & Hmd & Hinfo & _ & Hst & _).
      eapply stamped_origin_id_stamp; eauto. unfold as_dict. by rewrite Hmd.
    + destruct Hr as [[_ Hf]|[[_ Hne]|[-> [HT'|Hnone]]]].
      * simpl in Hf. destruct s; done.
      * by destruct (Hne s).
      * done.
      * split; [done|]. simpl. rewrite Hd0. unfold is_dict. by rewrite Hnone.
  - inversion Hid; subst s.
    eapply create_metadata_dict_live_spec in Hrun as (_ & _ & Hr).
    destruct r as [p|e].
    + destruct Hr as (_ & dmd & vi & Hmd & Hinfo & Hst & _).
      eapply stamped_origin_id_stamp; eauto.
    + destruct Hr as [[_ ?]|[_ ?]]; done.
Qed.


(** C5. With the info whitelist ['all'], [create_metadata_dict] writes the
    export stamp into the info dict of the origin snapshot itself. *)
Theorem create_metadata_dict_writes_origin_info :
  sample_heap !! 0 = Some (ODict [("k", VInt 1)])
  ∧ ∃ h', create_metadata_dict (Snapshot (VRef 1)) "session" (VRef 3) sample_heap
          = (Ok (VRef 4), h')
          ∧ h' !! 0 = Some (ODict [("k", VInt 1); ("export", VRef 8)])
          ∧ h' !! 8 = Some (ODict [("origin_id", VStr (hash_string "a"))]).
Proof. split; [reflexivity|]. eexists. vm_compute. split_and!; reflexivity. Qed.

(** ** File export jobs *)

Lemma type_in_list h ft types t :
  as_list h ft = Some types → type_in t ft h = (Ok (listed t types), h).
Proof. intros Hl. unfold type_in. by rewrite Hl. Qed.

Lemma initialize_loop ty origin dest filename_dict ft overwrite h types files :
  as_list h ft = Some types →
  ∀ acc,
    fold_m files acc (λ file_exporter_list container_file,
      let export_filename := dict_get filename_dict (f_name container_file) in
      listed ← type_in (f_type container_file) ft;
      if (listed : bool) then
        let tmp_file_exporter :=
          new_FileExporter (ty, c_id origin)
            (f_name container_file) dest export_filename overwrite in
        mret (file_exporter_list ++ [tmp_file_exporter])
      else mret file_exporter_list) h
    = (Ok (acc ++ map (λ f, new_FileExporter (ty, c_id origin) (f_name f) dest
                              (dict_get filename_dict (f_name f)) overwrite)
                    (List.filter (λ f, listed (f_type f) types) files)), h).
Proof.
  intros Hl. induction files as [|f files IH]; intros acc; simpl.
  - by rewrite app_nil_r.
  - rewrite bind_run, bind_run, (type_in_list _ _ _ _ Hl).
    destruct (listed (f_type f) types); rewrite ret_run; cbv beta iota.
    + rewrite IH. simpl. by rewrite <- app_assoc.
    + apply IH.
Qed.

(** C7. [initialize_container_file_export] makes one job for each file of
    the origin whose type is in the list of file types, in their order, and
    the destination filename of the job is [filename_dict[name]] when the
    name is a key of [filename_dict] and the name of the file otherwise. *)
Theorem initialize_container_file_export_jobs
    ty origin dest filename_dict ft overwrite h types :
  as_list h ft = Some types →
  ∃ jobs,
    initialize_container_file_export ty origin dest filename_dict ft overwrite h
    = (Ok jobs, h)
    ∧ map (λ fe, (fe_origin_filename fe, export_filename fe)) jobs
      = map (λ f, (f_name f,
                   match dict_get filename_dict (f_name f) with
                   | Some new_name => new_name
                   | None => f_name f
                   end))
          (List.filter (λ f, listed (f_type f) types) (c_files origin))
    ∧ Forall (λ fe, fe_origin_parent fe = (ty, c_id origin)
                    ∧ fe_dest_parent fe = dest) jobs.
Proof.
  intros Hl. eexists. split_and!.
  - unfold initialize_container_file_export. by erewrite initialize_loop.
  - simpl. rewrite map_map. apply map_ext. intros f.
    unfold export_filename, new_FileExporter. simpl.
    destruct (exporter_state _ _ _ _ _). simpl.
    by destruct (dict_get filename_dict (f_name f)).
  - simpl. apply Forall_map, Forall_forall. intros f _.
    unfold new_FileExporter. by destruct (exporter_state _ _ _ _ _).
Qed.

(** ** The matchers *)

Lemma in_heap_run {A} (m : Py (list obj) A) w :
  in_heap m w = (let '(r, h) := m (w_heap w) in (r, set_heap w h)).
Proof. reflexivity. Qed.

Lemma config_or_dict_spec cfg key own h label :
  effective_label h cfg key own = Some label →
  ∃ sc h1 d1,
    config_or_dict cfg h = (Ok sc, h1)
    ∧ as_dict h1 sc = Some d1
    ∧ default (VStr own) (dict_get d1 key) = VStr label
    ∧ kept_except (λ _, False) h h1.
Proof.
  intros Heff. unfold config_or_dict. rewrite bind_run, get_state_run.
  cbv beta iota.
  assert (∀ d, as_dict (h ++ [ODict d]) (VRef (length h)) = Some d) as Hnew.
  { intros d. unfold as_dict. by rewrite lookup_alloc. }
  destruct cfg as [| | | |l]; try done.
  - inversion Heff; subst. simpl. rewrite new_dict_run.
    eexists _, _, []. split_and!; [done|apply Hnew|done|apply kept_except_alloc].
  - unfold effective_label, as_dict in Heff. unfold truthy.
    destruct (h !! l) as [[d|xs]|] eqn:El; try done.
    destruct d as [|kv d].
    + inversion Heff; subst. rewrite new_dict_run.
      eexists _, _, []. split_and!; [done|apply Hnew|done|apply kept_except_alloc].
    + rewrite ret_run. eexists _, _, (kv :: d).
      split_and!; [done| | |apply kept_except_refl].
      * unfold as_dict. by rewrite El.
      * destruct (dict_get (kv :: d) key) as [[| | |s|]|]; simpl in *; congruence.
Qed.

Lemma effective_label_kept h h' cfg key own label :
  (∀ l d, h !! l = Some (ODict d) → h' !! l = Some (ODict d)) →
  effective_label h cfg key own = Some label →
  effective_label h' cfg key own = Some label.
Proof.
  intros Hk. unfold effective_label. destruct cfg as [| | | |l]; try done.
  unfold as_dict. destruct (h !! l) as [[d|xs]|] eqn:El; try done.
  by rewrite (Hk _ _ El).
Qed.

Lemma find_index_Some {A} (f : A → bool) xs :
  ∀ n i, find_index f xs n = Some i →
         ∃ x, xs !! (i - n) = Some x ∧ f x = true ∧ n ≤ i.
Proof.
  induction xs as [|x xs IH]; intros n i; simpl; [done|].
  destruct (f x) eqn:Ef.
  - intros [= ->]. exists x. rewrite Nat.sub_diag. auto.
  - intros Hi. apply IH in Hi as (y & Hy & Hfy & Hle).
    exists y. split_and!; [|done|lia].
    replace (i - n) with (S (i - S n)) by lia. done.
Qed.



Lemma dict_get_not_key {A} (d : list (string * A)) k :
  k ∉ dict_keys d → dict_get d k = None.
Proof.
  intros Hk. destruct (dict_get d k) eqn:E; [|done].
  exfalso. apply Hk, dict_get_keys. eauto.
Qed.

Lemma update_run i p w c dmd vi digest :
  w_store w !! i = Some c →
  as_dict (w_heap w) p = Some dmd → dict_get dmd "info" = Some vi →
  stamped (w_heap w) vi digest →
  "label" ∉ dict_keys dmd → "code" ∉ dict_keys dmd →
  ∃ c', update i p w = (Ok tt, set_store w (<[i := c']> (w_store w)))
        ∧ d_type c' = d_type c ∧ d_parent c' = d_parent c
        ∧ d_label c' = d_label c ∧ d_origin_id c' = Some digest.
Proof.
  intros Hi Hp Hinfo (di & le & de & Hdi & Hexp & Hle & Hde) Hlabel Hcode.
  unfold update. rewrite Hi, Hp.
  rewrite (dict_get_not_key _ _ Hlabel), (dict_get_not_key _ _ Hcode).
  unfold payload_info. rewrite Hinfo, Hdi.
  destruct vi; try (by unfold as_dict in Hdi).
  eexists. split_and!; [reflexivity|done|done|done|].
  unfold d_origin_id. simpl.
  rewrite dict_get_merge, dict_get_snap, Hexp. simpl.
  unfold as_dict. by rewrite Hle, Hde.
Qed.

Lemma kept_dicts (P : nat → Prop) (h h' : list obj) :
  kept_except P h h' → (∀ l, P l → is_list h (VRef l) = true) →
  ∀ l d, h !! l = Some (ODict d) → h' !! l = Some (ODict d).
Proof.
  intros [_ K] HP l d Hl. apply K; [|done]. intros Hl'.
  apply HP, is_list_true_lookup in Hl' as [xs Hxs]. congruence.
Qed.



(** C6. With the acquisition config [{'label': 'NEW'}],
    [find_or_create_session_acquisition] gives the new acquisition the
    label of the origin acquisition, where [find_or_create_subject_session]
    gives a new session the label of the config. *)
Theorem find_or_create_session_acquisition_ignores_label :
  (∃ w', find_or_create_session_acquisition sample_acquisition 2 (VRef 0)
           sample_world = (Ok 3, w')
         ∧ d_label <$> w_store w' !! 3 = Some "A1")
  ∧ (∃ w', find_or_create_subject_session sample_acquisition 1 (VRef 0)
             sample_world = (Ok 3, w')
           ∧ d_label <$> w_store w' !! 3 = Some "NEW").
Proof. split; eexists; vm_compute; split; reflexivity. Qed.

(** ** The driver *)

Lemma load_template_file_outside path w r w' :
  load_template_file path w = (r, w') → outside w' = outside w.
Proof.
  unfold load_template_file.
  destruct (_ || _); [|by intros [= <- <-]].
  unfold read_file.
  destruct (dict_get (w_templates w) path) as [[j|]|];
    [| by intros [= <- <-] |destruct (read_template path) as [j|e]].
  all: try (rewrite in_heap_run; destruct (thaw j (w_heap w)); by intros [= <- <-]).
  destruct e; by intros [= <- <-].
Qed.

Lemma _export_subject_unassigned dest template_path csv overwrite template_obj
    ocol subject project s project_files w :
  ∃ w', _export_subject dest template_path csv overwrite None template_obj ocol
          subject project s project_files w
        = (match sub_sessions s with [] => Ok 0 | _ => Raise NameError end, w')
        ∧ outside w' = outside w.
Proof.
  unfold _export_subject, with_temp_dir, sessions_of.
  destruct (sub_sessions s) as [|n ns]; cbn; eauto.
Qed.

Lemma project_loop_unassigned dest template_path csv overwrite template_obj ocol
    project subjects :
  (∃ s, s ∈ subjects ∧ sub_sessions s ≠ []) →
  ∀ acc w,
    ∃ w', fold_m subjects acc (λ '(error_count, project_files) subject,
            subj_error_count ← _export_subject dest template_path csv overwrite
                                 None template_obj ocol
                                 (Some (sub_container subject)) project subject
                                 project_files;
            mret (error_count + subj_error_count, false)) w
          = (Raise NameError, w')
          ∧ outside w' = outside w.
Proof.
  induction subjects as [|s subjects IH]; intros (s0 & Hs0 & Hne) [n b] w.
  - by apply elem_of_nil in Hs0.
  - simpl. rewrite bind_run, bind_run.
    destruct (_export_subject_unassigned dest template_path csv overwrite
                template_obj ocol (Some (sub_container s)) project s b w)
      as (w1 & Hrun & Hout).
    rewrite Hrun. destruct (sub_sessions s) as [|x xs] eqn:Es.
    + cbv beta iota. rewrite ret_run. cbv beta iota.
      apply elem_of_cons in Hs0 as [->|Hs0]; [congruence|].
      destruct (IH (ex_intro _ s0 (conj Hs0 Hne)) (n + 0, false) w1) as (w' & Hr & Ho).
      exists w'. split; [done|congruence].
    + eauto.
Qed.

(** C9. Without a subject CSV the variable that holds the error message
    of the subject template is never assigned: [export_container] raises
    [NameError] when it reaches its first session, for a session scope, a
    subject scope with a session and a project scope with a session, and
    nothing is created, uploaded, reported or exported before. *)
Theorem export_container_unassigned_error_msg container dest template_path csv
    overwrite ncol ocol w template_obj w1 :
  load_template_file template_path w = (Ok template_obj, w1) →
  has_session container →
  ∃ w', export_container container dest template_path csv overwrite None
          ncol ocol w = (Raise NameError, w')
        ∧ outside w' = outside w.
Proof.
  intros Hload Hscope. pose proof (load_template_file_outside _ _ _ _ Hload) as Hout.
  unfold export_container. rewrite bind_run, Hload. cbv beta iota.
  rewrite bind_run, in_heap_run, get_state_run. cbv beta iota.
  rewrite bind_run. cbn [given]. rewrite ret_run. cbv beta iota.
  destruct container as [p|project s|s|t]; simpl in Hscope; [| | |done];
    cbn [scope_type]; rewrite bool_decide_eq_true_2 by (apply list_elem_of_In; simpl; tauto);
    cbn [negb].
  - rewrite bind_run.
    destruct (project_loop_unassigned dest template_path csv overwrite template_obj
                ocol (p_container p) (p_subjects p) Hscope (0, true)
                (set_heap w1 (w_heap w1))) as (w' & Hrun & Ho).
    rewrite Hrun. exists w'. split; [done|]. rewrite Ho. done.
  - destruct (_export_subject_unassigned dest template_path csv overwrite
                template_obj ocol None project s false (set_heap w1 (w_heap w1)))
      as (w' & Hrun & Ho).
    rewrite Hrun. destruct (sub_sessions s); [done|].
    exists w'. split; [done|]. rewrite Ho. done.
  - cbn. eauto.
Qed.

(** ** What a run leaves as it is *)

Lemma respects_ret {S A} (R : S → S → Prop) `{!Reflexive R} (a : A) :
  respects R (mret a).
Proof. intros s r s' [= <- <-]. reflexivity. Qed.

Lemma respects_raise {S A} (R : S → S → Prop) `{!Reflexive R} e :
  respects R (raise e : Py S A).
Proof. intros s r s' [= <- <-]. reflexivity. Qed.

Lemma respects_bind {S A B} (R : S → S → Prop) `{!Transitive R}
    (m : Py S A) (k : A → Py S B) :
  respects R m → (∀ a, respects R (k a)) → respects R (m ≫= k).
Proof.
  intros Hm Hk s r s' Hrun. apply bind_inv in Hrun as [(a & s1 & Hm1 & Hk1)|(e & Hm1 & _)].
  - etrans; [by eapply Hm|by eapply Hk].
  - by eapply Hm.
Qed.

Lemma respects_for_each {S A} (R : S → S → Prop) `{!PreOrder R}
    (xs : list A) (body : A → Py S unit) :
  (∀ x, respects R (body x)) → respects R (for_each xs body).
Proof.
  intros Hbody. induction xs as [|x xs IH]; simpl.
  - apply respects_ret; apply _.
  - apply respects_bind; [apply _|auto|auto].
Qed.

Lemma respects_fold_m {S A B} (R : S → S → Prop) `{!PreOrder R}
    (xs : list A) (body : B → A → Py S B) :
  (∀ acc x, respects R (body acc x)) → ∀ acc, respects R (fold_m xs acc body).
Proof.
  intros Hbody. induction xs as [|x xs IH]; intros acc; simpl.
  - apply respects_ret; apply _.
  - apply respects_bind; [apply _|auto|auto].
Qed.

Lemma respects_same {S A} (R : S → S → Prop) `{!Reflexive R} (m : Py S A) :
  (∀ s, (m s).2 = s) → respects R m.
Proof. intros Hm s r s' Hrun. specialize (Hm s). rewrite Hrun in Hm. simpl in Hm. by subst. Qed.

#[local] Instance evol_preorder : PreOrder evol.
Proof.
  split.
  - intros h. split; [apply kept_except_refl|apply lists_stay_refl].
  - intros h1 h2 h3 [K1 S1] [K2 S2]. split; [|by eapply lists_stay_trans].
    eapply kept_except_compose; [exact K1|exact K2|tauto|].
    intros l o Ho Hl Hlist. apply Hl.
    apply is_list_true_lookup in Hlist as [xs Hxs].
    pose proof (proj2 K1 l Hl o Ho) as Ho2. rewrite Hxs in Ho2.
    inversion Ho2; subst. apply is_list_true_lookup. eauto.
Qed.

#[local] Instance wframe_preorder : PreOrder wframe.
Proof.
  split.
  - intros w. split; [done|reflexivity].
  - intros w1 w2 w3 [C1 E1] [C2 E2]. split; [congruence|by etrans].
Qed.

Lemma evol_alloc h o : evol h (h ++ [o]).
Proof. split; [apply kept_except_alloc|apply lists_stay_alloc]. Qed.

Lemma respects_in_heap {A} (m : Py (list obj) A) :
  respects evol m → respects wframe (in_heap m).
Proof.
  intros Hm w r w'. rewrite in_heap_run.
  destruct (m (w_heap w)) as [r0 h] eqn:E. intros [= <- <-].
  split; [done|]. simpl. by eapply Hm.
Qed.

Lemma respects_config_or_dict cfg : respects evol (config_or_dict cfg).
Proof.
  intros h r h'. unfold config_or_dict. rewrite bind_run, get_state_run.
  cbv beta iota. destruct (truthy h cfg); intros [= <- <-];
    [reflexivity|apply evol_alloc].
Qed.

Lemma respects_create_metadata_dict c T cfg :
  respects evol (create_metadata_dict (Live c) T cfg).
Proof.
  intros h r h' Hrun.
  apply create_metadata_dict_live_spec in Hrun as (K & S & _). by split.
Qed.

Lemma respects_store_op {A} (m : Py world A) :
  (∀ w, w_calls (m w).2 = w_calls w ∧ w_heap (m w).2 = w_heap w) →
  respects wframe m.
Proof.
  intros Hm w r w' Hrun. destruct (Hm w) as [Hc Hh]. rewrite Hrun in Hc, Hh.
  simpl in *. split; [done|]. rewrite Hh. reflexivity.
Qed.

Lemma respects_find_first parent ty q : respects wframe (find_first parent ty q).
Proof. by apply respects_store_op. Qed.

Lemma respects_add_child parent ty names label payload :
  respects wframe (add_child parent ty names label payload).
Proof.
  apply respects_store_op. intros w. unfold add_child.
  repeat case_match; done.
Qed.

Lemma respects_update i payload : respects wframe (update i payload).
Proof.
  apply respects_store_op. intros w. unfold update.
  repeat case_match; done.
Qed.

Lemma respects_parent_of i : respects wframe (parent_of i).
Proof.
  apply respects_store_op. intros w. unfold parent_of.
  repeat case_match; done.
Qed.

Lemma respects_heap_read {A} (m : Py (list obj) A) :
  (∀ h, (m h).2 = h) → respects wframe (in_heap m).
Proof.
  intros Hm. apply respects_in_heap, respects_same; [apply _|done].
Qed.

Ltac respects_step :=
  first
    [ apply respects_ret; apply _
    | apply respects_raise; apply _
    | apply respects_in_heap; first [ apply respects_config_or_dict
                                    | apply respects_create_metadata_dict ]
    | apply respects_heap_read; intros ?;
      unfold py_get_default, py_get, quote_numeric_string; repeat case_match; done
    | apply respects_find_first
    | apply respects_add_child
    | apply respects_update
    | apply respects_parent_of
    | match goal with
      | |- respects _ (match ?x with _ => _ end) => destruct x
      | |- respects _ (if ?x then _ else _) => destruct x
      end
    | apply respects_bind; [apply _| |intros] ].

Lemma respects_find_or_create_subject origin dest cfg :
  respects wframe (find_or_create_subject origin dest cfg).
Proof.
  unfold find_or_create_subject. repeat respects_step.
Qed.

Lemma respects_find_or_create_subject_session origin dest cfg :
  respects wframe (find_or_create_subject_session origin dest cfg).
Proof.
  unfold find_or_create_subject_session. repeat respects_step.
Qed.

Lemma respects_find_or_create_session_acquisition origin dest cfg :
  respects wframe (find_or_create_session_acquisition origin dest cfg).
Proof.
  unfold find_or_create_session_acquisition. repeat respects_step.
Qed.

Lemma type_in_heap t ft h : (type_in t ft h).2 = h.
Proof. unfold type_in. repeat case_match; done. Qed.



Lemma evol_prefix (h k : list obj) : evol h (h ++ k).
Proof.
  split.
  - split; [rewrite length_app; lia|]. intros l _ o Ho.
    rewrite lookup_app_l; [done|]. by apply lookup_lt_Some in Ho.
  - apply lists_kept_stay. intros l xs Hl.
    rewrite lookup_app_l; [done|]. by apply lookup_lt_Some in Hl.
Qed.









#[local] Instance calls_kept_preorder : PreOrder calls_kept.
Proof. split; [done|]. intros w1 w2 w3 H1 H2. unfold calls_kept in *. congruence. Qed.




Lemma respects_with_temp_dir {A} (body : string → Py world A) :
  (∀ d, respects calls_kept (body d)) → respects calls_kept (with_temp_dir body).
Proof.
  intros Hbody w r w'. unfold with_temp_dir.
  destruct (body _ _) as [r0 w1] eqn:E. intros [= <- <-].
  apply Hbody in E. exact E.
Qed.





















Lemma initialize_unlisted_loop ty c dest fd ft ow h :
  (∀ f, f ∈ c_files c → unlisted h ft (f_type f)) →
  ∀ acc,
    fold_m (c_files c) acc (λ file_exporter_list container_file,
      let export_filename := dict_get fd (f_name container_file) in
      listed ← type_in (f_type container_file) ft;
      if (listed : bool) then
        let tmp_file_exporter :=
          new_FileExporter (ty, c_id c)
            (f_name container_file) dest export_filename ow in
        mret (file_exporter_list ++ [tmp_file_exporter])
      else mret file_exporter_list) h = (Ok acc, h).
Proof.
  intros Hf. induction (c_files c) as [|f files IH]; intros acc; [done|].
  cbn [fold_m]. rewrite bind_run, bind_run.
  rewrite (Hf f) by apply list_elem_of_here. cbv beta iota.
  rewrite ret_run. apply IH. intros f' Hf'. apply Hf. by apply list_elem_of_further.
Qed.

Lemma initialize_container_file_export_unlisted ty c dest fd ft ow h :
  (∀ f, f ∈ c_files c → unlisted h ft (f_type f)) →
  initialize_container_file_export ty c dest fd ft ow h = (Ok [], h).
Proof. intros Hf. by apply initialize_unlisted_loop. Qed.

(** The session exporter of [export_session] has the file types of the
    template and no job. *)
Lemma session_exporter_file_types s dest template w r w' :
  (no_config ← in_heap (new_dict []);
   export_config ← in_heap (py_get_default template "export" no_config);
   new_SessionExporter s dest export_config None) w = (r, w') →
  match session_file_types template (w_heap w) with
  | (Ok ft, h) =>
      ∃ se, r = Ok se ∧ se_file_types se = ft ∧ se_files se = []
            ∧ se_dest se = None ∧ se_origin se = s
            ∧ se_origin_project se = os_project s ∧ w_heap w' = h
  | (Raise e, h) => r = Raise e
  end.
Proof.
  unfold session_file_types, new_SessionExporter.
  rewrite !bind_run, !in_heap_run, new_dict_run. cbv beta iota.
  rewrite !bind_run, !in_heap_run. cbn [w_heap set_heap].
  unfold py_get_default at 1 3.
  destruct (as_dict (w_heap w ++ [ODict []]) template) as [d|]; cbv beta iota;
    [|by intros [= <- <-]].
  rewrite !bind_run, !in_heap_run, !bind_run, !get_state_run. cbv beta iota.
  cbn [w_heap set_heap].
  set (cfg := default (VRef (length (w_heap w))) (dict_get d "export")).
  destruct (is_dict (w_heap w ++ [ODict []]) cfg) eqn:Ed.
  - rewrite !ret_run. cbv beta iota. rewrite !bind_run, !in_heap_run.
    unfold new_list, new_object. cbv beta iota. cbn [w_heap set_heap].
    rewrite !bind_run, !in_heap_run. cbn [w_heap set_heap].
    destruct (py_get_default cfg "file_types" _ _) as [[ft|e] h4] eqn:Eft;
      cbv beta iota; [|by intros [= <- <-]].
    rewrite bind_run, ret_run. cbv beta iota. rewrite ret_run.
    intros [= <- <-]. eexists. repeat split; done.
  - rewrite new_dict_run. cbv beta iota. rewrite !bind_run, !in_heap_run.
    unfold new_list, new_object. cbv beta iota. cbn [w_heap set_heap].
    rewrite !bind_run, !in_heap_run. cbn [w_heap set_heap].
    destruct (py_get_default _ "file_types" _ _) as [[ft|e] h4] eqn:Eft;
      cbv beta iota; [|by intros [= <- <-]].
    rewrite bind_run, ret_run. cbv beta iota. rewrite ret_run.
    intros [= <- <-]. eexists. repeat split; done.
Qed.

Lemma set_heap_same w : set_heap w (w_heap w) = w.
Proof. by destruct w. Qed.

Lemma same_jobs_refl self : same_jobs self self.
Proof. by repeat split. Qed.

Lemma find_or_create_dest_subject_jobs self w self1 w1 :
  find_or_create_dest_subject self w = (Ok self1, w1) → same_jobs self self1.
Proof.
  unfold find_or_create_dest_subject. destruct (se_dest_subject self).
  - intros [= <- <-]. apply same_jobs_refl.
  - intros Hrun.
    apply bind_inv in Hrun as [(cfg & w2 & _ & Hrun)|(e & _ & [=])].
    apply bind_inv in Hrun as [(d & w3 & _ & Hrun)|(e & _ & [=])].
    injection Hrun as <- <-. by repeat split.
Qed.

Lemma find_or_create_dest_jobs self w self1 w1 :
  find_or_create_dest self w = (Ok self1, w1) → same_jobs self self1.
Proof.
  unfold find_or_create_dest. destruct (se_dest self).
  - intros [= <- <-]. apply same_jobs_refl.
  - intros Hrun.
    apply bind_inv in Hrun as [(self2 & w2 & Hsub & Hrun)|(e & _ & [=])].
    assert (same_jobs self self2) as (J1 & J2 & J3 & J4 & J5 & J6).
    { destruct (se_dest_subject self);
        [injection Hsub as <- <-; apply same_jobs_refl|].
      by eapply find_or_create_dest_subject_jobs. }
    destruct (se_dest_subject self2); [|done].
    apply bind_inv in Hrun as [(cfg & w3 & _ & Hrun)|(e & _ & [=])].
    apply bind_inv in Hrun as [(d & w4 & _ & Hrun)|(e & _ & [=])].
    injection Hrun as <- <-. by repeat split.
Qed.

Lemma initialize_step ty c dest fd ft ow w :
  (∀ f, f ∈ c_files c → unlisted (w_heap w) ft (f_type f)) →
  in_heap (initialize_container_file_export ty c dest fd ft ow) w = (Ok [], w).
Proof.
  intros Hf. rewrite in_heap_run, initialize_container_file_export_unlisted by done.
  by rewrite set_heap_same.
Qed.

Lemma load_template_file_calls path w cs :
  load_template_file path (set_calls w cs)
  = (let '(r, w1) := load_template_file path w in (r, set_calls w1 cs)).
Proof.
  unfold load_template_file. destruct (_ || _); [|done].
  unfold read_file. cbn [w_templates set_calls].
  destruct (dict_get (w_templates w) path) as [[j|]|]; [|done|].
  - rewrite !in_heap_run. cbn [w_heap set_calls]. by destruct (thaw j (w_heap w)).
  - destruct (read_template path) as [j|e]; [|by destruct e].
    rewrite !in_heap_run. cbn [w_heap set_calls]. by destruct (thaw j (w_heap w)).
Qed.

Lemma string_app_cons c (a b : string) : String c a +:+ b = String c (a +:+ b).
Proof. reflexivity. Qed.

Lemma string_app_nil_l (a : string) : EmptyString +:+ a = a.
Proof. reflexivity. Qed.

Lemma string_app_nil_r (a : string) : a +:+ EmptyString = a.
Proof. induction a as [|x a IH]; [done|]. by rewrite string_app_cons, IH. Qed.

Lemma string_app_assoc (a b c : string) : (a +:+ b) +:+ c = a +:+ b +:+ c.
Proof. induction a as [|x a IH]; [done|]. by rewrite !string_app_cons, IH. Qed.

Lemma string_app_length (a b : string) :
  String.length (a +:+ b) = String.length a + String.length b.
Proof. induction a as [|x a IH]; [done|]. rewrite string_app_cons. simpl. by rewrite IH. Qed.

(** What [skip_digits] does at the head of a string: it takes a digit of
    one, two, three or four bytes, or it stops. *)
Lemma skip_digits_head s :
  (∃ a r, s = String a r ∧ is_digit a = true ∧ skip_digits s = skip_digits r)
  ∨ (∃ a b r, s = String a (String b r) ∧ is_digit a = false
              ∧ is_digit2 a b = true ∧ skip_digits s = skip_digits r)
  ∨ (∃ a b c r, s = String a (String b (String c r)) ∧ is_digit a = false
                ∧ is_digit2 a b = false ∧ is_digit3 a b c = true
                ∧ skip_digits s = skip_digits r)
  ∨ (∃ a b c d r, s = String a (String b (String c (String d r)))
                  ∧ is_digit a = false ∧ is_digit2 a b = false
                  ∧ is_digit3 a b c = false ∧ is_digit4 a b c d = true
                  ∧ skip_digits s = skip_digits r)
  ∨ (skip_digits s = s ∧ ∀ t, skip_digits t = EmptyString → t ≠ EmptyString →
                              ∀ u, t +:+ u ≠ s).
Proof.
  destruct s as [|a s1]; [right; right; right; right; split; [done|] |].
  { intros [|x t] _ Ht u; [done|]. by rewrite string_app_cons. }
  destruct (is_digit a) eqn:Ea; [left; exists a, s1; simpl; by rewrite Ea|].
  right. destruct s1 as [|b s2].
  { right; right; right. split; [simpl; by rewrite Ea|].
    intros [|x [|y t]] Hskip Ht u; [done| |by rewrite !string_app_cons].
    rewrite string_app_cons. intros [= -> _]. simpl in Hskip. by rewrite Ea in Hskip. }
  destruct (is_digit2 a b) eqn:Eb; [left; exists a, b, s2; simpl; by rewrite Ea, Eb|].
  right. destruct s2 as [|c s3].
  { right; right. split; [simpl; by rewrite Ea, Eb|].
    intros [|x [|y [|z t]]] Hskip Ht u; [done| | |by rewrite !string_app_cons].
    - rewrite string_app_cons. intros [= -> _]. simpl in Hskip. by rewrite Ea in Hskip.
    - rewrite !string_app_cons. intros [= -> -> _]. simpl in Hskip.
      by rewrite Ea, Eb in Hskip. }
  destruct (is_digit3 a b c) eqn:Ec;
    [left; exists a, b, c, s3; simpl; by rewrite Ea, Eb, Ec|].
  right. destruct s3 as [|d s4].
  { right. split; [simpl; by rewrite Ea, Eb, Ec|].
    intros [|x [|y [|z [|v t]]]] Hskip Ht u; [done| | | |by rewrite !string_app_cons].
    - rewrite string_app_cons. intros [= -> _]. simpl in Hskip. by rewrite Ea in Hskip.
    - rewrite !string_app_cons. intros [= -> -> _]. simpl in Hskip.
      by rewrite Ea, Eb in Hskip.
    - rewrite !string_app_cons. intros [= -> -> -> _]. simpl in Hskip.
      by rewrite Ea, Eb, Ec in Hskip. }
  destruct (is_digit4 a b c d) eqn:Ed;
    [left; exists a, b, c, d, s4; simpl; by rewrite Ea, Eb, Ec, Ed|].
  right. split; [simpl; by rewrite Ea, Eb, Ec, Ed|].
  intros [|x [|y [|z [|v t]]]] Hskip Ht u; [done| | | |].
  - rewrite string_app_cons. intros [= -> _]. simpl in Hskip. by rewrite Ea in Hskip.
  - rewrite !string_app_cons. intros [= -> -> _]. simpl in Hskip.
    by rewrite Ea, Eb in Hskip.
  - rewrite !string_app_cons. intros [= -> -> -> _]. simpl in Hskip.
    by rewrite Ea, Eb, Ec in Hskip.
  - rewrite !string_app_cons. intros [= -> -> -> -> _]. simpl in Hskip.
    by rewrite Ea, Eb, Ec, Ed in Hskip.
Qed.

Lemma digits_cons1 a ds : is_digit a = true → digits (String a ds) = digits ds.
Proof. intros Ea. unfold digits. simpl. by rewrite Ea. Qed.

(** A string is digits, then what [skip_digits] leaves of it, at which
    [skip_digits] stops. *)
Lemma skip_digits_split s :
  ∃ ds, s = ds +:+ skip_digits s ∧ digits ds = true
        ∧ skip_digits (skip_digits s) = skip_digits s.
Proof.
  remember (String.length s) as n eqn:Hn. revert s Hn.
  induction n as [n IH] using lt_wf_ind. intros s ->.
  destruct (skip_digits_head s)
    as [(a & r & -> & Ea & ->)
       |[(a & b & r & -> & Ea & Eb & ->)
        |[(a & b & c & r & -> & Ea & Eb & Ec & ->)
         |[(a & b & c & d & r & -> & Ea & Eb & Ec & Ed & ->)|[Hstop _]]]]].
  - destruct (IH (String.length r)) with (s := r) as (ds & Hr & Hds & Hst);
      [simpl; lia|done|].
    exists (String a ds). rewrite string_app_cons, <- Hr.
    split_and!; [done| |done]. unfold digits in *. simpl. by rewrite Ea.
  - destruct (IH (String.length r)) with (s := r) as (ds & Hr & Hds & Hst);
      [simpl; lia|done|].
    exists (String a (String b ds)). rewrite !string_app_cons, <- Hr.
    split_and!; [done| |done]. unfold digits in *. simpl. by rewrite Ea, Eb.
  - destruct (IH (String.length r)) with (s := r) as (ds & Hr & Hds & Hst);
      [simpl; lia|done|].
    exists (String a (String b (String c ds))). rewrite !string_app_cons, <- Hr.
    split_and!; [done| |done]. unfold digits in *. simpl. by rewrite Ea, Eb, Ec.
  - destruct (IH (String.length r)) with (s := r) as (ds & Hr & Hds & Hst);
      [simpl; lia|done|].
    exists (String a (String b (String c (String d ds)))).
    rewrite !string_app_cons, <- Hr.
    split_and!; [done| |done]. unfold digits in *. simpl. by rewrite Ea, Eb, Ec, Ed.
  - exists EmptyString. rewrite Hstop. by split_and!.
Qed.

Lemma digits_inv ds : digits ds = true → skip_digits ds = EmptyString.
Proof. unfold digits. by intros ?%String.eqb_eq. Qed.

Lemma skip_digits_app ds r : digits ds = true → skip_digits (ds +:+ r) = skip_digits r.
Proof.
  remember (String.length ds) as n eqn:Hn. revert ds Hn.
  induction n as [n IH] using lt_wf_ind. intros ds -> Hds.
  pose proof (digits_inv _ Hds) as Hnil.
  destruct (skip_digits_head ds)
    as [(a & t & -> & Ea & Hs)
       |[(a & b & t & -> & Ea & Eb & Hs)
        |[(a & b & c & t & -> & Ea & Eb & Ec & Hs)
         |[(a & b & c & d & t & -> & Ea & Eb & Ec & Ed & Hs)|[Hstop _]]]]].
  - rewrite string_app_cons. simpl. rewrite Ea.
    apply (IH (String.length t)); [simpl; lia|done|].
    unfold digits. by rewrite <- Hs, Hnil.
  - rewrite !string_app_cons. simpl. rewrite Ea, Eb.
    apply (IH (String.length t)); [simpl; lia|done|].
    unfold digits. by rewrite <- Hs, Hnil.
  - rewrite !string_app_cons. simpl. rewrite Ea, Eb, Ec.
    apply (IH (String.length t)); [simpl; lia|done|].
    unfold digits. by rewrite <- Hs, Hnil.
  - rewrite !string_app_cons. simpl. rewrite Ea, Eb, Ec, Ed.
    apply (IH (String.length t)); [simpl; lia|done|].
    unfold digits. by rewrite <- Hs, Hnil.
  - rewrite Hnil in Hstop. by subst.
Qed.

Lemma at_end_inv r :
  at_end r = true → r = EmptyString ∨ r = String (ascii_of_nat 10) EmptyString.
Proof.
  destruct r as [|c [|]]; simpl; [auto| |done].
  intros Hc%Ascii.eqb_eq. subst. auto.
Qed.

Lemma skip_digits_stop r :
  r = EmptyString ∨ r = String (ascii_of_nat 10) EmptyString → skip_digits r = r.
Proof. by intros [->| ->]. Qed.

Lemma skip_digits_dot r : skip_digits (String "." r) = String "." r.
Proof. destruct r as [|b [|c [|d r]]]; reflexivity. Qed.

Lemma skip_digits_dq r : skip_digits (dq +:+ r) = dq +:+ r.
Proof. unfold dq. rewrite string_app_cons. destruct r as [|b [|c [|d r]]]; reflexivity. Qed.

Lemma string_eqb_longer (a b : string) :
  a ≠ EmptyString → String.eqb b (a +:+ b) = false.
Proof.
  intros Ha. apply String.eqb_neq. intros Heq.
  apply (f_equal String.length) in Heq. rewrite string_app_length in Heq.
  destruct a; [done|]. simpl in Heq. lia.
Qed.

Lemma skip_dot_stop nl :
  nl = EmptyString ∨ nl = String (ascii_of_nat 10) EmptyString → skip_dot nl = nl.
Proof. by intros [->| ->]. Qed.

Lemma numeric_string_form s : numeric_string s = true ↔ numeric_form s.
Proof.
  unfold numeric_string. split.
  - intros [Hsome Hend]%andb_prop. apply negb_true_iff, String.eqb_neq in Hsome.
    destruct (skip_digits_split s) as (ds & Hs & Hds & Hst).
    assert (ds ≠ EmptyString) as Hne.
    { intros ->. by rewrite string_app_nil_l in Hs. }
    apply at_end_inv in Hend.
    destruct (skip_digits s) as [|d r] eqn:Er.
    { exists ds, EmptyString, EmptyString, EmptyString.
      rewrite !string_app_nil_l. by split_and!; auto. }
    simpl in Hend. destruct (Ascii.eqb d (ascii_of_nat 46)) eqn:Ed.
    + apply Ascii.eqb_eq in Ed as ->.
      destruct (skip_digits_split r) as (fs & Hr & Hfs & _).
      exists ds, ".", fs, (skip_digits r).
      split_and!; try done; [|by right].
      rewrite Hs at 1. rewrite Hr at 1. by rewrite !string_app_cons, string_app_nil_l.
    + rewrite Hst in Hend.
      exists ds, EmptyString, EmptyString, (String d r).
      rewrite !string_app_nil_l. by split_and!; auto.
  - intros (whole & dot & frac & nl & -> & Hne & Hw & Hf & Hdot & Hnl).
    rewrite (skip_digits_app whole) by done.
    destruct Hdot as [->| ->].
    + rewrite string_app_nil_l, (skip_digits_app frac), (skip_digits_stop nl) by done.
      rewrite (skip_dot_stop nl), (skip_digits_stop nl) by done.
      apply andb_true_intro. split.
      * apply negb_true_iff.
        replace (whole +:+ frac +:+ nl) with ((whole +:+ frac) +:+ nl)
          by apply string_app_assoc.
        apply string_eqb_longer. by destruct whole.
      * by destruct Hnl as [->| ->].
    + rewrite string_app_cons, string_app_nil_l, skip_digits_dot. simpl skip_dot.
      rewrite (skip_digits_app frac), (skip_digits_stop nl) by done.
      apply andb_true_intro. split.
      * apply negb_true_iff.
        change (String "." (frac +:+ nl)) with ("." +:+ frac +:+ nl).
        apply string_eqb_longer. done.
      * by destruct Hnl as [->| ->].
Qed.

(** X1. [quote_numeric_string] puts double quotes around the strings that
    are decimal digits (of any script: [\d] in a [str] pattern), then a dot
    or none, then digits or none (and a newline at the end or none), and
    returns every other string as it is.  Strings are UTF-8 encodings. *)
Theorem quote_numeric_string_form s h :
  (numeric_form s → quote_numeric_string (VStr s) h = (Ok (dq +:+ s +:+ dq), h))
  ∧ (¬ numeric_form s → quote_numeric_string (VStr s) h = (Ok s, h)).
Proof.
  unfold quote_numeric_string, quote_str. simpl.
  split; intros Hs.
  - apply numeric_string_form in Hs. by rewrite Hs.
  - destruct (numeric_string s) eqn:E; [|done].
    by apply numeric_string_form in E.
Qed.

Lemma numeric_string_quoted s : numeric_string (dq +:+ s +:+ dq) = false.
Proof.
  unfold numeric_string. rewrite skip_digits_dq.
  by rewrite String.eqb_refl.
Qed.

Lemma quote_str_idempotent s : quote_str (quote_str s) = quote_str s.
Proof.
  unfold quote_str at 2 3. destruct (numeric_string s) eqn:E.
  - unfold quote_str. by rewrite numeric_string_quoted.
  - unfold quote_str. by rewrite E.
Qed.

(** X2. What [quote_numeric_string] returns it returns as it is when it is
    given it again: a quoted string is not quoted twice. *)
Theorem quote_numeric_string_idempotent v h :
  ∃ q, quote_numeric_string v h = (Ok q, h)
       ∧ quote_numeric_string (VStr q) h = (Ok q, h).
Proof.
  eexists. split; [reflexivity|].
  unfold quote_numeric_string. simpl. f_equal. f_equal. apply quote_str_idempotent.
Qed.

Lemma digits_string_of_uint u : digits (NilEmpty.string_of_uint u) = true.
Proof. induction u; simpl; auto; by rewrite digits_cons1. Qed.

Lemma digits_form s : s ≠ EmptyString → digits s = true → numeric_form s.
Proof.
  intros Hne Hd. exists s, EmptyString, EmptyString, EmptyString.
  rewrite !string_app_nil_r. by repeat split; auto.
Qed.

(** X3. An integer is written in decimal and quoted when it is not
    negative; a negative integer is written and not quoted. *)
Theorem quote_numeric_string_int n h :
  quote_numeric_string (VInt n) h
  = (Ok (if (0 <=? n)%Z
         then dq +:+ NilZero.string_of_int (Z.to_int n) +:+ dq
         else NilZero.string_of_int (Z.to_int n)), h).
Proof.
  unfold quote_numeric_string, quote_str. simpl. f_equal. f_equal.
  destruct n as [|p|p]; simpl.
  - reflexivity.
  - replace (numeric_string _) with true; [done|]. symmetry.
    apply numeric_string_form, digits_form.
    + unfold NilZero.string_of_uint. pose proof (DecimalPos.Unsigned.to_uint_nonnil p).
      destruct (Pos.to_uint p); done.
    + unfold NilZero.string_of_uint. destruct (Pos.to_uint p) eqn:E; try done;
        rewrite <- E; apply digits_string_of_uint.
  - replace (numeric_string _) with false; [done|]. symmetry.
    unfold numeric_string.
    replace (skip_digits (String "-" _)) with
      (String "-" (NilZero.string_of_uint (Pos.to_uint p)));
      [by rewrite String.eqb_refl|].
    by destruct (NilZero.string_of_uint _) as [|b [|c [|d r]]].
Qed.


Lemma add_child_run parent ty names label p w dmd vi digest :
  as_dict (w_heap w) p = Some dmd → dict_get dmd "info" = Some vi →
  stamped (w_heap w) vi digest →
  (∀ k, k ∈ names → k ∉ dict_keys dmd) →
  ∃ c, add_child parent ty names (VStr label) p w
       = (Ok (length (w_store w)), set_store w (w_store w ++ [c]))
       ∧ d_type c = ty ∧ d_parent c = Some parent ∧ d_label c = label
       ∧ d_origin_id c = Some digest.
Proof.
  intros Hp Hinfo (di & le & de & Hdi & Hexp & Hle & Hde) Hnames.
  unfold add_child. rewrite Hp.
  replace (existsb _ (dict_keys dmd)) with false.
  2:{ symmetry. apply not_true_is_false. intros (k & Hk & Hin)%existsb_exists.
      apply existsb_eqb in Hin. apply (Hnames k Hin). by apply list_elem_of_In. }
  unfold payload_info. rewrite Hinfo, Hdi.
  destruct vi; try (by unfold as_dict in Hdi).
  eexists. split_and!; [reflexivity|done|done|done|].
  unfold d_origin_id. simpl. rewrite dict_get_snap, Hexp. simpl.
  unfold as_dict. by rewrite Hle, Hde.
Qed.

(** *** The filters of the matchers, read by the query engine *)






















Lemma find_index_None {A} (f : A → bool) xs :
  ∀ n, find_index f xs n = None → List.filter f xs = [].
Proof.
  induction xs as [|x xs IH]; intros n; simpl; [done|].
  destruct (f x); [done|]. apply IH.
Qed.


Lemma whitelist_not_reserved T k :
  T ∈ ["subject"; "session"; "acquisition"] →
  k = "info" ∨ (∃ fields, META_WHITELIST_DICT T = Some fields ∧ k ∈ fields) →
  k ≠ "label" ∧ k ≠ "code".
Proof.
  intros HT [->|(fields & Hf & Hk)]; [done|].
  repeat (apply elem_of_cons in HT as [->|HT];
          [vm_compute in Hf; inversion Hf; subst; clear Hf;
           repeat (apply elem_of_cons in Hk as [->|Hk]; [done|]);
           by apply elem_of_nil in Hk|]).
  by apply elem_of_nil in HT.
Qed.

(** What the three matchers do once they have the query: they look for
    the first container that it selects, make the payload, and update that
    container or add a new one. *)
Lemma reconcile_run origin T sc parent ty query names label w :
  c_id origin ≠ EmptyString →
  T ∈ ["subject"; "session"; "acquisition"] →
  (∀ k, k ∈ names → k = "label" ∨ k = "code") →
  ∃ w' c',
    (dest ← find_first parent ty query;
     meta_dict ← in_heap (create_metadata_dict (Live origin) T sc);
     match dest with
     | None => add_child parent ty names (VStr label) meta_dict
     | Some dest => update dest meta_dict ≫= λ _, mret dest
     end) w
    = (Ok (first_or_new (child_matches parent ty query) (w_store w)), w')
    ∧ match find_index (child_matches parent ty query) (w_store w) 0 with
      | Some j =>
          ∃ c, w_store w !! j = Some c
               ∧ child_matches parent ty query c = true
               ∧ w_store w' = <[j := c']> (w_store w)
               ∧ d_type c' = d_type c ∧ d_parent c' = d_parent c
               ∧ d_label c' = d_label c
      | None =>
          w_store w' = w_store w ++ [c']
          ∧ d_type c' = ty ∧ d_parent c' = Some parent ∧ d_label c' = label
      end
    ∧ d_origin_id c' = Some (hash_string (c_id origin))
    ∧ (∀ l d, w_heap w !! l = Some (ODict d) → w_heap w' !! l = Some (ODict d))
    ∧ w_reports w' = w_reports w ∧ w_transfers w' = w_transfers w.
Proof.
  intros Hid HT Hnames. unfold first_or_new.
  rewrite bind_run. unfold find_first at 1. cbv beta iota.
  rewrite bind_run, in_heap_run.
  destruct (create_metadata_dict (Live origin) T sc (w_heap w)) as [r h2] eqn:Ecmd.
  apply create_metadata_dict_live_spec in Ecmd as (K2 & S2 & Hr).
  destruct r as [p|e].
  2:{ destruct Hr as [[_ ?]|[_ Hnone]]; [done|]. exfalso.
      repeat (apply elem_of_cons in HT as [->|HT]; [by vm_compute in Hnone|]).
      by apply elem_of_nil in HT. }
  destruct Hr as (_ & dmd & vi & Hp & Hinfo & Hst & Hkeys).
  cbv beta iota.
  assert (∀ k, k = "label" ∨ k = "code" → k ∉ dict_keys dmd) as Hres.
  { intros k Hk Hin. apply Hkeys, (whitelist_not_reserved T) in Hin as [? ?]; [|done].
    by destruct Hk. }
  assert (∀ l d, w_heap w !! l = Some (ODict d) → h2 !! l = Some (ODict d)) as Hdicts.
  { by apply (kept_dicts _ _ _ K2). }
  match goal with |- context [set_heap w h2] => set (w2 := set_heap w h2) end.
  destruct (find_index (child_matches parent ty query) (w_store w) 0) as [j|] eqn:Ef.
  - destruct (find_index_Some _ _ _ _ Ef) as (c & Hc & Hmatch & _).
    rewrite Nat.sub_0_r in Hc. rewrite bind_run.
    destruct (update_run j p w2 c dmd vi (hash_string (c_id origin)))
      as (c' & Hupd & Hty & Hpar & Hlab & Horg); try done; try (apply Hres; auto).
    rewrite Hupd. cbv beta iota. rewrite ret_run.
    eexists _, c'. split; [reflexivity|].
    split; [exists c; by split_and!|]. by split_and!.
  - destruct (add_child_run parent ty names label p w2 dmd vi
                (hash_string (c_id origin)))
      as (c' & Hadd & Hty & Hpar & Hlab & Horg); try done.
    { intros k Hk. by apply Hres, Hnames. }
    rewrite Hadd. eexists _, c'. split; [reflexivity|]. by split_and!.
Qed.
















Lemma copy_info_nothing meta_dict info_wl items h :
  as_list h info_wl = Some [] →
  for_each items (copy_info_item meta_dict info_wl) h = (Ok tt, h).
Proof.
  intros Hwl. induction items as [|[k v] items IH]; [done|].
  cbn [for_each]. rewrite bind_run. unfold copy_info_item at 1.
  rewrite bind_run. unfold list_items at 1. rewrite Hwl. exact IH.
Qed.

Lemma copy_info_nothing_opt meta_dict info_wl (o : option dict) h :
  as_list h info_wl = Some [] →
  match o with
  | Some items => for_each items (copy_info_item meta_dict info_wl)
  | None => mret tt
  end h = (Ok tt, h).
Proof. intros Hwl. destruct o; [by apply copy_info_nothing|done]. Qed.

Lemma lookup_app_plus {A} (h k : list A) i : (h ++ k) !! (length h + i) = k !! i.
Proof. rewrite lookup_app_r by lia. f_equal. lia. Qed.

Lemma insert_app_plus {A} (h k : list A) i x :
  <[length h + i := x]> (h ++ k) = h ++ <[i := x]> k.
Proof. rewrite insert_app_r_alt by lia. do 2 f_equal. lia. Qed.

Ltac go :=
  repeat first
    [ rewrite bind_run | rewrite ret_run | rewrite raise_run
    | rewrite get_state_run | rewrite new_dict_run | rewrite new_list_run
    | progress cbv beta iota ].

(** X7. Without a whitelist [create_metadata_dict] copies nothing: the
    payload of an origin dict that has an id is
    [{'info': {'export': {'origin_id': hash_string(id)}}}], and the heap is
    as before but for the new objects. *)
Theorem create_metadata_dict_default origin T cfg h d0 s :
  as_dict h origin = Some d0 → dict_get d0 "id" = Some (VStr s) →
  s ≠ EmptyString → no_whitelist h cfg →
  create_metadata_dict (Snapshot origin) T cfg h
  = (Ok (VRef (length h)), h ++ stamp_only (length h) (hash_string s)).
Proof.
  intros Hd0 Hid Hs Hcfg.
  apply as_dict_lookup in Hd0 as (lo & -> & Hlo).
  pose proof (lookup_lt_Some _ _ _ Hlo) as Hlt.
  unfold create_metadata_dict. go.
  unfold py_get at 1, as_dict at 1. rewrite Hlo, Hid. go.
  change (truthy h (default VNone (Some (VStr s))))
    with (negb (String.eqb s EmptyString)).
  replace (String.eqb s EmptyString) with false
    by (symmetry; by apply String.eqb_neq).
  cbn [negb]. go.
  rewrite !length_app. simpl length. rewrite <- !app_assoc. simpl app.
  set (h3 := h ++ [ODict []; OList []; OList []]).
  assert (parse_whitelists T cfg (VRef (length h + 1)) (VRef (length h + 1 + 1)) h3
          = (Ok (VRef (length h + 1), VRef (length h + 1 + 1)), h3)) as ->.
  { unfold parse_whitelists. go.
    destruct Hcfg as [->|(c & Hc & Hw)]; [done|].
    apply as_dict_lookup in Hc as (lc & -> & Hlc).
    unfold as_dict at 1. subst h3. rewrite (lookup_app_l_Some _ _ _ _ Hlc).
    by rewrite Hw. }
  go. unfold copy_info. go. subst h3. rewrite <- app_assoc. simpl app.
  replace (length (h ++ [ODict []; OList []; OList []])) with (length h + 3)
    by (rewrite length_app; simpl; lia).
  replace (VRef (length h)) with (VRef (length h + 0)) by (f_equal; lia).
  replace (length h + 1 + 1) with (length h + 2) by lia.
  unfold setitem at 1. rewrite lookup_app_plus. simpl lookup. go.
  rewrite insert_app_plus. simpl.
  unfold list_items at 1, as_list. rewrite lookup_app_plus. simpl lookup. go.
  change (str_in "info" []) with false. go.
  unfold py_get at 1, as_dict at 1. rewrite (lookup_app_l_Some _ _ _ _ Hlo). go.
  rewrite copy_info_nothing_opt
    by (unfold as_list; by rewrite lookup_app_plus).
  go. unfold set_export_origin_id. go.
  unfold py_get at 1, as_dict at 1. rewrite (lookup_app_l_Some _ _ _ _ Hlo), Hid.
  change (default VNone (Some (VStr s))) with (VStr s). go.
  rewrite <- app_assoc. simpl app.
  unfold getitem at 1, as_dict at 1. rewrite lookup_app_plus. simpl lookup. go.
  change (dict_get [("info", VRef (length h + 3))] "info")
    with (Some (VRef (length h + 3))). go.
  unfold setitem at 1. rewrite lookup_app_plus. simpl lookup. go.
  rewrite insert_app_plus. simpl.
  unfold copy_fields. go.
  unfold list_items at 1, as_list. rewrite lookup_app_plus. simpl lookup. go.
  cbn [for_each]. go.
  unfold stamp_only. repeat f_equal; try lia.
  all: rewrite length_app; simpl; lia.
Qed.

Lemma new_FileExporter_fields parent name dest filename ow :
  let fe := new_FileExporter parent name dest filename ow in
  fe_origin_parent fe = parent ∧ fe_origin_filename fe = name
  ∧ fe_dest_parent fe = dest ∧ fe_filename fe = filename
  ∧ fe_overwrite fe = ow.
Proof. unfold new_FileExporter. by destruct (exporter_state _ _ _ _ _). Qed.

Lemma local_file_export_run fe path ow w :
  ∃ r, local_file_export (get_status_dict fe) path ow w
       = (Ok r, set_transfers w
                  (w_transfers w
                   ++ (if String.eqb (fe_state (rebuilt ow fe)) "error" then []
                       else [rebuilt ow fe])))
       ∧ r_origin_filename r = fe_origin_filename fe
       ∧ r_origin_parent r = fe_origin_parent fe
       ∧ r_export_parent r = Some (fe_dest_parent fe)
       ∧ (String.eqb (fe_state (rebuilt ow fe)) "error" = true →
          r_state r = "error").
Proof.
  unfold local_file_export, rebuilt. cbn [get_status_dict r_origin_parent
    r_origin_filename r_export_parent r_export_filename default]. unfold id.
  pose proof (new_FileExporter_fields (fe_origin_parent fe) (fe_origin_filename fe)
                (fe_dest_parent fe) (Some (export_filename fe)) ow)
    as (Hp & Hn & Hd & _ & _).
  remember (new_FileExporter (fe_origin_parent fe) (fe_origin_filename fe)
              (fe_dest_parent fe) (Some (export_filename fe)) ow) as job eqn:Ej.
  destruct (String.eqb (fe_state job) "error") eqn:Est.
  - exists (get_status_dict job). split.
    { rewrite app_nil_r. by destruct w. }
    cbn. rewrite Hp, Hn, Hd. split_and!; try done.
    intros _. by apply String.eqb_eq.
  - destruct (local_deid_export job path) as [[st err] fid].
    eexists. split; [reflexivity|]. cbn. rewrite Hp, Hn, Hd. by split_and!.
Qed.

(** X8. [SessionExporter.local_file_export] returns one row for each
    job, in the order of the jobs and with their origin file, origin parent
    and destination parent, whatever becomes of the transfers.  The jobs
    that are transferred are the rebuilt jobs that are not in error, with
    the [overwrite] of the call and not that of the job; the rest of the
    world is as it was. *)
Theorem run_file_exports_rows self path ow w :
  ∃ rows,
    run_file_exports self path ow w
    = (Ok rows,
       set_transfers w
         (w_transfers w
          ++ List.filter (λ fe, negb (String.eqb (fe_state fe) "error"))
               (map (rebuilt ow) (se_files self))))
    ∧ map (λ r, (r_origin_filename r, r_origin_parent r, r_export_parent r)) rows
      = map (λ fe, (fe_origin_filename fe, fe_origin_parent fe,
                    Some (fe_dest_parent fe))) (se_files self)
    ∧ Forall (λ fe, fe_overwrite fe = ow)
        (List.filter (λ fe, negb (String.eqb (fe_state fe) "error"))
           (map (rebuilt ow) (se_files self))).
Proof.
  unfold run_file_exports.
  assert (∀ fs acc w,
    ∃ rows,
      fold_m (map get_status_dict fs) acc (λ dict_list file_exporter,
        status ← local_file_export file_exporter path ow;
        mret (dict_list ++ [status])) w
      = (Ok (acc ++ rows),
         set_transfers w
           (w_transfers w
            ++ List.filter (λ fe, negb (String.eqb (fe_state fe) "error"))
                 (map (rebuilt ow) fs)))
      ∧ map (λ r, (r_origin_filename r, r_origin_parent r, r_export_parent r)) rows
        = map (λ fe, (fe_origin_filename fe, fe_origin_parent fe,
                      Some (fe_dest_parent fe))) fs) as Hloop.
  { induction fs as [|fe fs IH]; intros acc w0; cbn [map fold_m List.filter].
    - exists []. rewrite !app_nil_r. split; [|done]. rewrite ret_run.
      by destruct w0.
    - destruct (local_file_export_run fe path ow w0)
        as (r & Hrun & Hn & Hp & Hd & _).
      rewrite bind_run, bind_run, Hrun. cbv beta iota. rewrite ret_run.
      cbv beta iota.
      destruct (IH (acc ++ [r])
                  (set_transfers w0
                     (w_transfers w0
                      ++ (if String.eqb (fe_state (rebuilt ow fe)) "error"
                          then [] else [rebuilt ow fe]))))
        as (rows & Hrest & Hmap).
      exists (r :: rows). rewrite Hrest. split.
      + rewrite <- app_assoc. simpl. f_equal.
        cbn [w_transfers set_transfers]. unfold set_transfers. cbn.
        f_equal. rewrite <- app_assoc. f_equal.
        by destruct (String.eqb (fe_state (rebuilt ow fe)) "error").
      + cbn [map]. by rewrite Hn, Hp, Hd, Hmap. }
  destruct (Hloop (se_files self) [] w) as (rows & Hrun & Hmap).
  exists rows. split_and!; [exact Hrun|exact Hmap|].
  apply Forall_forall. intros fe Hin.
  apply list_elem_of_In, filter_In in Hin as [Hin _].
  apply in_map_iff in Hin as (fe0 & <- & _).
  apply (new_FileExporter_fields (fe_origin_parent fe0) (fe_origin_filename fe0)
           (fe_dest_parent fe0) (Some (export_filename fe0)) ow).
Qed.

#[local] Instance reports_kept_preorder : PreOrder reports_kept.
Proof. split; [done|]. intros w1 w2 w3 H1 H2. unfold reports_kept in *. congruence. Qed.

Lemma respects_reports_same {A} (m : Py world A) :
  (∀ w, w_reports (m w).2 = w_reports w) → respects reports_kept m.
Proof. intros Hm w r w' Hrun. specialize (Hm w). by rewrite Hrun in Hm. Qed.

Lemma in_heap_reports {A} (m : Py (list obj) A) : respects reports_kept (in_heap m).
Proof.
  apply respects_reports_same. intros w. rewrite in_heap_run.
  by destruct (m (w_heap w)).
Qed.

Lemma add_child_reports parent ty names label p :
  respects reports_kept (add_child parent ty names label p).
Proof.
  apply respects_reports_same. intros w. unfold add_child.
  repeat case_match; done.
Qed.

Lemma update_reports i p : respects reports_kept (update i p).
Proof.
  apply respects_reports_same. intros w. unfold update.
  repeat case_match; done.
Qed.

Lemma parent_of_reports i : respects reports_kept (parent_of i).
Proof.
  apply respects_reports_same. intros w. unfold parent_of.
  repeat case_match; done.
Qed.

Lemma find_first_reports parent ty query :
  respects reports_kept (find_first parent ty query).
Proof. by apply respects_reports_same. Qed.

Ltac reports_step :=
  first
    [ apply respects_ret; apply _
    | apply respects_raise; apply _
    | apply in_heap_reports
    | apply add_child_reports
    | apply update_reports
    | apply parent_of_reports
    | apply find_first_reports
    | match goal with
      | |- respects _ (match ?x with _ => _ end) => destruct x
      | |- respects _ (if ?b then _ else _) => destruct b
      end
    | apply respects_bind; [apply _| |intros ?] ].

Lemma find_or_create_subject_reports origin dest cfg :
  respects reports_kept (find_or_create_subject origin dest cfg).
Proof. unfold find_or_create_subject. repeat reports_step. Qed.

Lemma find_or_create_subject_session_reports origin dest cfg :
  respects reports_kept (find_or_create_subject_session origin dest cfg).
Proof. unfold find_or_create_subject_session. repeat reports_step. Qed.

Lemma find_or_create_session_acquisition_reports origin dest cfg :
  respects reports_kept (find_or_create_session_acquisition origin dest cfg).
Proof. unfold find_or_create_session_acquisition. repeat reports_step. Qed.

Lemma load_template_file_reports path : respects reports_kept (load_template_file path).
Proof.
  intros w r w' Hrun. apply load_template_file_outside in Hrun.
  unfold outside in Hrun. by injection Hrun.
Qed.

Lemma find_or_create_dest_subject_reports self :
  respects reports_kept (find_or_create_dest_subject self).
Proof.
  unfold find_or_create_dest_subject.
  destruct (se_dest_subject self); [reports_step|].
  apply respects_bind; [apply _|apply in_heap_reports|intros cfg].
  apply respects_bind; [apply _|apply find_or_create_subject_reports|intros d].
  reports_step.
Qed.

Lemma find_or_create_dest_reports self :
  respects reports_kept (find_or_create_dest self).
Proof.
  unfold find_or_create_dest.
  destruct (se_dest self); [reports_step|].
  apply respects_bind; [apply _| |intros self1].
  { destruct (se_dest_subject self);
      [reports_step|apply find_or_create_dest_subject_reports]. }
  destruct (se_dest_subject self1); [|reports_step].
  apply respects_bind; [apply _|apply in_heap_reports|intros cfg].
  apply respects_bind;
    [apply _|apply find_or_create_subject_session_reports|intros d].
  reports_step.
Qed.

Lemma initialize_files_reports self sf pf fd :
  respects reports_kept (initialize_files self sf pf fd).
Proof.
  unfold initialize_files.
  apply respects_bind; [apply _| |intros self1].
  { destruct (se_dest self); [reports_step|apply find_or_create_dest_reports]. }
  destruct (se_dest self1); [|reports_step].
  apply respects_bind; [apply _| |intros self2].
  { destruct pf; [|reports_step].
    apply respects_bind; [apply _|apply in_heap_reports|intros; reports_step]. }
  apply respects_bind; [apply _| |intros self3].
  { destruct sf; [|reports_step].
    apply respects_bind; [apply _|apply parent_of_reports|intros].
    apply respects_bind; [apply _|apply in_heap_reports|intros; reports_step]. }
  apply respects_bind; [apply _|apply in_heap_reports|intros jobs].
  apply respects_fold_m; [apply _|]. intros acc a.
  apply respects_bind; [apply _|apply in_heap_reports|intros].
  apply respects_bind;
    [apply _|apply find_or_create_session_acquisition_reports|intros].
  apply respects_bind; [apply _|apply in_heap_reports|intros; reports_step].
Qed.

Lemma export_session_reports s dest path sf pf ow :
  respects reports_kept (export_session s dest path sf pf None ow).
Proof.
  unfold export_session.
  apply respects_bind; [apply _|apply load_template_file_reports|intros template].
  apply respects_bind; [apply _|apply in_heap_reports|intros nc].
  apply respects_bind; [apply _|apply in_heap_reports|intros ec].
  apply respects_bind; [apply _| |intros se].
  { unfold new_SessionExporter.
    apply respects_bind; [apply _|apply in_heap_reports|intros].
    apply respects_bind; [apply _|apply in_heap_reports|intros].
    apply respects_bind; [apply _|apply in_heap_reports|intros].
    apply respects_bind; [apply _|reports_step|intros; reports_step]. }
  apply respects_bind; [apply _|apply initialize_files_reports|intros se'].
  apply respects_bind; [apply _| |intros df].
  { unfold run_file_exports. apply respects_fold_m; [apply _|]. intros acc x.
    apply respects_bind; [apply _| |intros; reports_step].
    apply respects_reports_same. intros w. unfold local_file_export.
    repeat case_match; done. }
  cbn [given]. destruct (1 <=? _)%nat; [|reports_step].
  apply respects_bind; [apply _|reports_step|intros; reports_step].
Qed.

Lemma count_errors_app a b : count_errors (a ++ b) = count_errors a + count_errors b.
Proof. unfold count_errors. by rewrite List.filter_app, length_app. Qed.

Lemma given_path path : path ≠ EmptyString → given (Some path) = Some path.
Proof.
  intros Hp. unfold given. destruct (String.eqb path EmptyString) eqn:E; [|done].
  by apply String.eqb_eq in E.
Qed.

(** What [_export_session] writes when it returns: its rows, at the end of
    the report file, and it returns the number of those in error. *)
Lemma _export_session_report dest path ow s tp pf sf msg w n w' :
  path ≠ EmptyString →
  _export_session dest (Some path) ow s tp pf sf msg w = (Ok n, w') →
  ∃ rows, rows ≠ [] ∧ report_at path w' = report_at path w ++ rows
          ∧ n = count_errors rows.
Proof.
  intros Hpath. unfold _export_session. rewrite (given_path path Hpath).
  intros Hrun.
  apply bind_inv in Hrun as [(u & w0 & Hlog & Hrun)|(e & _ & [=])].
  assert (w_reports w0 = w_reports w) as Hr0 by (by injection Hlog as _ <-).
  apply bind_inv in Hrun as [(df & w1 & Hdf & Hrun)|(e & _ & [=])].
  assert (w_reports w1 = w_reports w0) as Hr1.
  { destruct (given msg).
    - by injection Hdf as _ <-.
    - by eapply export_session_reports. }
  apply bind_inv in Hrun as [(cnt & w2 & Hcnt & Hrun)|(e & _ & [=])].
  destruct df as [[|r rows]|]; try done.
  injection Hcnt as <- <-.
  apply bind_inv in Hrun as [(u' & w3 & Hwrite & Hrun)|(e & _ & [=])].
  injection Hrun as <- <-.
  exists (r :: rows). split; [done|]. split; [|done].
  apply bind_inv in Hwrite as [(present & w4 & Hfile & Hwrite)|(e & _ & [=])].
  unfold isfile in Hfile. injection Hfile as <- <-.
  unfold report_at. rewrite <- Hr0, <- Hr1.
  destruct (dict_get (w_reports w1) path) as [old|] eqn:Eold;
    cbn [negb andb length Nat.leb] in Hwrite.
  - injection Hwrite as _ <-. cbn [w_reports set_reports].
    by rewrite dict_get_set_eq, Eold.
  - injection Hwrite as _ <-. cbn [w_reports set_reports].
    by rewrite dict_get_set_eq.
Qed.

Lemma count_errors_all rows :
  Forall (λ r, r_state r = "error") rows → count_errors rows = length rows.
Proof.
  unfold count_errors. induction 1 as [|r rows Hr _ IH]; [done|].
  simpl. rewrite Hr. simpl. by rewrite IH.
Qed.

Lemma error_rows_dicom ty c msg :
  error_rows ty c ["dicom"] msg = map (unexported ty c msg) (dicom_files c).
Proof.
  unfold error_rows, dicom_files, unexported. f_equal.
  induction (c_files c) as [|f l IH]; [done|].
  cbn [List.filter]. rewrite IH.
  assert ((match f_type f with
           | Some t => bool_decide (t ∈ ["dicom"])
           | None => false
           end) = bool_decide (f_type f = Some "dicom")) as ->; [|done].
  destruct (f_type f) as [t|].
  - apply bool_decide_ext. rewrite list_elem_of_singleton. split; congruence.
  - by rewrite bool_decide_eq_false_2.
Qed.

Lemma get_session_error_df_rows s msg :
  get_session_error_df s msg None false false = session_unexported s msg.
Proof.
  unfold get_session_error_df, session_unexported. cbn [default app].
  rewrite error_rows_dicom. f_equal. f_equal.
  induction (os_acquisitions s) as [|a l IH]; [done|].
  cbn [map]. by rewrite error_rows_dicom, IH.
Qed.

Lemma session_unexported_state s msg :
  Forall (λ r, r_state r = "error") (session_unexported s msg).
Proof.
  unfold session_unexported. apply Forall_app. split.
  - by apply Forall_map, Forall_forall.
  - apply Forall_concat, Forall_map, Forall_forall. intros a _.
    by apply Forall_map, Forall_forall.
Qed.

(** What [_export_session] does with an error message: it exports nothing
    and reports the DICOM files of the session and of its acquisitions. *)
Lemma inner_export_session_unexported dest csv ow s tp pf sf msg w :
  msg ≠ EmptyString →
  ∃ w',
    _export_session dest csv ow s tp pf sf (Some msg) w
    = (if bool_decide (session_unexported s msg = []) then Raise KeyError
       else Ok (length (session_unexported s msg)), w')
    ∧ w_store w' = w_store w ∧ w_transfers w' = w_transfers w
    ∧ w_heap w' = w_heap w
    ∧ match given csv with
      | Some path => report_at path w' = report_at path w ++ session_unexported s msg
      | None => w_reports w' = w_reports w
      end.
Proof.
  intros Hmsg. set (rows := session_unexported s msg).
  unfold _export_session. rewrite bind_run. cbv beta iota.
  assert (given (Some msg) = Some msg) as -> by (by apply given_path).
  rewrite bind_run, ret_run. cbv beta iota.
  rewrite get_session_error_df_rows. fold rows.
  assert (count_errors rows = length rows) as Hcount.
  { apply count_errors_all, session_unexported_state. }
  clearbody rows.
  destruct rows as [|r rows].
  - rewrite bool_decide_eq_true_2 by done. rewrite bind_run, raise_run.
    cbv beta iota. eexists. split; [reflexivity|]. cbn.
    split_and!; try done. unfold report_at. cbn.
    destruct (given csv); [by rewrite app_nil_r|done].
  - rewrite bool_decide_eq_false_2 by done. rewrite bind_run, ret_run.
    cbv beta iota. rewrite Hcount. rewrite bind_run.
    destruct (given csv) as [path|].
    + rewrite bind_run. unfold isfile at 1. cbv beta iota.
      cbn [w_reports set_calls length Nat.leb]. rewrite !andb_true_r.
      destruct (dict_get (w_reports w) path) as [old|] eqn:Eold;
        cbn [negb]; cbv iota.
      * unfold append_csv. rewrite ret_run. eexists. split; [reflexivity|].
        cbn. split_and!; try done. unfold report_at. cbn.
        by rewrite dict_get_set_eq, Eold.
      * unfold to_csv. rewrite ret_run. eexists. split; [reflexivity|].
        cbn. split_and!; try done. unfold report_at. cbn.
        by rewrite dict_get_set_eq, Eold.
    + rewrite ret_run. cbv beta iota. rewrite ret_run.
      eexists. split; [reflexivity|]. done.
Qed.

(** X9. With the error message of a subject template, [_export_session]
    exports nothing, whatever the two flags are. Its rows are one row for
    each DICOM file of the session, then one for each DICOM file of each of
    its acquisitions, in order; a row has the name of the file, its
    container, the state ['error'], the message, and no exported file. The
    call writes these rows at the end of the report and returns their
    number; with no such file it raises [KeyError]. The destination, the
    transfers and the heap are left as they are. *)
Theorem inner_export_session_error_rows dest csv ow s tp pf sf msg w :
  msg ≠ EmptyString →
  let rows :=
    map (unexported Session (os_session s) msg) (dicom_files (os_session s))
    ++ concat (map (λ a, map (unexported Acquisition a msg) (dicom_files a))
                 (os_acquisitions s)) in
  ∃ w',
    _export_session dest csv ow s tp pf sf (Some msg) w
    = (if bool_decide (rows = []) then Raise KeyError else Ok (length rows), w')
    ∧ w_store w' = w_store w ∧ w_transfers w' = w_transfers w
    ∧ w_heap w' = w_heap w
    ∧ match given csv with
      | Some path => report_at path w' = report_at path w ++ rows
      | None => w_reports w' = w_reports w
      end.
Proof. intros Hmsg rows. by apply inner_export_session_unexported. Qed.

Lemma session_loop_counts dest path ow tp (msg : option (option string)) sessions :
  path ≠ EmptyString →
  ∀ cnt sf pf w cnt' b1 b2 w',
    fold_m sessions (cnt, sf, pf)
      (λ '(subject_error_count, subject_files, project_files) session,
         sess_error_msg ← read_local msg;
         sess_count ← _export_session dest (Some path) ow session tp
                        project_files subject_files sess_error_msg;
         mret (subject_error_count + sess_count, false, false)) w
    = (Ok (cnt', b1, b2), w') →
    ∃ rows, report_at path w' = report_at path w ++ rows
            ∧ cnt' = cnt + count_errors rows.
Proof.
  intros Hpath. induction sessions as [|s sessions IH];
    intros cnt sf pf w cnt' b1 b2 w'; cbn [fold_m].
  - intros [= <- <- <- <-]. exists []. rewrite app_nil_r. split; [done|].
    unfold count_errors. simpl. lia.
  - intros Hrun.
    apply bind_inv in Hrun as [([[c1 x1] y1] & w1 & Hbody & Hrun)|(e & _ & [=])].
    apply bind_inv in Hbody as [(m & w2 & Hmsg & Hbody)|(e & _ & [=])].
    destruct msg as [m0|]; [|done]. injection Hmsg as <- <-.
    apply bind_inv in Hbody as [(n & w3 & Hsess & Hbody)|(e & _ & [=])].
    injection Hbody as <- <- <- <-.
    apply _export_session_report in Hsess as (rows1 & _ & Hrep1 & ->); [|done].
    apply IH in Hrun as (rows2 & Hrep2 & ->).
    exists (rows1 ++ rows2). rewrite Hrep2, Hrep1, count_errors_app, app_assoc.
    split; [done|lia].
Qed.

Lemma _export_subject_counts dest tp path ow df template_obj ocol subject project
    s pf w n w' :
  path ≠ EmptyString →
  _export_subject dest tp (Some path) ow df template_obj ocol subject project s pf w
  = (Ok n, w') →
  ∃ rows, report_at path w' = report_at path w ++ rows ∧ n = count_errors rows.
Proof.
  intros Hpath. unfold _export_subject, with_temp_dir.
  match goal with |- context [set_tmp w ?k] => set (w0 := set_tmp w k) end.
  match goal with |- (let '(_, _) := ?b ?d _ in _) = _ → _ =>
    destruct (b d w0) as [r0 w1] eqn:Hbody end.
  intros [= -> <-].
  enough (∃ rows, report_at path w1 = report_at path w0 ++ rows
                  ∧ n = count_errors rows) as (rows & Hrep & Hn)
    by (exists rows; done).
  apply bind_inv in Hbody as [([tp' msg] & w2 & Htemplate & Hbody)|(e & _ & [=])].
  assert (w_reports w2 = w_reports w0) as Hr2.
  { destruct df as [table|]; [|by injection Htemplate as _ _ <-].
    apply bind_inv in Htemplate as [([p m] & w3 & Ht & Hret)|(e & _ & [=])].
    injection Hret as _ _ <-. unfold _get_subject_template in Ht.
    destruct (get_updated_template _ _ _ _ _); [by injection Ht as _ _ <-|].
    destruct subject; [by injection Ht as _ _ <-|done]. }
  apply bind_inv in Hbody as [([[c b1] b2] & w3 & Hloop & Hbody)|(e & _ & [=])].
  injection Hbody as <- <-.
  apply session_loop_counts in Hloop as (rows & Hrep & ->); [|done].
  exists rows. split; [|done]. rewrite Hrep. unfold report_at. by rewrite Hr2.
Qed.

Lemma subject_loop_counts dest tp path ow df template_obj ocol project subjects :
  path ≠ EmptyString →
  ∀ cnt pf w cnt' b w',
    fold_m subjects (cnt, pf) (λ '(error_count, project_files) subject,
      subj_error_count ← _export_subject dest tp (Some path) ow df template_obj
                           ocol (Some (sub_container subject)) project subject
                           project_files;
      mret (error_count + subj_error_count, false)) w = (Ok (cnt', b), w') →
    ∃ rows, report_at path w' = report_at path w ++ rows
            ∧ cnt' = cnt + count_errors rows.
Proof.
  intros Hpath. induction subjects as [|s subjects IH];
    intros cnt pf w cnt' b w'; cbn [fold_m].
  - intros [= <- <- <-]. exists []. rewrite app_nil_r. split; [done|].
    unfold count_errors. simpl. lia.
  - intros Hrun.
    apply bind_inv in Hrun as [([c1 x1] & w1 & Hbody & Hrun)|(e & _ & [=])].
    apply bind_inv in Hbody as [(n & w2 & Hsub & Hbody)|(e & _ & [=])].
    injection Hbody as <- <- <-.
    apply _export_subject_counts in Hsub as (rows1 & Hrep1 & ->); [|done].
    apply IH in Hrun as (rows2 & Hrep2 & ->).
    exists (rows1 ++ rows2). rewrite Hrep2, Hrep1, count_errors_app, app_assoc.
    split; [done|lia].
Qed.

(** X10. When [export_container] returns, with a path for the report, what
    it returns is the number of rows in error among the rows that the run
    has put at the end of the report file. *)
Theorem export_container_counts_report container dest tp path ow subject_csv
    ncol ocol w n w' :
  path ≠ EmptyString →
  export_container container dest tp (Some path) ow subject_csv ncol ocol w
  = (Ok n, w') →
  ∃ rows, report_at path w' = report_at path w ++ rows ∧ n = count_errors rows.
Proof.
  intros Hpath. unfold export_container. intros Hrun.
  apply bind_inv in Hrun as [(template & w1 & Hload & Hrun)|(e & _ & [=])].
  apply load_template_file_reports in Hload.
  apply bind_inv in Hrun as [(h & w2 & Hh & Hrun)|(e & _ & [=])].
  apply in_heap_reports in Hh.
  apply bind_inv in Hrun as [(df & w3 & Hdf & Hrun)|(e & _ & [=])].
  assert (w_reports w3 = w_reports w2) as Hr3.
  { destruct (given subject_csv); [|by injection Hdf as _ <-].
    destruct (truthy h template); by injection Hdf as _ <-. }
  assert (report_at path w3 = report_at path w) as Hsame.
  { unfold report_at. unfold reports_kept in *. congruence. }
  rewrite <- Hsame. clear Hsame Hload Hh Hdf Hr3.
  destruct (negb _); [done|].
  destruct container as [p|project s|s|t].
  - apply bind_inv in Hrun as [([c b] & w4 & Hloop & Hrun)|(e & _ & [=])].
    injection Hrun as <- <-.
    apply subject_loop_counts in Hloop as (rows & Hrep & ->); [|done].
    by exists rows.
  - by apply _export_subject_counts in Hrun.
  - apply bind_inv in Hrun as [([tp' msg] & w4 & Htemplate & Hrun)|(e & _ & [=])].
    assert (w_reports w4 = w_reports w3) as Hr4.
    { unfold with_temp_dir in Htemplate.
      destruct df as [table|].
      - match type of Htemplate with (let '(_, _) := ?b in _) = _ =>
          destruct b as [r0 w5] eqn:Hbody end.
        injection Htemplate as -> <-. cbn.
        apply bind_inv in Hbody as [([p m] & w6 & Ht & Hret)|(e & _ & [=])].
        injection Hret as _ _ <-. unfold _get_subject_template in Ht.
        destruct (get_updated_template _ _ _ _ _); [by injection Ht as _ _ <-|done].
      - by injection Htemplate as _ _ <-. }
    apply bind_inv in Hrun as [(m & w5 & Hmsg & Hrun)|(e & _ & [=])].
    destruct msg as [m0|]; [|done]. injection Hmsg as <- <-.
    apply _export_session_report in Hrun as (rows & _ & Hrep & ->); [|done].
    exists rows. split; [|done]. rewrite Hrep. unfold report_at. by rewrite Hr4.
  - injection Hrun as <- <-. exists []. by rewrite app_nil_r.
Qed.

(** X11. A container type other than project, subject and session: when the
    template loads and the subject CSV is valid, [export_container] raises
    [ValueError], and the world is as it is after the template is loaded. *)
Theorem export_container_unsupported t dest tp csv ow subject_csv ncol ocol w
    template w1 :
  t ∉ ["subject"; "project"; "session"] →
  load_template_file tp w = (Ok template, w1) →
  (∀ p, given subject_csv = Some p → is_ok (validate tp p ocol ncol)) →
  export_container (OtherScope t) dest tp csv ow subject_csv ncol ocol w
  = (Raise ValueError, w1).
Proof.
  intros Ht Hload Hvalid. unfold export_container.
  rewrite bind_run, Hload. cbv beta iota.
  rewrite bind_run, in_heap_run, get_state_run. cbv beta iota.
  replace (set_heap w1 (w_heap w1)) with w1 by (by destruct w1).
  rewrite bind_run.
  assert (∃ df, match given subject_csv with
                | Some csv_path =>
                    if truthy (w_heap w1) template
                    then λ w0 : world, (validate tp csv_path ocol ncol, w0)
                    else mret None
                | None => mret None
                end w1 = (Ok df, w1)) as [df ->].
  { destruct (given subject_csv) as [p|] eqn:Ep; [|by eexists].
    destruct (truthy _ _); [|by eexists].
    specialize (Hvalid p eq_refl). destruct (validate _ _ _ _); [by eexists|done]. }
  cbv beta iota. cbn [scope_type].
  rewrite bool_decide_eq_false_2 by done. done.
Qed.

(** X12. A template path whose extension is not [.json], [.yml] or [.yaml]
    (in any case): [load_template_file] reads no file and returns [None],
    so that [export_session] raises [AttributeError] at
    [template.get('export', ...)], before it touches the destination. *)
Theorem export_session_unsupported_extension s dest path sf pf csv ow w :
  splitext_ext (lower path) ∉ [".json"; ".yml"; ".yaml"] →
  load_template_file path w = (Ok VNone, w)
  ∧ ∃ w', export_session s dest path sf pf csv ow w = (Raise AttributeError, w')
          ∧ outside w' = outside w.
Proof.
  intros Hext.
  assert (load_template_file path w = (Ok VNone, w)) as Hload.
  { unfold load_template_file.
    destruct (_ || _) eqn:E; [|done]. exfalso. apply Hext.
    apply orb_true_iff in E as [E|E]; [apply orb_true_iff in E as [E|E]|];
      apply String.eqb_eq in E; rewrite E.
    - apply list_elem_of_here.
    - apply list_elem_of_further, list_elem_of_here.
    - apply list_elem_of_further, list_elem_of_further, list_elem_of_here. }
  split; [exact Hload|].
  unfold export_session. rewrite bind_run, Hload. cbv beta iota.
  rewrite bind_run, in_heap_run, new_dict_run. cbv beta iota.
  rewrite bind_run, in_heap_run. unfold py_get_default, as_dict. cbv beta iota.
  eexists. split; [reflexivity|]. done.
Qed.

Lemma create_metadata_dict_no_id origin T sc h :
  c_id origin = EmptyString → T ∈ ["subject"; "session"; "acquisition"] →
  ∃ h', create_metadata_dict (Live origin) T sc h = (Raise ValueError, h').
Proof.
  intros Hid HT.
  destruct (create_metadata_dict (Live origin) T sc h) as [r h'] eqn:E.
  pose proof E as E'.
  apply create_metadata_dict_live_spec in E' as (_ & _ & Hr).
  destruct r as [p|e]; [by destruct Hr as [? _]|].
  destruct Hr as [[-> _]|[_ Hnone]]; [by exists h'|]. exfalso.
  repeat (apply elem_of_cons in HT as [->|HT]; [by vm_compute in Hnone|]).
  by apply elem_of_nil in HT.
Qed.

Lemma reconcile_no_id origin T sc parent ty query names label w :
  c_id origin = EmptyString → T ∈ ["subject"; "session"; "acquisition"] →
  ∃ w',
    (dest ← find_first parent ty query;
     meta_dict ← in_heap (create_metadata_dict (Live origin) T sc);
     match dest with
     | None => add_child parent ty names label meta_dict
     | Some dest => update dest meta_dict ≫= λ _, mret dest
     end) w = (Raise ValueError, w')
    ∧ w_store w' = w_store w.
Proof.
  intros Hid HT. rewrite bind_run. unfold find_first at 1. cbv beta iota.
  rewrite bind_run, in_heap_run.
  destruct (create_metadata_dict_no_id origin T sc (w_heap w) Hid HT) as [h' ->].
  eexists. split; [reflexivity|done].
Qed.

(** X13. An origin container without an id is not reconciled: the three
    matchers raise [ValueError], and the destination is as it was. *)
Theorem matchers_require_id origin parent cfg w :
  c_id origin = EmptyString →
  (∀ code, effective_label (w_heap w) cfg "code" (c_label origin) = Some code →
           ∃ w', find_or_create_subject origin parent cfg w
                 = (Raise ValueError, w') ∧ w_store w' = w_store w)
  ∧ (∀ label, effective_label (w_heap w) cfg "label" (c_label origin) = Some label →
              ∃ w', find_or_create_subject_session origin parent cfg w
                    = (Raise ValueError, w') ∧ w_store w' = w_store w)
  ∧ ∃ w', find_or_create_session_acquisition origin parent cfg w
          = (Raise ValueError, w') ∧ w_store w' = w_store w.
Proof.
  intros Hid. split_and!.
  - intros code Heff.
    destruct (config_or_dict_spec _ _ _ _ _ Heff)
      as (sc & h1 & d1 & Hcfg & Hsc & Hlabel & K1).
    unfold find_or_create_subject.
    rewrite bind_run, in_heap_run, Hcfg. cbv beta iota.
    rewrite bind_run, in_heap_run. unfold py_get_default. simpl w_heap.
    rewrite Hsc, Hlabel. cbv beta iota.
    rewrite bind_run, in_heap_run. unfold quote_numeric_string. simpl w_heap.
    cbv beta iota.
    destruct (reconcile_no_id origin "subject" sc parent Subject
                ("code=" +:+ quote_str (py_str h1 (VStr code))) ["code"; "label"]
                (VStr code) (set_heap (set_heap (set_heap w h1) h1) h1) Hid)
      as (w' & Hrun & Hst); [apply list_elem_of_here|].
    exists w'. split; [exact Hrun|exact Hst].
  - intros label Heff.
    destruct (config_or_dict_spec _ _ _ _ _ Heff)
      as (sc & h1 & d1 & Hcfg & Hsc & Hlabel & K1).
    unfold find_or_create_subject_session.
    rewrite bind_run, in_heap_run, Hcfg. cbv beta iota.
    rewrite bind_run, in_heap_run. unfold py_get_default. simpl w_heap.
    rewrite Hsc, Hlabel. cbv beta iota.
    rewrite bind_run, in_heap_run. unfold quote_numeric_string. simpl w_heap.
    cbv beta iota.
    destruct (reconcile_no_id origin "session" sc parent Session
                ("label=" +:+ quote_str (py_str h1 (VStr label))
                 +:+ ",info.export.origin_id="
                 +:+ dq +:+ hash_string (c_id origin) +:+ dq) ["label"]
                (VStr label) (set_heap (set_heap (set_heap w h1) h1) h1) Hid)
      as (w' & Hrun & Hst); [apply list_elem_of_further, list_elem_of_here|].
    exists w'. split; [exact Hrun|exact Hst].
  - unfold find_or_create_session_acquisition.
    rewrite bind_run, in_heap_run.
    assert (∃ sc h1, config_or_dict cfg (w_heap w) = (Ok sc, h1)) as (sc & h1 & ->).
    { unfold config_or_dict. rewrite bind_run, get_state_run. cbv beta iota.
      destruct (truthy _ _); [rewrite ret_run|rewrite new_dict_run]; eauto. }
    cbv beta iota.
    rewrite bind_run, in_heap_run. unfold quote_numeric_string. simpl w_heap.
    cbv beta iota.
    destruct (reconcile_no_id origin "acquisition" sc parent Acquisition
                ("label=" +:+ quote_str (py_str h1 (VStr (c_label origin)))
                 +:+ ",info.export.origin_id="
                 +:+ dq +:+ hash_string (c_id origin) +:+ dq) ["label"]
                (VStr (c_label origin)) (set_heap (set_heap w h1) h1) Hid)
      as (w' & Hrun & Hst);
      [apply list_elem_of_further, list_elem_of_further, list_elem_of_here|].
    exists w'. split; [exact Hrun|exact Hst].
Qed.

#[local] Instance grows_preorder : PreOrder grows.
Proof.
  split.
  - intros w. split; [done|]. intros i c Hc. exists c. by repeat split.
  - intros w1 w2 w3 [L1 G1] [L2 G2]. split; [lia|].
    intros i c Hc. destruct (G1 i c Hc) as (c2 & Hc2 & ? & ? & ?).
    destruct (G2 i c2 Hc2) as (c3 & Hc3 & ? & ? & ?).
    exists c3. repeat split; congruence.
Qed.

Lemma respects_store_same {A} (m : Py world A) :
  (∀ w, w_store (m w).2 = w_store w) → respects grows m.
Proof.
  intros Hm w r w' Hrun. specialize (Hm w). rewrite Hrun in Hm. simpl in Hm.
  unfold grows. rewrite Hm. apply (reflexivity (R := grows) w).
Qed.

Lemma in_heap_grows {A} (m : Py (list obj) A) : respects grows (in_heap m).
Proof.
  apply respects_store_same. intros w. rewrite in_heap_run.
  by destruct (m (w_heap w)).
Qed.

Lemma parent_of_grows i : respects grows (parent_of i).
Proof.
  apply respects_store_same. intros w. unfold parent_of.
  repeat case_match; done.
Qed.

Lemma find_first_grows parent ty query : respects grows (find_first parent ty query).
Proof. by apply respects_store_same. Qed.

Lemma store_grows_app st c : store_grows st (st ++ [c]).
Proof.
  split; [rewrite length_app; lia|]. intros i c0 Hc0. exists c0.
  split; [|done]. by apply lookup_app_l_Some.
Qed.

Lemma store_grows_insert st i c c' :
  st !! i = Some c → d_type c' = d_type c → d_parent c' = d_parent c →
  d_label c' = d_label c → store_grows st (<[i := c']> st).
Proof.
  intros Hi Ht Hp Hl. split; [by rewrite length_insert|].
  intros j c0 Hj. destruct (decide (j = i)) as [->|Hne].
  - exists c'. rewrite list_lookup_insert_eq; [|by eapply lookup_lt_Some].
    rewrite Hi in Hj. injection Hj as <-. done.
  - exists c0. by rewrite list_lookup_insert_ne.
Qed.

Lemma add_child_grows parent ty names label p :
  respects grows (add_child parent ty names label p).
Proof.
  intros w r w'. unfold add_child.
  repeat case_match; intros [= <- <-];
    try apply (reflexivity (R := grows) w).
  apply store_grows_app.
Qed.

(** An update that has neither a label nor a code leaves the labels. *)
Lemma update_grows i p d w r w' :
  as_dict (w_heap w) p = Some d →
  dict_get d "label" = None → dict_get d "code" = None →
  update i p w = (r, w') → grows w w'.
Proof.
  intros Hd Hl Hc. unfold update. rewrite Hd, Hl, Hc.
  destruct (w_store w !! i) as [c|] eqn:Hi;
    [|intros [= <- <-]; apply (reflexivity (R := grows) w)].
  destruct (payload_info (w_heap w) d);
    intros [= <- <-]; [|apply (reflexivity (R := grows) w)].
  by eapply store_grows_insert.
Qed.

(** What the three matchers do once they have the query keeps the
    containers of the destination and their labels. *)
Lemma reconcile_grows origin T sc parent ty query names label :
  T ∈ ["subject"; "session"; "acquisition"] →
  respects grows
    (dest ← find_first parent ty query;
     meta_dict ← in_heap (create_metadata_dict (Live origin) T sc);
     match dest with
     | None => add_child parent ty names label meta_dict
     | Some dest => update dest meta_dict ≫= λ _, mret dest
     end).
Proof.
  intros HT w r w' Hrun.
  apply bind_inv in Hrun as [(dest & w1 & Hfind & Hrun)|(e & Hfind & _)];
    [|by eapply find_first_grows].
  injection Hfind as _ <-.
  apply bind_inv in Hrun as [(p & w2 & Hmeta & Hrun)|(e & Hmeta & _)];
    [|by eapply in_heap_grows].
  etrans; [by eapply in_heap_grows|].
  destruct dest as [dest|]; [|by eapply add_child_grows].
  rewrite in_heap_run in Hmeta.
  destruct (create_metadata_dict _ _ _ _) as [r0 h2] eqn:E.
  injection Hmeta as -> <-.
  apply create_metadata_dict_live_spec in E as (_ & _ & _ & dmd & vi & Hdmd & _ & _ & Hkeys).
  assert (∀ k, k ∈ dict_keys dmd → k ≠ "label" ∧ k ≠ "code") as Hno.
  { intros k Hk. eapply whitelist_not_reserved; [exact HT|by apply Hkeys]. }
  apply bind_inv in Hrun as [(u & w3 & Hup & Hret)|(e & Hup & _)].
  - injection Hret as _ <-.
    eapply update_grows; [exact Hdmd| | |exact Hup];
      apply dict_get_not_key; intros Hk; by apply Hno in Hk as [? ?].
  - eapply update_grows; [exact Hdmd| | |exact Hup];
      apply dict_get_not_key; intros Hk; by apply Hno in Hk as [? ?].
Qed.

Lemma find_or_create_subject_grows origin dest cfg :
  respects grows (find_or_create_subject origin dest cfg).
Proof.
  unfold find_or_create_subject.
  apply respects_bind; [apply _|apply in_heap_grows|intros ?].
  apply respects_bind; [apply _|apply in_heap_grows|intros ?].
  apply respects_bind; [apply _|apply in_heap_grows|intros ?].
  apply reconcile_grows, list_elem_of_here.
Qed.

Lemma find_or_create_subject_session_grows origin dest cfg :
  respects grows (find_or_create_subject_session origin dest cfg).
Proof.
  unfold find_or_create_subject_session.
  apply respects_bind; [apply _|apply in_heap_grows|intros ?].
  apply respects_bind; [apply _|apply in_heap_grows|intros ?].
  apply respects_bind; [apply _|apply in_heap_grows|intros ?].
  apply reconcile_grows, list_elem_of_further, list_elem_of_here.
Qed.

Lemma find_or_create_session_acquisition_grows origin dest cfg :
  respects grows (find_or_create_session_acquisition origin dest cfg).
Proof.
  unfold find_or_create_session_acquisition.
  apply respects_bind; [apply _|apply in_heap_grows|intros ?].
  apply respects_bind; [apply _|apply in_heap_grows|intros ?].
  apply reconcile_grows, list_elem_of_further, list_elem_of_further, list_elem_of_here.
Qed.

Lemma load_template_file_grows path : respects grows (load_template_file path).
Proof.
  apply respects_store_same. intros w. unfold load_template_file.
  destruct (_ || _); [|done]. unfold read_file.
  destruct (dict_get (w_templates w) path) as [[j|]|]; [| done |].
  - rewrite in_heap_run. by destruct (thaw j (w_heap w)).
  - destruct (read_template path) as [j|e]; [|by destruct e].
    rewrite in_heap_run. by destruct (thaw j (w_heap w)).
Qed.

Lemma new_SessionExporter_grows s dest cfg dcid :
  respects grows (new_SessionExporter s dest cfg dcid).
Proof.
  unfold new_SessionExporter.
  apply respects_bind; [apply _|apply in_heap_grows|intros ?].
  apply respects_bind; [apply _|apply in_heap_grows|intros ?].
  apply respects_bind; [apply _|apply in_heap_grows|intros ?].
  apply respects_bind; [apply _| |intros ?; apply respects_ret; apply _].
  destruct dcid; [|apply respects_ret; apply _].
  apply respects_bind; [apply _|apply parent_of_grows|intros ?; apply respects_ret; apply _].
Qed.

Lemma find_or_create_dest_subject_grows self :
  respects grows (find_or_create_dest_subject self).
Proof.
  unfold find_or_create_dest_subject.
  destruct (se_dest_subject self); [apply respects_ret; apply _|].
  apply respects_bind; [apply _|apply in_heap_grows|intros ?].
  apply respects_bind; [apply _|apply find_or_create_subject_grows|intros ?].
  apply respects_ret; apply _.
Qed.

Lemma find_or_create_dest_grows self : respects grows (find_or_create_dest self).
Proof.
  unfold find_or_create_dest.
  destruct (se_dest self); [apply respects_ret; apply _|].
  apply respects_bind; [apply _| |intros self1].
  { destruct (se_dest_subject self);
      [apply respects_ret; apply _|apply find_or_create_dest_subject_grows]. }
  destruct (se_dest_subject self1); [|apply respects_raise; apply _].
  apply respects_bind; [apply _|apply in_heap_grows|intros ?].
  apply respects_bind; [apply _|apply find_or_create_subject_session_grows|intros ?].
  apply respects_ret; apply _.
Qed.

Lemma find_or_create_acquisitions_grows self :
  respects grows (find_or_create_acquisitions self).
Proof.
  unfold find_or_create_acquisitions.
  apply respects_bind; [apply _| |intros self1].
  { destruct (se_dest self); [apply respects_ret; apply _|apply find_or_create_dest_grows]. }
  destruct (se_dest self1) as [dest|]; [|apply respects_raise; apply _].
  apply respects_bind; [apply _| |intros ?; apply respects_ret; apply _].
  apply respects_for_each; [apply _|]. intros acq.
  apply respects_bind; [apply _|apply in_heap_grows|intros ?].
  apply respects_bind;
    [apply _|apply find_or_create_session_acquisition_grows|intros ?].
  apply respects_ret; apply _.
Qed.

Lemma initialize_files_grows self sf pf fd :
  respects grows (initialize_files self sf pf fd).
Proof.
  unfold initialize_files.
  apply respects_bind; [apply _| |intros self1].
  { destruct (se_dest self); [apply respects_ret; apply _|apply find_or_create_dest_grows]. }
  destruct (se_dest self1) as [dest|]; [|apply respects_raise; apply _].
  apply respects_bind; [apply _| |intros self2].
  { destruct pf; [|apply respects_ret; apply _].
    apply respects_bind; [apply _|apply in_heap_grows|intros ?; apply respects_ret; apply _]. }
  apply respects_bind; [apply _| |intros self3].
  { destruct sf; [|apply respects_ret; apply _].
    apply respects_bind; [apply _|apply parent_of_grows|intros ?].
    apply respects_bind; [apply _|apply in_heap_grows|intros ?; apply respects_ret; apply _]. }
  apply respects_bind; [apply _|apply in_heap_grows|intros files].
  apply respects_fold_m; [apply _|]. intros acc x.
  apply respects_bind; [apply _|apply in_heap_grows|intros ?].
  apply respects_bind;
    [apply _|apply find_or_create_session_acquisition_grows|intros ?].
  apply respects_bind; [apply _|apply in_heap_grows|intros ?; apply respects_ret; apply _].
Qed.

Lemma run_file_exports_grows self path ow :
  respects grows (run_file_exports self path ow).
Proof.
  unfold run_file_exports. apply respects_fold_m; [apply _|].
  intros acc x.
  apply respects_bind; [apply _| |intros ?; apply respects_ret; apply _].
  apply respects_store_same. intros w. unfold local_file_export.
  repeat case_match; done.
Qed.

Lemma export_session_grows s dest path sf pf csv ow :
  respects grows (export_session s dest path sf pf csv ow).
Proof.
  unfold export_session.
  apply respects_bind; [apply _|apply load_template_file_grows|intros ?].
  apply respects_bind; [apply _|apply in_heap_grows|intros ?].
  apply respects_bind; [apply _|apply in_heap_grows|intros ?].
  apply respects_bind; [apply _|apply new_SessionExporter_grows|intros ?].
  apply respects_bind; [apply _|apply initialize_files_grows|intros ?].
  apply respects_bind; [apply _|apply run_file_exports_grows|intros ?].
  destruct (1 <=? _); [|apply respects_ret; apply _].
  apply respects_bind; [apply _| |intros ?; apply respects_ret; apply _].
  destruct (given csv); [by apply respects_store_same|apply respects_ret; apply _].
Qed.

Lemma _export_session_grows dest csv ow session path pf sf msg :
  respects grows (_export_session dest csv ow session path pf sf msg).
Proof.
  unfold _export_session.
  apply respects_bind; [apply _|by apply respects_store_same|intros ?].
  apply respects_bind; [apply _| |intros session_df].
  { destruct (given msg); [apply respects_ret; apply _|apply export_session_grows]. }
  apply respects_bind; [apply _| |intros df_count].
  { destruct session_df as [[|]|]; by apply respects_store_same. }
  apply respects_bind; [apply _| |intros ?; apply respects_ret; apply _].
  destruct session_df as [rows|], (given csv) as [p|];
    try (apply respects_ret; apply _).
  apply respects_bind; [apply _|by apply respects_store_same|intros present].
  destruct (_ && _); [by apply respects_store_same|].
  destruct (_ && _); by apply respects_store_same.
Qed.

Lemma with_temp_dir_grows {A} (body : string → Py world A) :
  (∀ d, respects grows (body d)) → respects grows (with_temp_dir body).
Proof.
  intros Hbody w r w'. unfold with_temp_dir.
  destruct (body _ _) as [r0 w1] eqn:E. intros [= <- <-].
  apply Hbody in E. exact E.
Qed.

Lemma _get_subject_template_grows df template_obj path ocol subject subject_obj dir :
  respects grows
    (_get_subject_template df template_obj path ocol subject subject_obj dir).
Proof.
  apply respects_store_same. intros w. unfold _get_subject_template.
  destruct (get_updated_template _ _ _ _ _); [done|]. by destruct subject.
Qed.

Lemma _export_subject_grows dest tp csv ow df template_obj ocol subject project
    subject_obj pf :
  respects grows
    (_export_subject dest tp csv ow df template_obj ocol subject project subject_obj pf).
Proof.
  unfold _export_subject. apply with_temp_dir_grows. intros dir.
  apply respects_bind; [apply _| |intros [path msg]].
  { destruct df; [|apply respects_ret; apply _].
    apply respects_bind; [apply _|apply _get_subject_template_grows|intros [? ?]].
    apply respects_ret; apply _. }
  apply respects_bind; [apply _| |intros [[? ?] ?]; apply respects_ret; apply _].
  apply respects_fold_m; [apply _|]. intros [[n sf] pf'] session.
  apply respects_bind; [apply _| |intros ?].
  { destruct msg; [apply respects_ret|apply respects_raise]; apply _. }
  apply respects_bind; [apply _|apply _export_session_grows|intros ?].
  apply respects_ret; apply _.
Qed.

(** X14. Whatever [export_container] is called with and however the run
    ends, no container of the destination is gone afterwards, and those
    that were there have their type, their parent and their label. *)
Theorem export_container_keeps_destination container dest tp csv ow subject_csv
    ncol ocol w :
  store_grows (w_store w)
    (w_store (export_container container dest tp csv ow subject_csv ncol ocol w).2).
Proof.
  enough (respects grows
            (export_container container dest tp csv ow subject_csv ncol ocol)) as Hres.
  { destruct (export_container _ _ _ _ _ _ _ _ w) as [r w'] eqn:E.
    by apply Hres in E. }
  unfold export_container.
  apply respects_bind; [apply _|apply load_template_file_grows|intros template_obj].
  apply respects_bind; [apply _|apply in_heap_grows|intros h].
  apply respects_bind; [apply _| |intros df].
  { destruct (given subject_csv); [|apply respects_ret; apply _].
    destruct (truthy h template_obj); [|apply respects_ret; apply _].
    by apply respects_store_same. }
  destruct (negb _); [apply respects_raise; apply _|].
  destruct container as [p|project s|s|t].
  - apply respects_bind; [apply _| |intros [? ?]; apply respects_ret; apply _].
    apply respects_fold_m; [apply _|]. intros [n pf] subject.
    apply respects_bind; [apply _|apply _export_subject_grows|intros ?].
    apply respects_ret; apply _.
  - apply _export_subject_grows.
  - apply respects_bind; [apply _| |intros [path msg]].
    { apply with_temp_dir_grows. intros dir.
      destruct df; [|apply respects_ret; apply _].
      apply respects_bind; [apply _|apply _get_subject_template_grows|intros [? ?]].
      apply respects_ret; apply _. }
    apply respects_bind; [apply _| |intros ?; apply _export_session_grows].
    destruct msg; [apply respects_ret|apply respects_raise]; apply _.
  - apply respects_ret; apply _.
Qed.

Lemma new_SessionExporter_reports s dest cfg dcid :
  respects reports_kept (new_SessionExporter s dest cfg dcid).
Proof.
  unfold new_SessionExporter.
  apply respects_bind; [apply _|apply in_heap_reports|intros].
  apply respects_bind; [apply _|apply in_heap_reports|intros].
  apply respects_bind; [apply _|apply in_heap_reports|intros].
  apply respects_bind; [apply _| |intros; apply respects_ret; apply _].
  destruct dcid; [|apply respects_ret; apply _].
  apply respects_bind;
    [apply _|apply parent_of_reports|intros; apply respects_ret; apply _].
Qed.

Lemma run_file_exports_reports self path ow :
  respects reports_kept (run_file_exports self path ow).
Proof.
  unfold run_file_exports. apply respects_fold_m; [apply _|]. intros acc x.
  apply respects_bind; [apply _| |intros; apply respects_ret; apply _].
  apply respects_reports_same. intros w. unfold local_file_export.
  repeat case_match; done.
Qed.

(** X15. When [export_session] returns a table it has a row, and the file at
    [csv_output_path], when a path is given, then holds that table and
    nothing of what it held; when it returns [None] no file is written. *)
Theorem export_session_report s dest tp sf pf csv ow w r w' :
  export_session s dest tp sf pf csv ow w = (Ok r, w') →
  match r with
  | Some rows =>
      rows ≠ []
      ∧ w_reports w' = match given csv with
                       | Some path => dict_set (w_reports w) path rows
                       | None => w_reports w
                       end
  | None => w_reports w' = w_reports w
  end.
Proof.
  unfold export_session. intros Hrun.
  apply bind_inv in Hrun as [(template & w1 & H1 & Hrun)|(e & _ & [=])].
  apply load_template_file_reports in H1.
  apply bind_inv in Hrun as [(nc & w2 & H2 & Hrun)|(e & _ & [=])].
  apply in_heap_reports in H2.
  apply bind_inv in Hrun as [(ec & w3 & H3 & Hrun)|(e & _ & [=])].
  apply in_heap_reports in H3.
  apply bind_inv in Hrun as [(se & w4 & H4 & Hrun)|(e & _ & [=])].
  apply new_SessionExporter_reports in H4.
  apply bind_inv in Hrun as [(se' & w5 & H5 & Hrun)|(e & _ & [=])].
  apply initialize_files_reports in H5.
  apply bind_inv in Hrun as [(df & w6 & H6 & Hrun)|(e & _ & [=])].
  apply run_file_exports_reports in H6.
  assert (w_reports w6 = w_reports w) as Hsame.
  { unfold reports_kept in *. congruence. }
  destruct df as [|row df]; cbn [length Nat.leb] in Hrun.
  - injection Hrun as <- <-. exact Hsame.
  - destruct (given csv) as [path|]; rewrite bind_run in Hrun.
    + unfold to_csv in Hrun. injection Hrun as <- <-.
      split; [done|]. cbn. by rewrite Hsame.
    + rewrite ret_run in Hrun. injection Hrun as <- <-. by split.
Qed.

(** X16. Outside of a project, [_get_subject_template] cannot report that it
    failed: with a subject CSV and a template that loads, when the template
    of the subject cannot be written, [export_container] on a subject or a
    session raises [NameError] (the message names [subject], which only
    the loop over the subjects of a project assigns), and nothing is
    exported or reported. *)
Theorem export_container_template_failure container dest tp csv ow subject_csv p
    ncol ocol w template w1 table subject_obj text :
  lone_subject container = Some subject_obj →
  load_template_file tp w = (Ok template, w1) →
  truthy (w_heap w1) template = true →
  given subject_csv = Some p →
  validate tp p ocol ncol = Ok (Some table) →
  (∀ path, get_updated_template table (w_heap w1, template) (c_label subject_obj)
             ocol path = Failed text) →
  ∃ w', export_container container dest tp csv ow subject_csv ncol ocol w
        = (Raise NameError, w')
        ∧ outside w' = outside w.
Proof.
  intros Hsub Hload Htruthy Hgiven Hvalid Hfail.
  pose proof (load_template_file_outside _ _ _ _ Hload) as Hout.
  unfold export_container.
  rewrite bind_run, Hload. cbv beta iota.
  rewrite bind_run, in_heap_run, get_state_run. cbv beta iota.
  rewrite bind_run, Hgiven. cbn [w_heap set_heap]. rewrite Htruthy, Hvalid.
  cbv beta iota.
  assert (set_heap w1 (w_heap w1) = w1) as -> by by destruct w1.
  destruct container as [pr|project s|s|t]; try done; cbn in Hsub;
    injection Hsub as <-; cbn [scope_type negb bool_decide].
  - rewrite bool_decide_true; [|set_solver]. cbn [negb].
    unfold _export_subject, with_temp_dir.
    rewrite bind_run, bind_run. unfold _get_subject_template at 1.
    cbn [w_heap set_tmp]. rewrite Hfail. cbv beta iota.
    eexists. split; [reflexivity|]. rewrite <- Hout. reflexivity.
  - rewrite bool_decide_true; [|set_solver]. cbn [negb].
    rewrite bind_run. unfold with_temp_dir.
    rewrite bind_run. unfold _get_subject_template at 1.
    cbn [w_heap set_tmp]. rewrite Hfail. cbv beta iota.
    eexists. split; [reflexivity|]. rewrite <- Hout. reflexivity.
Qed.

(** ** The jobs of a session

    The objects of a template are a tree, so that the list of file types
    is not the metadata whitelist of a config, the one list that
    [create_metadata_dict] writes to. *)

Lemma trees_le h lo hi vs : trees h lo hi vs → lo ≤ hi.
Proof. destruct 1; lia. Qed.

Lemma tree_within h lo hi v : tree h lo hi v → within lo hi v.
Proof.
  destruct 1 as [| | | |lo hi vs _ Hvs|lo hi d _ Hvs]; simpl; try done;
    apply trees_le in Hvs; lia.
Qed.

Lemma tree_le h lo hi v : tree h lo hi v → lo ≤ hi.
Proof.
  destruct 1 as [| | | |lo hi vs _ Hvs|lo hi d _ Hvs]; try done;
    apply trees_le in Hvs; lia.
Qed.

Lemma thread_trees {A B} (f : A → list obj → B * list obj) (g : B → value) xs :
  Forall (λ x, ∀ h, (∃ r, (f x h).2 = h ++ r)
                    ∧ ∀ k, tree ((f x h).2 ++ k) (length h) (length (f x h).2)
                             (g (f x h).1)) xs →
  ∀ h k, trees ((thread f xs h).2 ++ k) (length h) (length (thread f xs h).2)
           (map g (thread f xs h).1).
Proof.
  induction 1 as [|x xs Hx Hxs IH]; intros h k; simpl; [constructor|].
  destruct (Hx h) as [[r1 Hr1] Ht]. specialize (IH (f x h).2).
  destruct (thread_extends f xs) with (h := (f x h).2) as [r2 Hr2].
  { eapply Forall_impl; [exact Hxs|]. intros y Hy h0. apply Hy. }
  destruct (f x h) as [v h1]. simpl in *.
  destruct (thread f xs h1) as [vs h2]. simpl in *. subst h1 h2.
  apply trees_cons with (mid := length (h ++ r1)).
  - rewrite length_app. lia.
  - rewrite !length_app. lia.
  - rewrite <- (app_assoc _ r2 k). apply Ht.
  - apply IH.
Qed.

(** The object that [thaw] makes of a document is a tree, in the heap that
    [thaw] leaves and in any heap that extends it. *)
Lemma thaw_tree j :
  ∀ h k, tree ((thaw j h).2 ++ k) (length h) (length (thaw j h).2) (thaw j h).1.
Proof.
  induction j as [| | | |xs IH|kvs IH] using json_nested_ind; intros h k; simpl;
    try constructor.
  - pose proof (thread_trees thaw id xs) as Ht.
    destruct (thread_extends thaw xs) with (h := h) as [r Hr].
    { apply Forall_forall. intros x _ h0. apply thaw_extends. }
    specialize (Ht ltac:(eapply Forall_impl; [exact IH|]; intros x Hx h0;
                         split; [apply thaw_extends|apply Hx]) h).
    destruct (thread thaw xs h) as [vs h1]. simpl in *. subst h1.
    rewrite length_app. simpl. rewrite Nat.add_1_r.
    rewrite map_id in Ht. apply tree_list with (vs := vs).
    + rewrite <- app_assoc. by apply list_lookup_middle.
    + rewrite <- app_assoc. apply Ht.
  - match goal with |- context [thread ?f kvs h] => set (f0 := f) end.
    assert (Forall (λ x, ∀ h, ∃ r, (f0 x h).2 = h ++ r) kvs) as Hext.
    { apply Forall_forall. intros [key x] _ h0. simpl.
      destruct (thaw_extends x h0) as [r Hr]. destruct (thaw x h0). simpl in *. eauto. }
    pose proof (thread_trees f0 snd kvs) as Ht.
    destruct (thread_extends f0 kvs Hext h) as [r Hr].
    specialize (Ht ltac:(apply Forall_forall; intros [key x] Hin h0;
                         split; [exact (proj1 (Forall_forall _ _) Hext _ Hin h0)|];
                         intros k0; rewrite Forall_forall in IH;
                         specialize (IH _ Hin h0 k0); simpl in *;
                         by destruct (thaw x h0)) h).
    destruct (thread f0 kvs h) as [d h1]. simpl in *. subst h1.
    rewrite length_app. simpl. rewrite Nat.add_1_r.
    apply tree_dict with (d := d).
    + rewrite <- app_assoc. by apply list_lookup_middle.
    + rewrite <- app_assoc. apply Ht.
Qed.

Lemma trees_lookup h lo hi vs i v :
  trees h lo hi vs → vs !! i = Some v →
  ∃ a b, lo ≤ a ∧ b ≤ hi ∧ tree h a b v.
Proof.
  intros Ht. revert i. induction Ht as [|lo mid hi x vs L1 L2 Hx Hvs IH]; intros i;
    [done|].
  destruct i as [|i]; simpl.
  - intros [= ->]. exists lo, mid. split_and!; [lia|lia|done].
  - intros Hi. destruct (IH i Hi) as (a & b & ? & ? & ?).
    exists a, b. split_and!; [lia|lia|done].
Qed.

Lemma trees_lookup_lt h lo hi vs i j x y :
  trees h lo hi vs → vs !! i = Some x → vs !! j = Some y → i < j →
  ∃ a b c e, lo ≤ a ∧ b ≤ c ∧ e ≤ hi ∧ tree h a b x ∧ tree h c e y.
Proof.
  intros Ht. revert i j. induction Ht as [|lo mid hi z vs L1 L2 Hz Hvs IH];
    intros i j; [done|].
  destruct i as [|i], j as [|j]; simpl; try lia.
  - intros [= ->] Hj _. destruct (trees_lookup _ _ _ _ _ _ Hvs Hj) as (c & e & ? & ? & ?).
    exists lo, mid, c, e. split_and!; try done; lia.
  - intros Hi Hj Hlt. destruct (IH i j Hi Hj ltac:(lia)) as (a & b & c & e & ? & ? & ? & ? & ?).
    exists a, b, c, e. split_and!; try done; lia.
Qed.

Lemma dict_get_lookup {A} (d : list (string * A)) k v :
  dict_get d k = Some v → ∃ i, d !! i = Some (k, v).
Proof. intros Hk. apply dict_get_elem in Hk. by apply list_elem_of_lookup_1. Qed.

(** A value of a dict of a tree is a tree, inside of it. *)
Lemma tree_child h lo hi v d k x :
  tree h lo hi v → as_dict h v = Some d → dict_get d k = Some x →
  ∃ a b, lo ≤ a ∧ b ≤ hi ∧ tree h a b x.
Proof.
  intros Ht Hd Hk. apply dict_get_lookup in Hk as [i Hi].
  destruct Ht as [| | | |lo hi vs Hl Hvs|lo hi d' Hl Hvs]; try done;
    unfold as_dict in Hd; rewrite Hl in Hd; [done|]. injection Hd as ->.
  destruct (trees_lookup _ _ _ _ i x Hvs) as (a & b & ? & ? & ?).
  { by rewrite list_lookup_fmap, Hi. }
  exists a, b. split_and!; [done|lia|done].
Qed.

(** The values of two keys of a dict of a tree are trees that have no
    object in common. *)
Lemma tree_children h lo hi v d k1 k2 x y :
  tree h lo hi v → as_dict h v = Some d →
  dict_get d k1 = Some x → dict_get d k2 = Some y → k1 ≠ k2 →
  ∃ a b c e, lo ≤ a ∧ b ≤ hi ∧ lo ≤ c ∧ e ≤ hi ∧ (b ≤ c ∨ e ≤ a)
             ∧ tree h a b x ∧ tree h c e y.
Proof.
  intros Ht Hd H1 H2 Hne.
  apply dict_get_lookup in H1 as [i Hi]. apply dict_get_lookup in H2 as [j Hj].
  destruct Ht as [| | | |lo hi vs Hl Hvs|lo hi d' Hl Hvs]; try done;
    unfold as_dict in Hd; rewrite Hl in Hd; [done|]. injection Hd as ->.
  assert (map snd d !! i = Some x) as Hi' by (by rewrite list_lookup_fmap, Hi).
  assert (map snd d !! j = Some y) as Hj' by (by rewrite list_lookup_fmap, Hj).
  destruct (Nat.lt_trichotomy i j) as [Hlt|[->|Hlt]]; [|congruence|].
  - destruct (trees_lookup_lt _ _ _ _ _ _ _ _ Hvs Hi' Hj' Hlt)
      as (a & b & c & e & ? & ? & ? & Hx & Hy).
    pose proof (tree_le _ _ _ _ Hx). pose proof (tree_le _ _ _ _ Hy).
    exists a, b, c, e. split_and!; try done; lia.
  - destruct (trees_lookup_lt _ _ _ _ _ _ _ _ Hvs Hj' Hi' Hlt)
      as (c & e & a & b & ? & ? & ? & Hy & Hx).
    pose proof (tree_le _ _ _ _ Hx). pose proof (tree_le _ _ _ _ Hy).
    exists a, b, c, e. split_and!; try done; lia.
Qed.

Lemma evol_dicts h h' l d : evol h h' → h !! l = Some (ODict d) → h' !! l = Some (ODict d).
Proof. intros [K _]. by apply (kept_dicts _ _ _ K). Qed.

(** What is a dict in a tree is the same dict as the heap changes. *)
Lemma tree_as_dict h lo hi v h' :
  tree h lo hi v → evol h h' → as_dict h' v = as_dict h v.
Proof.
  intros Ht [K S]. destruct Ht as [| | | |lo hi vs Hl Hvs|lo hi d Hl Hvs]; try done;
    unfold as_dict; rewrite Hl.
  - by destruct (S _ _ Hl) as [n ->].
  - by rewrite (kept_dicts _ _ _ K (λ _ H, H) _ _ Hl).
Qed.

(** The metadata whitelist of a config that is a tree lies in the tree,
    and is the same as the heap changes. *)
Lemma whitelist_metadata_tree h lo hi cfg h' :
  tree h lo hi cfg → evol h h' →
  whitelist_metadata h' cfg = whitelist_metadata h cfg
  ∧ within lo hi (whitelist_metadata h cfg).
Proof.
  intros Ht Hev. unfold whitelist_metadata.
  rewrite (tree_as_dict _ _ _ _ _ Ht Hev).
  destruct (as_dict h cfg) as [config|] eqn:Ec; [|done].
  destruct (dict_get config "whitelist") as [wl|] eqn:Ew; [|done]. simpl.
  destruct (tree_child _ _ _ _ _ _ _ Ht Ec Ew) as (a & b & La & Lb & Hwl).
  rewrite (tree_as_dict _ _ _ _ _ Hwl Hev).
  destruct (as_dict h wl) as [wd|] eqn:Ed; [|done].
  destruct (dict_get wd "metadata") as [m|] eqn:Em; [|done]. simpl.
  destruct (tree_child _ _ _ _ _ _ _ Hwl Ed Em) as (a' & b' & La' & Lb' & Hm).
  split; [done|]. apply tree_within in Hm. destruct m; simpl in *; try done. lia.
Qed.

#[local] Instance list_kept_preorder l : PreOrder (list_kept l).
Proof.
  split; [by intros h xs|]. intros h1 h2 h3 K1 K2 xs Hl. by apply K2, K1.
Qed.

Lemma list_kept_new_object l o : respects (list_kept l) (new_object o).
Proof.
  intros h r h' [= <- <-] xs Hl. rewrite lookup_app_l; [done|].
  by apply lookup_lt_Some in Hl.
Qed.

Lemma list_kept_setitem l v k x : respects (list_kept l) (setitem v k x).
Proof.
  intros h r h'. unfold setitem. destruct v as [| | | |l']; try (by intros [= <- <-]).
  destruct (h !! l') as [[d|ys]|] eqn:E; intros [= <- <-]; try done.
  intros xs Hl. rewrite list_lookup_insert_ne; [done|]. congruence.
Qed.

Ltac kept_step :=
  first
    [ apply respects_ret; apply _
    | apply respects_raise; apply _
    | apply list_kept_new_object
    | apply list_kept_setitem
    | apply respects_same; [apply _|];
      intros ?; unfold py_get, py_get_default, getitem, list_items, keys_of,
        get_state; repeat case_match; done
    | match goal with
      | |- respects _ (match ?x with _ => _ end) => destruct x
      | |- respects _ (if ?x then _ else _) => destruct x
      | |- respects _ (let '(_, _) := ?x in _) => destruct x
      end
    | apply respects_for_each; [apply _|intros]
    | apply respects_bind; [apply _| |intros] ].

Lemma list_kept_copy_info l origin meta_dict meta_wl info_wl :
  respects (list_kept l) (copy_info origin meta_dict meta_wl info_wl).
Proof. unfold copy_info, new_dict, copy_info_item. repeat kept_step. Qed.

Lemma list_kept_set_export_origin_id l origin meta_dict :
  respects (list_kept l) (set_export_origin_id origin meta_dict).
Proof. unfold set_export_origin_id, new_dict. repeat kept_step. Qed.

Lemma list_kept_copy_fields l origin T meta_dict meta_wl :
  respects (list_kept l) (copy_fields origin T meta_dict meta_wl).
Proof. unfold copy_fields, copy_field. repeat kept_step. Qed.

Lemma evol_alloc3 (h : list obj) o1 o2 o3 : evol h (((h ++ [o1]) ++ [o2]) ++ [o3]).
Proof. rewrite <- !app_assoc. apply evol_prefix. Qed.

(** [create_metadata_dict] writes to no list but the metadata whitelist
    of the config. *)
Lemma create_metadata_dict_list_kept origin T cfg h r h' l :
  create_metadata_dict origin T cfg h = (r, h') →
  spared h cfg l → list_kept l h h'.
Proof.
  intros Hrun Hsp xs Hl. pose proof (lookup_lt_Some _ _ _ Hl) as Hlt.
  unfold create_metadata_dict in Hrun.
  apply bind_inv in Hrun as [(o & h1 & Ho & Hrun)|(e & Ho & _)].
  2:{ destruct origin as [v|c]; [done|]. unfold to_dict in Ho.
      by destruct (thaw _ h). }
  assert (∃ k, h1 = h ++ k) as [k ->].
  { destruct origin as [v|c]; [injection Ho as <- <-; exists []; by rewrite app_nil_r|].
    unfold to_dict in Ho.
    match type of Ho with context [thaw ?j h] =>
      destruct (thaw_extends j h) as [k Hk]; destruct (thaw j h) as [v0 h0] end.
    simpl in Hk. injection Ho as <- <-. eauto. }
  assert ((h ++ k) !! l = Some (OList xs)) as Hl1 by (by rewrite lookup_app_l).
  assert (evol h (h ++ k)) as E1 by apply evol_prefix.
  clear Ho. revert Hrun. generalize dependent (h ++ k). clear k. intros h1 Hl1 E1 Hrun.
  pose proof (lookup_lt_Some _ _ _ Hl1) as Hlt1.
  apply bind_inv in Hrun as [(oid & h2 & Hoid & Hrun)|(e & Hoid & _)].
  2:{ unfold py_get in Hoid. destruct (as_dict h1 o); [done|].
      by injection Hoid as <- <-. }
  assert (h2 = h1) as ->.
  { unfold py_get in Hoid. by destruct (as_dict h1 o); injection Hoid as _ <-. }
  py_step Hrun.
  destruct (truthy h1 oid); cbn [negb] in Hrun; cbv iota in Hrun;
    [|rewrite raise_run in Hrun; by injection Hrun as _ <-].
  py_step Hrun. py_step Hrun. py_step Hrun.
  set (h3 := ((h1 ++ [ODict []]) ++ [OList []]) ++ [OList []]) in *.
  assert (h3 !! l = Some (OList xs)) as Hl3.
  { subst h3. rewrite !lookup_app_l; rewrite ?length_app; simpl; try lia. done. }
  assert (is_list h3 (VRef (length (h1 ++ [ODict []]))) = true) as Hm0.
  { subst h3. unfold is_list, as_list.
    rewrite lookup_app_l; [by rewrite lookup_alloc|].
    rewrite !length_app. simpl. lia. }
  assert (is_list h3 (VRef (length ((h1 ++ [ODict []]) ++ [OList []]))) = true) as Hi0.
  { subst h3. unfold is_list, as_list. by rewrite lookup_alloc. }
  rewrite bind_run in Hrun.
  destruct (parse_whitelists _ _ _ _ h3) as [r1 h4] eqn:Eparse.
  apply parse_whitelists_spec in Eparse as (K4 & _ & _); [|done|done].
  assert (h4 !! l = Some (OList xs)) as Hl4.
  { apply K4; [|done]. intros [[Hw|Hm] _].
    - apply (Hsp h3); [|done]. etrans; [exact E1|]. apply evol_alloc3.
    - injection Hm as ->. rewrite length_app in Hlt1. lia. }
  destruct r1 as [[meta_wl info_wl]|e]; cbv beta iota in Hrun;
    [|by injection Hrun as _ <-].
  revert Hrun. 
  match goal with |- ?m h4 = _ → _ =>
    assert (respects (list_kept l) m) as Hrest end.
  { repeat first [ apply list_kept_copy_info | apply list_kept_set_export_origin_id
                 | apply list_kept_copy_fields | kept_step ]. }
  intros Hrun. by apply (Hrest _ _ _ Hrun).
Qed.

Lemma spared_evol h h1 cfg l : spared h cfg l → evol h h1 → spared h1 cfg l.
Proof. intros Hsp E h' E'. apply Hsp. by etrans. Qed.

(** The config that [config_or_dict] returns *)
Lemma config_or_dict_spared cfg h l :
  spared h cfg l →
  ∃ sc h1, config_or_dict cfg h = (Ok sc, h1) ∧ evol h h1 ∧ list_kept l h h1
           ∧ spared h1 sc l.
Proof.
  intros Hsp. unfold config_or_dict. rewrite bind_run, get_state_run. cbv beta iota.
  destruct (truthy h cfg).
  - rewrite ret_run. eexists _, _. split_and!; [done|reflexivity|reflexivity|done].
  - rewrite new_dict_run. eexists _, _. split_and!; [done|apply evol_alloc| |].
    + intros xs Hl. rewrite lookup_app_l; [done|]. by apply lookup_lt_Some in Hl.
    + intros h' E. unfold whitelist_metadata, as_dict.
      rewrite (evol_dicts _ _ (length h) [] E) by apply lookup_alloc. done.
Qed.

#[local] Instance wkept_preorder l : PreOrder (wkept l).
Proof.
  split; [intros w; unfold wkept; reflexivity|].
  intros w1 w2 w3 K1 K2. unfold wkept in *. by etrans.
Qed.

Lemma in_heap_create_kept origin T sc w r w' l :
  in_heap (create_metadata_dict origin T sc) w = (r, w') →
  spared (w_heap w) sc l → wkept l w w'.
Proof.
  rewrite in_heap_run.
  destruct (create_metadata_dict origin T sc (w_heap w)) as [r0 h] eqn:E.
  intros [= <- <-] Hsp. unfold wkept. simpl.
  by eapply create_metadata_dict_list_kept.
Qed.

Lemma heap_read_same {A} (m : Py (list obj) A) w r w' :
  (∀ h, (m h).2 = h) → in_heap m w = (r, w') → w_heap w' = w_heap w.
Proof.
  intros Hm. rewrite in_heap_run. specialize (Hm (w_heap w)).
  destruct (m (w_heap w)) as [r0 h]. simpl in Hm. subst. by intros [= <- <-].
Qed.

Lemma store_op_same {A} (m : Py world A) w r w' :
  (∀ w, w_heap (m w).2 = w_heap w) → m w = (r, w') → w_heap w' = w_heap w.
Proof. intros Hm Hrun. specialize (Hm w). by rewrite Hrun in Hm. Qed.

Lemma py_get_default_same v k dflt h : (py_get_default v k dflt h).2 = h.
Proof. unfold py_get_default. by destruct (as_dict h v). Qed.

Lemma add_child_same parent ty names label payload w :
  w_heap (add_child parent ty names label payload w).2 = w_heap w.
Proof. unfold add_child. repeat case_match; done. Qed.

Lemma update_same i payload w : w_heap (update i payload w).2 = w_heap w.
Proof. unfold update. repeat case_match; done. Qed.

(** What the three matchers do once they have the query *)
Lemma reconcile_list_kept origin T sc parent ty query names label w r w' l :
  (dest ← find_first parent ty query;
   meta_dict ← in_heap (create_metadata_dict (Live origin) T sc);
   match dest with
   | None => add_child parent ty names label meta_dict
   | Some dest => update dest meta_dict ≫= λ _, mret dest
   end) w = (r, w') →
  spared (w_heap w) sc l → wkept l w w'.
Proof.
  intros Hrun Hsp. rewrite bind_run in Hrun. unfold find_first at 1 in Hrun.
  cbv beta iota in Hrun.
  apply bind_inv in Hrun as [(p & w1 & Hc & Hrun)|(e & Hc & _)];
    apply in_heap_create_kept with (l := l) in Hc; try done.
  etrans; [exact Hc|]. unfold wkept.
  destruct (find_index _ _ _) as [j|].
  - apply bind_inv in Hrun as [([] & w2 & Hu & Hrun)|(e & Hu & _)].
    + injection Hrun as _ <-.
      rewrite (store_op_same _ _ _ _ (update_same j p) Hu). reflexivity.
    + rewrite (store_op_same _ _ _ _ (update_same j p) Hu). reflexivity.
  - rewrite (store_op_same _ _ _ _ (add_child_same _ _ _ _ _) Hrun). reflexivity.
Qed.

Lemma with_config_kept {A} cfg (k : value → Py world A) w r w' l :
  (sc ← in_heap (config_or_dict cfg); k sc) w = (r, w') →
  spared (w_heap w) cfg l →
  (∀ sc w1, spared (w_heap w1) sc l → k sc w1 = (r, w') → wkept l w1 w') →
  wkept l w w'.
Proof.
  intros Hrun Hsp Hk.
  destruct (config_or_dict_spared cfg (w_heap w) l Hsp) as (sc & h1 & Hc & E1 & K1 & Hsp1).
  rewrite bind_run, in_heap_run, Hc in Hrun. cbv beta iota in Hrun.
  assert (wkept l w (set_heap w h1)) as K1' by exact K1.
  etrans; [exact K1'|]. by apply (Hk sc).
Qed.

Lemma find_or_create_subject_list_kept origin dest cfg w r w' l :
  find_or_create_subject origin dest cfg w = (r, w') →
  spared (w_heap w) cfg l → wkept l w w'.
Proof.
  intros Hrun Hsp. unfold find_or_create_subject in Hrun.
  eapply with_config_kept; [exact Hrun|exact Hsp|]. clear w Hrun Hsp.
  intros sc w Hsp Hrun.
  apply bind_inv in Hrun as [(a & w1 & Ha & Hrun)|(e & Ha & _)];
    apply heap_read_same in Ha; try apply py_get_default_same;
    [|unfold wkept; rewrite Ha; reflexivity].
  apply bind_inv in Hrun as [(q & w2 & Hq & Hrun)|(e & Hq & _)];
    apply heap_read_same in Hq; try done;
    [|unfold wkept; rewrite Hq, Ha; reflexivity].
  apply reconcile_list_kept with (l := l) in Hrun; [|by rewrite Hq, Ha].
  unfold wkept in *. by rewrite Hq, Ha in Hrun.
Qed.

Lemma find_or_create_subject_session_list_kept origin dest cfg w r w' l :
  find_or_create_subject_session origin dest cfg w = (r, w') →
  spared (w_heap w) cfg l → wkept l w w'.
Proof.
  intros Hrun Hsp. unfold find_or_create_subject_session in Hrun.
  eapply with_config_kept; [exact Hrun|exact Hsp|]. clear w Hrun Hsp.
  intros sc w Hsp Hrun.
  apply bind_inv in Hrun as [(a & w1 & Ha & Hrun)|(e & Ha & _)];
    apply heap_read_same in Ha; try apply py_get_default_same;
    [|unfold wkept; rewrite Ha; reflexivity].
  apply bind_inv in Hrun as [(q & w2 & Hq & Hrun)|(e & Hq & _)];
    apply heap_read_same in Hq; try done;
    [|unfold wkept; rewrite Hq, Ha; reflexivity].
  apply reconcile_list_kept with (l := l) in Hrun; [|by rewrite Hq, Ha].
  unfold wkept in *. by rewrite Hq, Ha in Hrun.
Qed.

Lemma find_or_create_session_acquisition_list_kept origin dest cfg w r w' l :
  find_or_create_session_acquisition origin dest cfg w = (r, w') →
  spared (w_heap w) cfg l → wkept l w w'.
Proof.
  intros Hrun Hsp. unfold find_or_create_session_acquisition in Hrun.
  eapply with_config_kept; [exact Hrun|exact Hsp|]. clear w Hrun Hsp.
  intros sc w Hsp Hrun.
  apply bind_inv in Hrun as [(q & w2 & Hq & Hrun)|(e & Hq & _)];
    apply heap_read_same in Hq; try done;
    [|unfold wkept; rewrite Hq; reflexivity].
  apply reconcile_list_kept with (l := l) in Hrun; [|by rewrite Hq].
  unfold wkept in *. by rewrite Hq in Hrun.
Qed.

Lemma type_in_steady h0 ec ft w t :
  settled h0 ec ft → steady h0 ft w →
  (type_in t ft (w_heap w)).1 = (type_in t ft h0).1.
Proof.
  intros (d & _ & Hft) [E K].
  destruct ft as [| | | |l]; try (unfold type_in; by destruct t).
  destruct (Hft l eq_refl) as [Hlt _]. specialize (K l eq_refl).
  apply lookup_lt_is_Some in Hlt as [o Ho]. unfold type_in, as_list, as_dict.
  destruct o as [d0|xs].
  - by rewrite (evol_dicts _ _ _ _ E Ho), Ho.
  - by rewrite (K _ Ho), Ho.
Qed.

Lemma picks_steady h0 ec ft w t :
  settled h0 ec ft → steady h0 ft w → picks ft (w_heap w) t = picks ft h0 t.
Proof.
  intros Hs Hw. pose proof (type_in_steady h0 ec ft w t Hs Hw) as Ht.
  unfold picks. destruct (type_in t ft (w_heap w)) as [r1 h1],
    (type_in t ft h0) as [r2 h2]. simpl in Ht. by subst.
Qed.

Lemma steady_step h0 ft w w' :
  steady h0 ft w → wframe w w' → (∀ l, ft = VRef l → wkept l w w') →
  steady h0 ft w'.
Proof.
  intros [E K] [_ E'] K'. split; [by etrans|].
  intros l Hl. etrans; [by apply K|]. by apply K'.
Qed.

(** The config of a kind of container, read from the export config *)
Lemma py_get_config h0 ec ft k w r w1 :
  settled h0 ec ft → steady h0 ft w → k ≠ "file_types" →
  in_heap (py_get ec k) w = (r, w1) →
  w1 = w ∧ ∃ cfg, r = Ok cfg ∧ ∀ l, ft = VRef l → spared (w_heap w) cfg l.
Proof.
  intros (d & Hd & Hft) [E K] Hk. rewrite in_heap_run. unfold py_get.
  apply as_dict_lookup in Hd as (le & -> & Hle).
  unfold as_dict. rewrite (evol_dicts _ _ _ _ E Hle).
  intros [= <- <-]. split; [apply set_heap_same|].
  eexists. split; [done|]. intros l Hl.
  destruct (Hft l Hl) as [_ Hsp]. eapply spared_evol; [by apply Hsp|done].
Qed.

Lemma initialize_container_file_export_keys ty c dest fd ft ow h jobs h' :
  initialize_container_file_export ty c dest fd ft ow h = (Ok jobs, h') →
  h' = h ∧ map job_key jobs = listed_files (picks ft h) ty c.
Proof.
  unfold initialize_container_file_export, listed_files.
  enough (∀ files acc,
            fold_m files acc (λ file_exporter_list container_file,
              let export_filename := dict_get fd (f_name container_file) in
              listed ← type_in (f_type container_file) ft;
              if (listed : bool) then
                let tmp_file_exporter :=
                  new_FileExporter (ty, c_id c)
                    (f_name container_file) dest export_filename ow in
                mret (file_exporter_list ++ [tmp_file_exporter])
              else mret file_exporter_list) h = (Ok jobs, h') →
            h' = h
            ∧ map job_key jobs
              = map job_key acc
                ++ map (λ f, ((ty, c_id c), f_name f))
                     (List.filter (λ f, picks ft h (f_type f)) files)) as Hloop
    by (intros Hrun; by apply Hloop in Hrun).
  induction files as [|f files IH]; intros acc; cbn [fold_m List.filter map].
  - intros [= <- <-]. by rewrite app_nil_r.
  - intros Hrun.
    apply bind_inv in Hrun as [(acc1 & h1 & Hstep & Hrun)|(e & _ & [=])].
    apply bind_inv in Hstep as [(b & h2 & Hin & Hstep)|(e & _ & [=])].
    pose proof (type_in_heap (f_type f) ft h) as Hh. rewrite Hin in Hh.
    simpl in Hh. subst h2.
    assert (picks ft h (f_type f) = b) as ->.
    { unfold picks. rewrite Hin. by destruct b. }
    destruct b; injection Hstep as <- <-; apply IH in Hrun as [-> ->];
      (split; [done|]); [|done].
    rewrite map_app, <- app_assoc. cbn [map app]. do 2 f_equal.
    unfold job_key, new_FileExporter. by destruct (exporter_state _ _ _ _ _).
Qed.

Lemma initialize_step_keys h0 ec ty c dest fd ft ow w jobs w' :
  settled h0 ec ft → steady h0 ft w →
  in_heap (initialize_container_file_export ty c dest fd ft ow) w = (Ok jobs, w') →
  w' = w ∧ map job_key jobs = listed_files (picks ft h0) ty c.
Proof.
  intros Hs Hw. rewrite in_heap_run.
  destruct (initialize_container_file_export _ _ _ _ _ _ _) as [r h] eqn:E.
  intros [= -> <-]. apply initialize_container_file_export_keys in E as [-> ->].
  split; [apply set_heap_same|]. unfold listed_files. f_equal.
  apply filter_ext. intros f. by eapply picks_steady.
Qed.

Lemma find_or_create_dest_subject_steady h0 self w r w' :
  settled h0 (se_export_config self) (se_file_types self) →
  steady h0 (se_file_types self) w →
  find_or_create_dest_subject self w = (r, w') →
  steady h0 (se_file_types self) w'.
Proof.
  intros Hs Hw. unfold find_or_create_dest_subject.
  destruct (se_dest_subject self); [by intros [= <- <-]|]. intros Hrun.
  apply bind_inv in Hrun as [(cfg & w1 & Hcfg & Hrun)|(e & Hcfg & _)];
    eapply py_get_config in Hcfg as (-> & cfg' & [= <-] & Hsp); try done.
  apply bind_inv in Hrun as [(d & w2 & Hm & Hrun)|(e & Hm & _)].
  - injection Hrun as _ <-. eapply steady_step; [exact Hw| |].
    + by eapply respects_find_or_create_subject.
    + intros l Hl. eapply find_or_create_subject_list_kept; [exact Hm|by apply Hsp].
  - eapply steady_step; [exact Hw| |].
    + by eapply respects_find_or_create_subject.
    + intros l Hl. eapply find_or_create_subject_list_kept; [exact Hm|by apply Hsp].
Qed.

Lemma find_or_create_dest_steady h0 self w r w' :
  settled h0 (se_export_config self) (se_file_types self) →
  steady h0 (se_file_types self) w →
  find_or_create_dest self w = (r, w') →
  steady h0 (se_file_types self) w'.
Proof.
  intros Hs Hw. unfold find_or_create_dest.
  destruct (se_dest self); [by intros [= <- <-]|]. intros Hrun.
  apply bind_inv in Hrun as [(self1 & w1 & Hsub & Hrun)|(e & Hsub & _)].
  2:{ destruct (se_dest_subject self) eqn:Eds; [done|].
      by eapply find_or_create_dest_subject_steady. }
  assert (same_jobs self self1 ∧ steady h0 (se_file_types self) w1)
    as [(J1 & J2 & J3 & J4 & J5 & J6) Hw1].
  { destruct (se_dest_subject self) eqn:Eds.
    - injection Hsub as <- <-. split; [apply same_jobs_refl|done].
    - split; [by eapply find_or_create_dest_subject_jobs|].
      by eapply find_or_create_dest_subject_steady. }
  destruct (se_dest_subject self1); [|by injection Hrun as _ <-].
  rewrite J5 in Hrun.
  apply bind_inv in Hrun as [(cfg & w2 & Hcfg & Hrun)|(e & Hcfg & _)];
    eapply py_get_config in Hcfg as (-> & cfg' & [= <-] & Hsp); try done.
  assert (∀ r0 w0, find_or_create_subject_session
                       (os_session (se_origin self1)) n cfg w1 = (r0, w0) →
                     steady h0 (se_file_types self) w0) as Hstep.
  { intros r0 w0 Hm. eapply steady_step; [exact Hw1| |].
    - by eapply respects_find_or_create_subject_session.
    - intros l Hl. eapply find_or_create_subject_session_list_kept;
        [exact Hm|by apply Hsp]. }
  apply bind_inv in Hrun as [(d & w2 & Hm & Hrun)|(e & Hm & _)].
  - injection Hrun as _ <-. by eapply Hstep.
  - by eapply Hstep.
Qed.

Lemma acquisitions_keys h0 dest fd acqs :
  ∀ self w self' w',
    settled h0 (se_export_config self) (se_file_types self) →
    steady h0 (se_file_types self) w →
    fold_m acqs self (λ self origin_acq,
      acquisition_config ← in_heap (py_get (se_export_config self) "acquisition");
      dest_acq ← find_or_create_session_acquisition origin_acq dest
                   acquisition_config;
      tmp_acq_file_list ← in_heap (initialize_container_file_export
        Acquisition origin_acq dest_acq fd (se_file_types self) false);
      mret (with_files self (se_files self ++ tmp_acq_file_list))) w
    = (Ok self', w') →
    map job_key (se_files self')
    = map job_key (se_files self)
      ++ concat (map (listed_files (picks (se_file_types self) h0) Acquisition) acqs).
Proof.
  induction acqs as [|a acqs IH]; intros self w self' w' Hs Hw; cbn [fold_m map concat].
  - intros [= <- <-]. by rewrite app_nil_r.
  - intros Hrun.
    apply bind_inv in Hrun as [(self1 & w1 & Hbody & Hrun)|(e & _ & [=])].
    apply bind_inv in Hbody as [(cfg & w2 & Hcfg & Hbody)|(e & _ & [=])].
    eapply py_get_config in Hcfg as (-> & cfg' & [= <-] & Hsp); try done.
    apply bind_inv in Hbody as [(d & w3 & Hacq & Hbody)|(e & _ & [=])].
    assert (steady h0 (se_file_types self) w3) as Hw3.
    { eapply steady_step; [exact Hw| |].
      - by eapply respects_find_or_create_session_acquisition.
      - intros l Hl. eapply find_or_create_session_acquisition_list_kept;
          [exact Hacq|by apply Hsp]. }
    apply bind_inv in Hbody as [(jobs & w4 & Hjobs & Hbody)|(e & _ & [=])].
    eapply initialize_step_keys in Hjobs as [-> Hkeys]; try done.
    injection Hbody as <- <-.
    apply IH in Hrun; [|done|done]. cbn [se_files se_file_types with_files] in Hrun.
    by rewrite Hrun, map_app, Hkeys, <- app_assoc.
Qed.

Lemma parent_of_same i w r w' : parent_of i w = (r, w') → w' = w.
Proof.
  unfold parent_of. destruct (w_store w !! i) as [c|]; [|by intros [= _ <-]].
  destruct (d_parent c); by intros [= _ <-].
Qed.

(** The jobs that [initialize_files] adds *)
Lemma initialize_files_keys h0 self sf pf fd w self' w' :
  settled h0 (se_export_config self) (se_file_types self) →
  steady h0 (se_file_types self) w →
  se_origin_project self = os_project (se_origin self) →
  initialize_files self sf pf fd w = (Ok self', w') →
  map job_key (se_files self')
  = map job_key (se_files self)
    ++ session_jobs (picks (se_file_types self) h0) (se_origin self) sf pf.
Proof.
  intros Hs Hw Hproj. unfold initialize_files. intros Hrun.
  apply bind_inv in Hrun as [(self1 & w1 & Hdest & Hrun)|(e & _ & [=])].
  assert (same_jobs self self1 ∧ steady h0 (se_file_types self) w1)
    as [(J1 & J2 & J3 & J4 & J5 & J6) Hw1].
  { destruct (se_dest self) eqn:Ed.
    - injection Hdest as <- <-. split; [apply same_jobs_refl|done].
    - split; [by eapply find_or_create_dest_jobs|].
      by eapply find_or_create_dest_steady. }
  rewrite <- J1, <- J2, <- J3. rewrite <- J2, <- J5 in Hs. rewrite <- J2 in Hw1.
  rewrite <- J3, <- J4 in Hproj.
  clear Hdest Hw J1 J2 J3 J4 J5 J6. unfold session_jobs.
  destruct (se_dest self1) as [dest|]; [|done].
  apply bind_inv in Hrun as [(self2 & w2 & Hp & Hrun)|(e & _ & [=])].
  assert (w2 = w1 ∧ se_file_types self2 = se_file_types self1
          ∧ se_export_config self2 = se_export_config self1
          ∧ se_origin self2 = se_origin self1
          ∧ map job_key (se_files self2)
            = map job_key (se_files self1)
              ++ (if pf then listed_files (picks (se_file_types self1) h0) Project
                                (os_project (se_origin self1)) else []))
    as (-> & T2 & C2 & O2 & K2).
  { destruct pf.
    - apply bind_inv in Hp as [(jobs & w3 & Hjobs & Hp)|(e & _ & [=])].
      eapply initialize_step_keys in Hjobs as [-> Hkeys]; try done.
      injection Hp as <- <-. rewrite Hproj in Hkeys.
      cbn [se_files se_file_types se_export_config se_origin with_files].
      split_and!; try done. by rewrite map_app, Hkeys.
    - injection Hp as <- <-. split_and!; try done. by rewrite app_nil_r. }
  apply bind_inv in Hrun as [(self3 & w3 & Hsf & Hrun)|(e & _ & [=])].
  assert (w3 = w1 ∧ se_file_types self3 = se_file_types self1
          ∧ se_export_config self3 = se_export_config self1
          ∧ se_origin self3 = se_origin self1
          ∧ map job_key (se_files self3)
            = map job_key (se_files self2)
              ++ (if sf then listed_files (picks (se_file_types self1) h0) Subject
                                (os_subject (se_origin self1)) else []))
    as (-> & T3 & C3 & O3 & K3).
  { destruct sf.
    - apply bind_inv in Hsf as [(ds & w4 & Hpar & Hsf)|(e & _ & [=])].
      apply parent_of_same in Hpar as ->.
      apply bind_inv in Hsf as [(jobs & w5 & Hjobs & Hsf)|(e & _ & [=])].
      rewrite T2, O2 in Hjobs.
      eapply initialize_step_keys in Hjobs as [-> Hkeys]; try done.
      injection Hsf as <- <-.
      cbn [se_files se_file_types se_export_config se_origin with_files].
      split_and!; try done. by rewrite map_app, Hkeys.
    - injection Hsf as <- <-. split_and!; try done. by rewrite app_nil_r. }
  apply bind_inv in Hrun as [(jobs & w4 & Hjobs & Hrun)|(e & _ & [=])].
  rewrite T3, O3 in Hjobs.
  eapply initialize_step_keys in Hjobs as [-> Hkeys]; try done.
  cbn [se_origin with_files] in Hrun.
  apply (acquisitions_keys h0) in Hrun.
  - cbn [se_files se_file_types with_files] in Hrun.
    rewrite Hrun, map_app, Hkeys, K3, K2, T3, O3, <- !app_assoc. done.
  - cbn [se_export_config se_file_types with_files]. by rewrite T3, C3.
  - cbn [se_file_types with_files]. by rewrite T3.
Qed.

Lemma local_file_export_key fed path ow w r w' :
  local_file_export fed path ow w = (Ok r, w') → row_key r = row_key fed.
Proof.
  unfold local_file_export, row_key.
  unfold new_FileExporter. destruct (exporter_state _ _ _ _ _) as [st err].
  cbn [fe_state]. destruct (String.eqb _ _).
  - by intros [= <- <-].
  - cbn. destruct (local_deid_export _ _) as [[st' err'] fid]. by intros [= <- <-].
Qed.

Lemma run_file_exports_keys self path ow w rows w' :
  run_file_exports self path ow w = (Ok rows, w') →
  map row_key rows = map job_key (se_files self).
Proof.
  unfold run_file_exports.
  enough (∀ fs acc w,
            fold_m (map get_status_dict fs) acc (λ dict_list file_exporter,
              status ← local_file_export file_exporter path ow;
              mret (dict_list ++ [status])) w = (Ok rows, w') →
            map row_key rows = map row_key acc ++ map job_key fs) as Hloop
    by (intros Hrun; by apply Hloop in Hrun).
  induction fs as [|fe fs IH]; intros acc w0; cbn [map fold_m].
  - intros [= <- <-]. by rewrite app_nil_r.
  - intros Hrun.
    apply bind_inv in Hrun as [(acc1 & w1 & Hstep & Hrun)|(e & _ & [=])].
    apply bind_inv in Hstep as [(r & w2 & Hexp & Hstep)|(e & _ & [=])].
    injection Hstep as <- <-. apply local_file_export_key in Hexp.
    rewrite (IH _ _ Hrun), map_app, <- app_assoc. simpl. by rewrite Hexp.
Qed.

Lemma load_template_file_tree path w template w1 :
  load_template_file path w = (Ok template, w1) →
  ∃ lo, lo ≤ length (w_heap w1)
        ∧ ∀ k, tree (w_heap w1 ++ k) lo (length (w_heap w1)) template.
Proof.
  unfold load_template_file. destruct (_ || _).
  2:{ intros [= <- <-]. exists (length (w_heap w)). split; [done|]. constructor. }
  assert (∀ j, in_heap (λ h, let '(v, h') := thaw j h in (Ok v, h')) w
               = (Ok template, w1) →
               ∃ lo, lo ≤ length (w_heap w1)
                     ∧ ∀ k, tree (w_heap w1 ++ k) lo (length (w_heap w1)) template)
    as Hthaw.
  { intros j. rewrite in_heap_run.
    pose proof (thaw_tree j (w_heap w)) as Ht.
    destruct (thaw_extends j (w_heap w)) as [r Hr].
    destruct (thaw j (w_heap w)) as [v h1]. simpl in *. intros [= <- <-]. simpl.
    exists (length (w_heap w)). split; [|done]. subst h1. rewrite length_app. lia. }
  unfold read_file. destruct (dict_get (w_templates w) path) as [[j|]|].
  - apply Hthaw.
  - done.
  - destruct (read_template path) as [j|e]; [apply Hthaw|by destruct e].
Qed.

Lemma spared_none h l : spared h VNone l.
Proof. by intros h' _. Qed.

(** An export config that is a tree, with file types that are its own or
    an object made after it *)
Lemma tree_settled h a b ec d n :
  tree h a b ec → as_dict h ec = Some d → b ≤ n → n < length h →
  b ≤ length h →
  settled h ec (default (VRef n) (dict_get d "file_types")).
Proof.
  intros Ht Hd Hbn Hn Hb. exists d. split; [done|]. intros l Hft.
  destruct (dict_get d "file_types") as [v|] eqn:Ev; simpl in Hft.
  - subst v. destruct (tree_child _ _ _ _ _ _ _ Ht Hd Ev) as (a1 & b1 & La & Lb & Hv).
    pose proof (tree_within _ _ _ _ Hv) as Hin. simpl in Hin.
    split; [lia|]. intros k Hk h' E.
    destruct (dict_get d k) as [c|] eqn:Ec; [|done]. simpl.
    destruct (tree_children _ _ _ _ _ _ _ _ _ Ht Hd Ev Ec)
      as (a2 & b2 & c1 & c2 & _ & _ & _ & _ & Hdis & Hv' & Hc); [congruence|].
    destruct (whitelist_metadata_tree _ _ _ _ _ Hc E) as [-> Hw].
    pose proof (tree_within _ _ _ _ Hv') as Hin'. simpl in Hin'.
    intros Heq. rewrite <- Heq in Hw. simpl in Hw. lia.
  - injection Hft as <-. split; [done|]. intros k Hk h' E.
    destruct (dict_get d k) as [c|] eqn:Ec; [|done]. simpl.
    destruct (tree_child _ _ _ _ _ _ _ Ht Hd Ec) as (c1 & c2 & La & Lb & Hc).
    destruct (whitelist_metadata_tree _ _ _ _ _ Hc E) as [-> Hw].
    intros Heq. rewrite <- Heq in Hw. simpl in Hw. lia.
Qed.

(** The session exporter of [export_session]: its file types are those of
    the template, it has no job, and no config of its export config has
    the list of file types as its metadata whitelist. *)
Lemma session_exporter_settled s dest template lo w se w' :
  (∀ k, tree (w_heap w ++ k) lo (length (w_heap w)) template) →
  (no_config ← in_heap (new_dict []);
   export_config ← in_heap (py_get_default template "export" no_config);
   new_SessionExporter s dest export_config None) w = (Ok se, w') →
  settled (w_heap w') (se_export_config se) (se_file_types se)
  ∧ wframe w w'.
Proof.
  intros Ht. unfold new_SessionExporter.
  rewrite !bind_run, !in_heap_run, new_dict_run. cbv beta iota.
  rewrite !bind_run, !in_heap_run. cbn [w_heap set_heap].
  unfold py_get_default at 1.
  destruct (as_dict (w_heap w ++ [ODict []]) template) as [d|] eqn:Ed;
    cbv beta iota; [|by intros [= <- <-]].
  rewrite !bind_run, !in_heap_run, !bind_run, !get_state_run. cbv beta iota.
  cbn [w_heap set_heap].
  set (h := w_heap w) in *.
  set (cfg := default (VRef (length h)) (dict_get d "export")).
  destruct (is_dict (h ++ [ODict []]) cfg) eqn:Eis.
  - rewrite !ret_run. cbv beta iota. rewrite !bind_run, !in_heap_run.
    unfold new_list, new_object. cbv beta iota. cbn [w_heap set_heap].
    rewrite !bind_run, !in_heap_run. cbn [w_heap set_heap].
    set (h2 := (h ++ [ODict []]) ++ [OList [VStr "dicom"]]).
    unfold py_get_default.
    destruct (as_dict h2 cfg) as [dec|] eqn:Edec; cbv beta iota;
      [|by intros [= <- <-]].
    rewrite bind_run, ret_run. cbv beta iota. rewrite ret_run.
    intros [= <- <-]. cbn [se_export_config se_file_types w_heap set_heap].
    split.
    2:{ split; [done|]. simpl. subst h2. rewrite <- app_assoc. apply evol_prefix. }
    assert (length h2 = S (S (length h))) as Hlen2.
    { subst h2. rewrite !length_app. simpl. lia. }
    specialize (Ht [ODict []; OList [VStr "dicom"]]).
    replace (h ++ [ODict []; OList [VStr "dicom"]]) with h2 in Ht
      by (subst h2; by rewrite <- app_assoc).
    destruct (dict_get d "export") as [ec0|] eqn:Eexp; subst cfg;
      [change (default (VRef (length h)) (Some ec0)) with ec0 in *
      |change (default (VRef (length h)) None) with (VRef (length h)) in *].
    + assert (as_dict h2 template = Some d) as Hd2.
      { apply as_dict_lookup in Ed as (lt & -> & Hlt). apply as_dict_lookup.
        exists lt. split; [done|]. subst h2. rewrite lookup_app_l; [done|].
        by apply lookup_lt_Some in Hlt. }
      destruct (tree_child _ _ _ _ _ _ _ Ht Hd2 Eexp) as (a & b & La & Lb & Hec).
      replace (length (h ++ [ODict []])) with (S (length h))
        by (rewrite length_app; simpl; lia).
      eapply tree_settled; [exact Hec|exact Edec|lia|lia|lia].
    + apply as_dict_lookup in Edec as (le & [= <-] & Hle).
      unfold h2 in Hle. rewrite lookup_app_l in Hle by (rewrite length_app; simpl; lia).
      rewrite lookup_alloc in Hle. injection Hle as <-. simpl. unfold h2.
      exists []. split.
      * unfold as_dict. rewrite lookup_app_l by (rewrite length_app; simpl; lia).
        by rewrite lookup_alloc.
      * intros l [= <-]. split; [rewrite !length_app; simpl; lia|].
        intros k _. apply spared_none.
  - rewrite new_dict_run. cbv beta iota. rewrite !bind_run, !in_heap_run.
    unfold new_list, new_object. cbv beta iota. cbn [w_heap set_heap].
    rewrite !bind_run, !in_heap_run. cbn [w_heap set_heap].
    unfold py_get_default, as_dict.
    rewrite lookup_app_l by (rewrite !length_app; simpl; lia).
    rewrite lookup_alloc. cbv beta iota.
    rewrite bind_run, ret_run. cbv beta iota. rewrite ret_run.
    intros [= <- <-]. cbn [se_export_config se_file_types w_heap set_heap].
    split.
    2:{ split; [done|]. simpl. rewrite <- !app_assoc. apply evol_prefix. }
    exists []. split.
    + unfold as_dict. rewrite lookup_app_l by (rewrite !length_app; simpl; lia).
      by rewrite lookup_alloc.
    + simpl. intros l [= <-]. split; [rewrite !length_app; simpl; lia|].
      intros k _. apply spared_none.
Qed.

Lemma listed_files_ext ok ok' ty c :
  (∀ t, ok t = ok' t) → listed_files ok ty c = listed_files ok' ty c.
Proof. intros Hok. unfold listed_files. f_equal. apply filter_ext. auto. Qed.

Lemma session_jobs_ext ok ok' s sf pf :
  (∀ t, ok t = ok' t) → session_jobs ok s sf pf = session_jobs ok' s sf pf.
Proof.
  intros Hok. unfold session_jobs.
  rewrite !(listed_files_ext ok ok') by done.
  do 3 f_equal. f_equal. induction (os_acquisitions s) as [|a l IH]; [done|].
  simpl. by rewrite IH, (listed_files_ext ok ok').
Qed.

Lemma steady_refl w ft : steady (w_heap w) ft w.
Proof. split; [reflexivity|]. intros l _. reflexivity. Qed.

(** The rows of the report of [export_session] are those of the jobs of
    the session, in order; [None] is returned for no row. *)
Lemma export_session_rows s dest path sf pf csv ow w template w1 r w' :
  load_template_file path w = (Ok template, w1) →
  export_session s dest path sf pf csv ow w = (Ok r, w') →
  map row_key (default [] r) = session_jobs (allowed template (w_heap w1)) s sf pf
  ∧ r ≠ Some [].
Proof.
  intros Hload. unfold export_session. rewrite bind_run, Hload.
  cbv beta iota. intros Hrun.
  apply bind_inv in Hrun as [(nc & wa & Ha & Hrun)|(e & _ & [=])].
  apply bind_inv in Hrun as [(ec & wb & Hb & Hrun)|(e & _ & [=])].
  apply bind_inv in Hrun as [(se & wc & Hc & Hrun)|(e & _ & [=])].
  assert ((no_config ← in_heap (new_dict []);
           export_config ← in_heap (py_get_default template "export" no_config);
           new_SessionExporter s dest export_config None) w1 = (Ok se, wc)) as Epre.
  { rewrite bind_run, Ha. cbv beta iota. rewrite bind_run, Hb. exact Hc. }
  destruct (load_template_file_tree _ _ _ _ Hload) as (lo & _ & Ht).
  destruct (session_exporter_settled _ _ _ _ _ _ _ Ht Epre) as [Hs _].
  apply session_exporter_file_types in Epre.
  destruct (session_file_types template (w_heap w1)) as [[ft|e] h] eqn:Eft; [|done].
  destruct Epre as (se0 & [= <-] & Hft & Hnone & _ & Hos & Hp & Hh).
  apply bind_inv in Hrun as [(se' & wd & Hinit & Hrun)|(e & _ & [=])].
  eapply initialize_files_keys in Hinit; [|exact Hs|apply steady_refl|by rewrite Hp, Hos].
  rewrite Hnone, Hos, Hft, Hh in Hinit. simpl in Hinit.
  apply bind_inv in Hrun as [(df & we & Hexp & Hrun)|(e & _ & [=])].
  apply run_file_exports_keys in Hexp. rewrite Hinit in Hexp.
  rewrite (session_jobs_ext (allowed template (w_heap w1)) (picks ft h)).
  2:{ intros t. unfold allowed, picks. by rewrite Eft. }
  destruct df as [|row df]; cbn [length Nat.leb] in Hrun.
  - injection Hrun as <- <-. by split.
  - apply bind_inv in Hrun as [(u & wf & _ & Hrun)|(e & _ & [=])].
    injection Hrun as <- <-. by split.
Qed.

Lemma py_get_config_run h0 ec ft k w :
  settled h0 ec ft → steady h0 ft w →
  in_heap (py_get ec k) w = (Ok (config_at h0 ec k), w).
Proof.
  intros (d & Hd & _) [E _]. rewrite in_heap_run. unfold py_get, config_at.
  rewrite Hd. apply as_dict_lookup in Hd as (le & -> & Hle).
  unfold as_dict. rewrite (evol_dicts _ _ _ _ E Hle). by rewrite set_heap_same.
Qed.

Lemma matcher_names_subject k : k ∈ ["code"; "label"] → k = "label" ∨ k = "code".
Proof.
  intros Hk. apply elem_of_cons in Hk as [->|Hk]; [by right|].
  apply elem_of_cons in Hk as [->|Hk]; [by left|]. by apply elem_of_nil in Hk.
Qed.

Lemma matcher_names_label k : k ∈ ["label"] → k = "label" ∨ k = "code".
Proof.
  intros Hk. apply elem_of_cons in Hk as [->|Hk]; [by left|].
  by apply elem_of_nil in Hk.
Qed.

Lemma find_or_create_subject_run origin dest cfg w code :
  c_id origin ≠ EmptyString →
  effective_label (w_heap w) cfg "code" (c_label origin) = Some code →
  ∃ i w', find_or_create_subject origin dest cfg w = (Ok i, w').
Proof.
  intros Hid Heff.
  destruct (config_or_dict_spec _ _ _ _ _ Heff)
    as (sc & h1 & d1 & Hcfg & Hsc & Hlabel & K1).
  unfold find_or_create_subject.
  rewrite bind_run, in_heap_run, Hcfg. cbv beta iota.
  rewrite bind_run, in_heap_run. unfold py_get_default. simpl w_heap.
  rewrite Hsc, Hlabel. cbv beta iota.
  rewrite bind_run, in_heap_run. unfold quote_numeric_string. simpl w_heap.
  cbv beta iota. simpl py_str.
  destruct (reconcile_run origin "subject" sc dest Subject
              ("code=" +:+ quote_str code) ["code"; "label"] code
              (set_heap (set_heap (set_heap w h1) h1) h1))
    as (w' & c' & Hrun & _); [done|apply list_elem_of_here|apply matcher_names_subject|].
  eauto.
Qed.

Lemma find_or_create_subject_session_run origin ds cfg w label :
  c_id origin ≠ EmptyString →
  effective_label (w_heap w) cfg "label" (c_label origin) = Some label →
  ∃ i w' c, find_or_create_subject_session origin ds cfg w = (Ok i, w')
            ∧ w_store w' !! i = Some c ∧ d_parent c = Some ds.
Proof.
  intros Hid Heff.
  destruct (config_or_dict_spec _ _ _ _ _ Heff)
    as (sc & h1 & d1 & Hcfg & Hsc & Hlabel & K1).
  unfold find_or_create_subject_session.
  rewrite bind_run, in_heap_run, Hcfg. cbv beta iota.
  rewrite bind_run, in_heap_run. unfold py_get_default. simpl w_heap.
  rewrite Hsc, Hlabel. cbv beta iota.
  rewrite bind_run, in_heap_run. unfold quote_numeric_string. simpl w_heap.
  cbv beta iota. simpl py_str.
  match goal with |- context [find_first ds Session ?q] => set (query := q) end.
  destruct (reconcile_run origin "session" sc ds Session query ["label"] label
              (set_heap (set_heap (set_heap w h1) h1) h1))
    as (w' & c' & Hrun & Hcase & _);
    [done|apply list_elem_of_further, list_elem_of_here|apply matcher_names_label|].
  exists (first_or_new (child_matches ds Session query) (w_store w)), w', c'.
  split; [exact Hrun|]. unfold first_or_new. cbn [w_store set_heap] in Hcase.
  destruct (find_index _ _ _) as [j|] eqn:Ef; simpl.
  - destruct Hcase as (c & Hc & Hm & -> & _ & Hpar & _).
    split; [apply list_lookup_insert_eq; by apply lookup_lt_Some in Hc|].
    rewrite Hpar. unfold child_matches in Hm.
    apply andb_prop in Hm as [Hm _]. apply andb_prop in Hm as [_ Hm].
    destruct (d_parent c) as [p|]; [|done]. apply Nat.eqb_eq in Hm. by subst.
  - destruct Hcase as (-> & _ & Hpar & _). split; [by apply list_lookup_middle|done].
Qed.

Lemma find_or_create_session_acquisition_run origin dest cfg w :
  c_id origin ≠ EmptyString →
  ∃ i w', find_or_create_session_acquisition origin dest cfg w = (Ok i, w').
Proof.
  intros Hid. unfold find_or_create_session_acquisition.
  rewrite bind_run, in_heap_run.
  assert (∃ sc h1, config_or_dict cfg (w_heap w) = (Ok sc, h1)) as (sc & h1 & ->).
  { unfold config_or_dict. rewrite bind_run, get_state_run. cbv beta iota.
    destruct (truthy _ _); [rewrite ret_run|rewrite new_dict_run]; eauto. }
  cbv beta iota. rewrite bind_run, in_heap_run. unfold quote_numeric_string.
  cbv beta iota. simpl py_str.
  match goal with |- context [find_first dest Acquisition ?q] => set (query := q) end.
  destruct (reconcile_run origin "acquisition" sc dest Acquisition query ["label"]
              (c_label origin) (set_heap (set_heap w h1) (w_heap (set_heap w h1))))
    as (w' & c' & Hrun & _);
    [done|apply list_elem_of_further, list_elem_of_further, list_elem_of_here
    |apply matcher_names_label|].
  eauto.
Qed.

Lemma config_at_spared h0 ec ft k w l :
  settled h0 ec ft → steady h0 ft w → k ≠ "file_types" → ft = VRef l →
  spared (w_heap w) (config_at h0 ec k) l.
Proof.
  intros (d & Hd & Hft) [E _] Hk Hl. unfold config_at. rewrite Hd.
  destruct (Hft l Hl) as [_ Hsp]. eapply spared_evol; [by apply Hsp|done].
Qed.

Lemma effective_label_steady h0 ft w cfg key own label :
  steady h0 ft w → effective_label h0 cfg key own = Some label →
  effective_label (w_heap w) cfg key own = Some label.
Proof.
  intros [E _]. apply effective_label_kept. intros l d. by apply evol_dicts.
Qed.

Lemma find_or_create_dest_run h0 self w code label :
  settled h0 (se_export_config self) (se_file_types self) →
  steady h0 (se_file_types self) w →
  se_dest self = None → se_dest_subject self = None →
  c_id (os_subject (se_origin self)) ≠ EmptyString →
  c_id (os_session (se_origin self)) ≠ EmptyString →
  effective_label h0 (config_at h0 (se_export_config self) "subject") "code"
    (c_label (os_subject (se_origin self))) = Some code →
  effective_label h0 (config_at h0 (se_export_config self) "session") "label"
    (c_label (os_session (se_origin self))) = Some label →
  ∃ self1 w1 dest ds c,
    find_or_create_dest self w = (Ok self1, w1)
    ∧ se_dest self1 = Some dest
    ∧ w_store w1 !! dest = Some c ∧ d_parent c = Some ds.
Proof.
  intros Hs Hw Hd Hds Hid1 Hid2 Hcode Hlabel.
  unfold find_or_create_dest. rewrite Hd, Hds.
  unfold find_or_create_dest_subject. rewrite Hds.
  rewrite !bind_run, (py_get_config_run h0 _ _ _ _ Hs Hw). cbv beta iota.
  destruct (find_or_create_subject_run (os_subject (se_origin self))
              (se_dest_proj self)
              (config_at h0 (se_export_config self) "subject") w code)
    as (i & w2 & E2); [done|by eapply effective_label_steady|].
  rewrite !bind_run, E2. cbv beta iota. rewrite ret_run. cbv beta iota.
  cbn [se_dest_subject with_dest_subject se_export_config se_origin].
  assert (steady h0 (se_file_types self) w2) as Hw2.
  { eapply steady_step; [exact Hw| |].
    - by eapply respects_find_or_create_subject.
    - intros l Hl. eapply find_or_create_subject_list_kept; [exact E2|].
      by eapply config_at_spared. }
  rewrite bind_run, (py_get_config_run h0 _ _ _ _ Hs Hw2). cbv beta iota.
  destruct (find_or_create_subject_session_run (os_session (se_origin self)) i
              (config_at h0 (se_export_config self) "session") w2 label)
    as (dest & w3 & c & E3 & Hc & Hpar); [done|by eapply effective_label_steady|].
  rewrite bind_run, E3. cbv beta iota. rewrite ret_run.
  eexists _, w3, dest, i, c. split; [reflexivity|]. done.
Qed.

Lemma unlisted_steady h0 ec ft w t :
  settled h0 ec ft → steady h0 ft w → picks ft h0 t = false →
  unlisted (w_heap w) ft t.
Proof.
  intros Hs Hw Hp. rewrite <- (picks_steady h0 ec ft w t Hs Hw) in Hp.
  unfold picks, unlisted in *. pose proof (type_in_heap t ft (w_heap w)) as Hh.
  destruct (type_in t ft (w_heap w)) as [[[|]|e] h]; simpl in Hh; subst; done.
Qed.

Lemma acquisitions_run h0 dest fd acqs :
  ∀ self w,
    settled h0 (se_export_config self) (se_file_types self) →
    steady h0 (se_file_types self) w →
    (∀ a, a ∈ acqs → c_id a ≠ EmptyString) →
    (∀ a f, a ∈ acqs → f ∈ c_files a →
            picks (se_file_types self) h0 (f_type f) = false) →
    ∃ self' w',
      fold_m acqs self (λ self origin_acq,
        acquisition_config ← in_heap (py_get (se_export_config self) "acquisition");
        dest_acq ← find_or_create_session_acquisition origin_acq dest
                     acquisition_config;
        tmp_acq_file_list ← in_heap (initialize_container_file_export
          Acquisition origin_acq dest_acq fd (se_file_types self) false);
        mret (with_files self (se_files self ++ tmp_acq_file_list))) w
      = (Ok self', w').
Proof.
  induction acqs as [|a acqs IH]; intros self w Hs Hw Hid Hf; cbn [fold_m].
  - rewrite ret_run. eauto.
  - rewrite !bind_run, (py_get_config_run h0 _ _ _ _ Hs Hw). cbv beta iota.
    destruct (find_or_create_session_acquisition_run a dest
                (config_at h0 (se_export_config self) "acquisition") w)
      as (i & w2 & E2); [apply Hid, list_elem_of_here|].
    rewrite bind_run, E2. cbv beta iota.
    assert (steady h0 (se_file_types self) w2) as Hw2.
    { eapply steady_step; [exact Hw| |].
      - by eapply respects_find_or_create_session_acquisition.
      - intros l Hl. eapply find_or_create_session_acquisition_list_kept; [exact E2|].
        by eapply config_at_spared. }
    rewrite bind_run, initialize_step.
    2:{ intros f Hin. eapply unlisted_steady; [exact Hs|exact Hw2|].
        eapply Hf; [apply list_elem_of_here|done]. }
    cbv beta iota. rewrite ret_run. cbv beta iota.
    apply IH; try done.
    + intros a' Ha'. apply Hid. by apply list_elem_of_further.
    + intros a' f Ha'. apply Hf. by apply list_elem_of_further.
Qed.

Lemma initialize_files_run h0 self sf pf fd w code label :
  settled h0 (se_export_config self) (se_file_types self) →
  steady h0 (se_file_types self) w →
  se_dest self = None → se_dest_subject self = None →
  se_origin_project self = os_project (se_origin self) →
  c_id (os_subject (se_origin self)) ≠ EmptyString →
  c_id (os_session (se_origin self)) ≠ EmptyString →
  (∀ a, a ∈ os_acquisitions (se_origin self) → c_id a ≠ EmptyString) →
  effective_label h0 (config_at h0 (se_export_config self) "subject") "code"
    (c_label (os_subject (se_origin self))) = Some code →
  effective_label h0 (config_at h0 (se_export_config self) "session") "label"
    (c_label (os_session (se_origin self))) = Some label →
  (∀ f, f ∈ files_in_scope (se_origin self) sf pf →
        picks (se_file_types self) h0 (f_type f) = false) →
  ∃ self' w', initialize_files self sf pf fd w = (Ok self', w').
Proof.
  intros Hs Hw Hd Hds Hproj Hid1 Hid2 Hid3 Hcode Hlabel Hf.
  destruct (find_or_create_dest_run h0 self w code label)
    as (self1 & w1 & dest & ds & c & E1 & Hdest & Hc & Hpar); try done.
  assert (same_jobs self self1) as (J1 & J2 & J3 & J4 & J5 & J6)
    by (by eapply find_or_create_dest_jobs).
  assert (steady h0 (se_file_types self) w1) as Hw1
    by (by eapply find_or_create_dest_steady).
  unfold initialize_files. rewrite Hd, bind_run, E1. cbv beta iota.
  rewrite Hdest.
  unfold files_in_scope in Hf.
  assert (∀ ty cc d0 w0,
            steady h0 (se_file_types self) w0 →
            (∀ f, f ∈ c_files cc → picks (se_file_types self) h0 (f_type f) = false) →
            in_heap (initialize_container_file_export ty cc d0 (default [] fd)
                       (se_file_types self1) false) w0 = (Ok [], w0)) as Hinit.
  { intros ty cc d0 w0 Hw0 Hcc. apply initialize_step. intros f Hin. rewrite J2.
    eapply unlisted_steady; [exact Hs|exact Hw0|by apply Hcc]. }
  assert (with_files self1 (se_files self1) = self1) as Hsame by (by destruct self1).
  rewrite bind_run.
  match goal with |- context [if pf then ?m else mret self1] =>
    assert ((if pf then m else mret self1) w1 = (Ok self1, w1)) as -> end.
  { destruct pf; [|done].
    rewrite bind_run, Hinit; [by rewrite ret_run, app_nil_r, Hsame|done|].
    intros f Hin. apply Hf. rewrite J4, Hproj in Hin. apply elem_of_app. by left. }
  cbv beta iota. rewrite bind_run.
  match goal with |- context [if sf then ?m else mret self1] =>
    assert ((if sf then m else mret self1) w1 = (Ok self1, w1)) as -> end.
  { destruct sf; [|done].
    rewrite bind_run. unfold parent_of at 1. rewrite Hc, Hpar. cbv beta iota.
    rewrite bind_run, Hinit; [by rewrite ret_run, app_nil_r, Hsame|done|].
    intros f Hin. apply Hf. rewrite J3 in Hin.
    apply elem_of_app. right. apply elem_of_app. by left. }
  cbv beta iota. rewrite bind_run, Hinit; [|done|].
  2:{ intros f Hin. apply Hf. rewrite J3 in Hin.
      apply elem_of_app. right. apply elem_of_app. right.
      apply elem_of_app. by left. }
  cbv beta iota. rewrite app_nil_r, Hsame.
  apply (acquisitions_run h0).
  - by rewrite J2, J5.
  - by rewrite J2.
  - intros a Ha. apply Hid3. by rewrite <- J3.
  - intros a f Ha Hin. rewrite J2. apply Hf. rewrite J3 in Ha.
    apply elem_of_app. right. apply elem_of_app. right. apply elem_of_app. right.
    apply list_elem_of_In, in_concat. exists (c_files a).
    split; [apply in_map; by apply list_elem_of_In|by apply list_elem_of_In].
Qed.

Lemma as_dict_app h k v d : as_dict h v = Some d → as_dict (h ++ k) v = Some d.
Proof.
  intros Hd. apply as_dict_lookup in Hd as (l & -> & Hl). unfold as_dict.
  rewrite lookup_app_l; [by rewrite Hl|]. by apply lookup_lt_Some in Hl.
Qed.

Lemma as_dict_tree h k lo v :
  tree (h ++ k) lo (length h) v → as_dict (h ++ k) v = as_dict h v.
Proof.
  intros Ht. apply tree_within in Ht. destruct v as [| | | |l]; try done.
  simpl in Ht. unfold as_dict. by rewrite lookup_app_l by lia.
Qed.

Lemma tree_weaken h lo hi hi' v : tree h lo hi v → hi ≤ hi' → within lo hi' v.
Proof.
  intros Ht Hle. apply tree_within in Ht. destruct v; simpl in *; try done. lia.
Qed.

(** The configs that the session exporter of [export_session] reads are
    those of the template. *)
Lemma session_exporter_config s dest template lo w se w' :
  (∀ k, tree (w_heap w ++ k) lo (length (w_heap w)) template) →
  (no_config ← in_heap (new_dict []);
   export_config ← in_heap (py_get_default template "export" no_config);
   new_SessionExporter s dest export_config None) w = (Ok se, w') →
  se_dest_subject se = None
  ∧ ∀ k, config_at (w_heap w') (se_export_config se) k
         = container_config (w_heap w) template k.
Proof.
  intros Ht. unfold new_SessionExporter.
  rewrite !bind_run, !in_heap_run, new_dict_run. cbv beta iota.
  rewrite !bind_run, !in_heap_run. cbn [w_heap set_heap].
  unfold py_get_default at 1.
  destruct (as_dict (w_heap w ++ [ODict []]) template) as [d|] eqn:Ed;
    cbv beta iota; [|by intros [= <- <-]].
  rewrite !bind_run, !in_heap_run, !bind_run, !get_state_run. cbv beta iota.
  cbn [w_heap set_heap].
  set (h := w_heap w) in *.
  assert (as_dict h template = Some d) as Hd.
  { by rewrite <- (as_dict_tree h [ODict []] lo). }
  set (cfg := default (VRef (length h)) (dict_get d "export")).
  destruct (is_dict (h ++ [ODict []]) cfg) eqn:Eis.
  - rewrite !ret_run. cbv beta iota. rewrite !bind_run, !in_heap_run.
    unfold new_list, new_object. cbv beta iota. cbn [w_heap set_heap].
    rewrite !bind_run, !in_heap_run. cbn [w_heap set_heap].
    set (h2 := (h ++ [ODict []]) ++ [OList [VStr "dicom"]]).
    unfold py_get_default.
    destruct (as_dict h2 cfg) as [dec|] eqn:Edec; cbv beta iota;
      [|by intros [= <- <-]].
    rewrite bind_run, ret_run. cbv beta iota. rewrite ret_run.
    intros [= <- <-]. cbn [se_export_config se_dest_subject w_heap set_heap].
    split; [done|]. intros k.
    unfold container_config. unfold config_at at 1 3. rewrite Edec, Hd.
    specialize (Ht [ODict []; OList [VStr "dicom"]]).
    replace (h ++ [ODict []; OList [VStr "dicom"]]) with h2 in Ht
      by (unfold h2; by rewrite <- app_assoc).
    destruct (dict_get d "export") as [ec0|] eqn:Eexp; subst cfg;
      [change (default (VRef (length h)) (Some ec0)) with ec0 in *
      |change (default (VRef (length h)) None) with (VRef (length h)) in *];
      cbn [default from_option id].
    + assert (as_dict h2 template = Some d) as Hd2.
      { unfold h2. rewrite <- app_assoc. by apply as_dict_app. }
      destruct (tree_child _ _ _ _ _ _ _ Ht Hd2 Eexp) as (a & b & La & Lb & Hec).
      apply (tree_weaken _ _ _ (length h)) in Hec; [|done].
      unfold config_at. destruct ec0 as [| | | |le]; try done. simpl in Hec.
      unfold as_dict in *. unfold h2 in Edec.
      rewrite <- app_assoc, lookup_app_l in Edec by lia. by rewrite Edec.
    + apply as_dict_lookup in Edec as (le & [= <-] & Hle).
      unfold h2 in Hle. rewrite lookup_app_l in Hle by (rewrite length_app; simpl; lia).
      rewrite lookup_alloc in Hle. by injection Hle as <-.
  - rewrite new_dict_run. cbv beta iota. rewrite !bind_run, !in_heap_run.
    unfold new_list, new_object. cbv beta iota. cbn [w_heap set_heap].
    rewrite !bind_run, !in_heap_run. cbn [w_heap set_heap].
    unfold py_get_default, as_dict.
    rewrite lookup_app_l by (rewrite !length_app; simpl; lia).
    rewrite lookup_alloc. cbv beta iota.
    rewrite bind_run, ret_run. cbv beta iota. rewrite ret_run.
    intros [= <- <-]. cbn [se_export_config se_dest_subject w_heap set_heap].
    split; [done|]. intros k.
    unfold container_config. unfold config_at at 1 3. rewrite Hd.
    unfold as_dict at 1. rewrite lookup_app_l by (rewrite !length_app; simpl; lia).
    rewrite lookup_alloc. simpl.
    destruct (dict_get d "export") as [ec0|] eqn:Eexp; subst cfg; simpl in *.
    + unfold config_at. destruct (as_dict h ec0) as [de|] eqn:Ee; [|done].
      apply (as_dict_app _ [ODict []]) in Ee. unfold is_dict in Eis.
      by rewrite Ee in Eis.
    + done.
Qed.

Lemma session_file_types_ok template h :
  is_dict h template = true →
  ∃ ft h', session_file_types template h = (Ok ft, h').
Proof.
  intros Hd. unfold session_file_types, is_dict in *.
  destruct (as_dict h template) as [d|] eqn:Ed; [|done].
  rewrite bind_run, new_dict_run. cbv beta iota.
  rewrite bind_run. unfold py_get_default at 1.
  rewrite (as_dict_app _ _ _ _ Ed). cbv beta iota.
  rewrite !bind_run, get_state_run. cbv beta iota.
  destruct (match as_dict (h ++ [ODict []]) _ with Some _ => true | None => false end)
    eqn:Eis.
  - rewrite ret_run. cbv beta iota. rewrite bind_run, new_list_run. cbv beta iota.
    unfold py_get_default.
    destruct (as_dict (h ++ [ODict []]) _) as [de|] eqn:Ee; [|done].
    rewrite (as_dict_app _ _ _ _ Ee). eauto.
  - rewrite new_dict_run. cbv beta iota. rewrite bind_run, new_list_run.
    cbv beta iota. unfold py_get_default, as_dict.
    rewrite lookup_app_l by (rewrite !length_app; simpl; lia).
    rewrite lookup_alloc. eauto.
Qed.

Lemma listed_files_none ok ty c :
  (∀ f, f ∈ c_files c → ok (f_type f) = false) → listed_files ok ty c = [].
Proof.
  intros Hf. unfold listed_files.
  induction (c_files c) as [|f l IH]; [done|]. cbn [List.filter].
  rewrite (Hf f) by apply list_elem_of_here. apply IH.
  intros f' Hin. apply Hf. by apply list_elem_of_further.
Qed.

Lemma session_jobs_none ok s sf pf :
  (∀ f, f ∈ files_in_scope s sf pf → ok (f_type f) = false) →
  session_jobs ok s sf pf = [].
Proof.
  intros Hf. unfold session_jobs, files_in_scope in *.
  assert ((if pf then listed_files ok Project (os_project s) else []) = []) as ->.
  { destruct pf; [|done]. apply listed_files_none. intros f Hin. apply Hf.
    apply elem_of_app. by left. }
  assert ((if sf then listed_files ok Subject (os_subject s) else []) = []) as ->.
  { destruct sf; [|done]. apply listed_files_none. intros f Hin. apply Hf.
    apply elem_of_app. right. apply elem_of_app. by left. }
  rewrite listed_files_none.
  2:{ intros f Hin. apply Hf. apply elem_of_app. right. apply elem_of_app. right.
      apply elem_of_app. by left. }
  simpl.
  assert (∀ a f, a ∈ os_acquisitions s → f ∈ c_files a → ok (f_type f) = false)
    as Ha.
  { intros a f Ha Hin. apply Hf.
    apply elem_of_app. right. apply elem_of_app. right. apply elem_of_app. right.
    apply list_elem_of_In, in_concat. exists (c_files a).
    split; [apply in_map; by apply list_elem_of_In|by apply list_elem_of_In]. }
  clear Hf. revert Ha. generalize (os_acquisitions s). intros l.
  induction l as [|a l IH]; intros Ha; [done|]. simpl.
  rewrite listed_files_none by (intros f; apply Ha, list_elem_of_here).
  apply IH. intros a' f Ha'. apply Ha. by apply list_elem_of_further.
Qed.

(** [export_session] makes the session exporter, then the jobs, and runs
    them. *)
Lemma export_session_split s dest path sf pf csv ow w :
  export_session s dest path sf pf csv ow w
  = (template ← load_template_file path;
     session_exporter ←
       (no_config ← in_heap (new_dict []);
        export_config ← in_heap (py_get_default template "export" no_config);
        new_SessionExporter s dest export_config None);
     session_exporter ← initialize_files session_exporter sf pf None;
     session_export_df ← run_file_exports session_exporter path ow;
     if (1 <=? length session_export_df)%nat then
       match given csv with
       | Some path => to_csv path session_export_df
       | None => mret tt
       end ≫= λ _,
       mret (Some session_export_df)
     else mret None) w.
Proof.
  unfold export_session. rewrite !bind_run.
  destruct (load_template_file path w) as [[template|e] w1]; [|done].
  cbv beta iota. rewrite !bind_run.
  destruct (in_heap (new_dict []) w1) as [[nc|e] wa]; [|done].
  cbv beta iota. rewrite !bind_run.
  destruct (in_heap (py_get_default template "export" nc) wa) as [[ec|e] wb];
    [|done].
  cbv beta iota.
  destruct (new_SessionExporter s dest ec None wb) as [[se|e] wc] eqn:E;
    by rewrite bind_run, E.
Qed.

(** [export_session] on a session that has no file to export returns
    [None]. *)
Lemma export_session_none_run s dest path sf pf csv ow w template w1 code label :
  load_template_file path w = (Ok template, w1) →
  is_dict (w_heap w1) template = true →
  (∀ f, f ∈ files_in_scope s sf pf →
        allowed template (w_heap w1) (f_type f) = false) →
  c_id (os_subject s) ≠ EmptyString →
  c_id (os_session s) ≠ EmptyString →
  (∀ a, a ∈ os_acquisitions s → c_id a ≠ EmptyString) →
  effective_label (w_heap w1) (container_config (w_heap w1) template "subject")
    "code" (c_label (os_subject s)) = Some code →
  effective_label (w_heap w1) (container_config (w_heap w1) template "session")
    "label" (c_label (os_session s)) = Some label →
  ∃ w', export_session s dest path sf pf csv ow w = (Ok None, w').
Proof.
  intros Hload Hdict Hf Hid1 Hid2 Hid3 Hcode Hlabel.
  destruct (session_file_types_ok _ _ Hdict) as (ft & h0 & Eft).
  destruct (load_template_file_tree _ _ _ _ Hload) as (lo & _ & Ht).
  destruct ((no_config ← in_heap (new_dict []);
             export_config ← in_heap (py_get_default template "export" no_config);
             new_SessionExporter s dest export_config None) w1) as [rp wc] eqn:Epre.
  pose proof (session_exporter_file_types _ _ _ _ _ _ Epre) as Hpre.
  rewrite Eft in Hpre.
  destruct Hpre as (se & -> & Hft & Hnone & Hdest & Hos & Hp & Hh).
  destruct (session_exporter_settled _ _ _ _ _ _ _ Ht Epre) as [Hs [_ Hev]].
  destruct (session_exporter_config _ _ _ _ _ _ _ Ht Epre) as [Hds Hcfg].
  assert (∃ se' wd, initialize_files se sf pf None wc = (Ok se', wd))
    as (se' & wd & Einit).
  { refine (initialize_files_run (w_heap wc) se sf pf None wc code label
              Hs (steady_refl _ _) Hdest Hds _ _ _ _ _ _ _).
    - by rewrite Hp, Hos.
    - by rewrite Hos.
    - by rewrite Hos.
    - by rewrite Hos.
    - rewrite Hcfg, Hos. eapply effective_label_kept; [|exact Hcode].
      intros l d. by apply evol_dicts.
    - rewrite Hcfg, Hos. eapply effective_label_kept; [|exact Hlabel].
      intros l d. by apply evol_dicts.
    - rewrite Hos, Hft, Hh. intros f Hin. specialize (Hf f Hin).
      unfold allowed in Hf. by rewrite Eft in Hf. }
  pose proof Einit as Hkeys.
  eapply initialize_files_keys in Hkeys;
    [|exact Hs|apply steady_refl|by rewrite Hp, Hos].
  rewrite Hnone, Hos, Hft, Hh in Hkeys. simpl in Hkeys.
  assert (se_files se' = []) as Hfiles.
  { rewrite (session_jobs_none _ s sf pf) in Hkeys; [by destruct (se_files se')|].
    intros f Hin. specialize (Hf f Hin). unfold allowed in Hf. by rewrite Eft in Hf. }
  exists wd. rewrite export_session_split, bind_run, Hload. cbv beta iota.
  rewrite bind_run, Epre. cbv beta iota. rewrite bind_run, Einit. cbv beta iota.
  unfold run_file_exports. rewrite Hfiles. cbn [map fold_m].
  by rewrite bind_run, ret_run.
Qed.

Lemma load_template_file_logged path w template w1 cs :
  load_template_file path w = (Ok template, w1) →
  load_template_file path (set_calls w cs) = (Ok template, set_calls w1 cs).
Proof. intros Hload. by rewrite load_template_file_calls, Hload. Qed.


(** C10. [export_session] on a session that has no file to export: no file
    of the session, of its acquisitions, and of its subject and project
    when their files are requested, has a type in the allowed file types
    of the template.  It never returns a report, empty or not: it returns
    [None] or raises; and [_export_session], which indexes the result by
    ['state'], always raises.  When the template is a dict, the subject,
    the session and the acquisitions have an id, and the code of the
    subject and the label of the session are strings, [export_session]
    does return [None], and [_export_session] raises [TypeError]. *)
Theorem export_session_returns_None s dest path sf pf csv ow w template w1 :
  load_template_file path w = (Ok template, w1) →
  (∀ f, f ∈ files_in_scope s sf pf →
        allowed template (w_heap w1) (f_type f) = false) →
  (∀ r w', export_session s dest path sf pf csv ow w = (r, w') →
           r = Ok None ∨ ∃ e, r = Raise e)
  ∧ (∀ report r w', _export_session dest report ow s path pf sf None w = (r, w') →
                    ∃ e, r = Raise e)
  ∧ (is_dict (w_heap w1) template = true →
     c_id (os_subject s) ≠ EmptyString →
     c_id (os_session s) ≠ EmptyString →
     (∀ a, a ∈ os_acquisitions s → c_id a ≠ EmptyString) →
     is_Some (effective_label (w_heap w1)
                (container_config (w_heap w1) template "subject") "code"
                (c_label (os_subject s))) →
     is_Some (effective_label (w_heap w1)
                (container_config (w_heap w1) template "session") "label"
                (c_label (os_session s))) →
     (∃ w', export_session s dest path sf pf csv ow w = (Ok None, w'))
     ∧ ∀ report, ∃ w',
         _export_session dest report ow s path pf sf None w = (Raise TypeError, w')).
Proof.
  intros Hload Hf.
  assert (∀ csv0 w0 w2 r w',
            load_template_file path w0 = (Ok template, w2) → w_heap w2 = w_heap w1 →
            export_session s dest path sf pf csv0 ow w0 = (r, w') →
            r = Ok None ∨ ∃ e, r = Raise e) as Hnone.
  { intros csv0 w0 w2 r w' Hload0 Hheap Hrun. destruct r as [r|e]; [left|by eauto].
    eapply export_session_rows in Hrun as [Hkeys Hne]; [|exact Hload0].
    rewrite session_jobs_none in Hkeys by (rewrite Hheap; exact Hf).
    destruct r as [[|row rows]|]; done. }
  split_and!.
  - intros r w'. by apply Hnone with (w2 := w1).
  - intros report r w'. unfold _export_session. rewrite bind_run. cbv beta iota.
    cbn [given]. rewrite bind_run.
    match goal with |- context [export_session _ _ _ _ _ _ _ ?w0] =>
      destruct (export_session s dest path sf pf None ow w0) as [r0 w2] eqn:Erun end.
    eapply Hnone in Erun as [->|[e ->]];
      [| |by apply load_template_file_logged|done].
    + rewrite bind_run, raise_run. intros [= <- _]. eauto.
    + intros [= <- _]. eauto.
  - intros Hdict Hid1 Hid2 Hid3 [code Hcode] [label Hlabel]. split.
    + by eapply export_session_none_run.
    + intros report. unfold _export_session. rewrite bind_run. cbv beta iota.
      cbn [given]. rewrite bind_run.
      match goal with |- context [export_session _ _ _ _ _ _ _ ?w0] =>
        destruct (export_session_none_run s dest path sf pf None ow w0 template
                    (set_calls w1 (w_calls w0)) code label) as [w2 ->] end;
        try done; [by apply load_template_file_logged|].
      rewrite bind_run, raise_run. eauto.
Qed.



End Properties.

(** * The properties on the sample run *)

#[local] Existing Instance sample_collaborators.



(** C3 on [sample_metadata_heap]: the payload for the whitelist
    [['age', 'secret', 'id']] has permitted keys only. *)
Lemma create_metadata_dict_keys_whitelisted_witness :
  ∃ d, as_dict (create_metadata_dict (Snapshot (VRef 1)) "session" (VRef 4)
                  sample_metadata_heap).2 (VRef 5) = Some d
       ∧ ∀ k, k ∈ dict_keys d →
              k ∈ default [] (META_WHITELIST_DICT "session") ∨ k = "info".
Proof.
  apply (create_metadata_dict_keys_whitelisted (Snapshot (VRef 1)) "session"
           (VRef 4) sample_metadata_heap (VRef 5)).
  - reflexivity.
  - vm_compute. reflexivity.
Defined.

(** C4 on [sample_export_heap]: the origin info has a key ['export'], and
    the stamp is the digest of the id all the same. *)
Lemma create_metadata_dict_stamps_origin_id_witness :
  match create_metadata_dict (Snapshot (VRef 1)) "session" (VRef 3)
          sample_export_heap with
  | (Ok payload, h') => origin_id_stamp h' payload = Some (VStr (hash_string "a"))
  | (Raise e, _) =>
      e = TypeError
      ∧ origin_info_is_dict sample_export_heap (Snapshot (VRef 1)) = false
  end.
Proof.
  apply (create_metadata_dict_stamps_origin_id (Snapshot (VRef 1)) "session"
           (VRef 3) sample_export_heap "a").
  - reflexivity.
  - discriminate.
  - apply list_elem_of_further, list_elem_of_here.
Defined.

(** C7 on [sample_files]: a job for [a.dcm], renamed, and one for [c.nii]
    under its own name; none for [b.txt], which has no type. *)
Lemma initialize_container_file_export_jobs_witness :
  ∃ jobs,
    initialize_container_file_export Session sample_files 2 [("a.dcm", "x.dcm")]
      (VRef 0) false sample_types_heap = (Ok jobs, sample_types_heap)
    ∧ map (λ fe, (fe_origin_filename fe, export_filename fe)) jobs
      = [("a.dcm", "x.dcm"); ("c.nii", "c.nii")]
    ∧ Forall (λ fe, fe_origin_parent fe = (Session, "c1")
                    ∧ fe_dest_parent fe = 2) jobs.
Proof.
  apply (initialize_container_file_export_jobs Session sample_files 2
           [("a.dcm", "x.dcm")] (VRef 0) false sample_types_heap
           [VStr "dicom"; VStr "nifti"]).
  reflexivity.
Defined.

(** C9 on [sample_tree], without a subject CSV *)
Lemma export_container_unassigned_error_msg_witness :
  ∃ w', export_container (ProjectScope sample_tree) 0 "t.json" (Some "out.csv")
          false None "new" "old" sample_destination = (Raise NameError, w')
        ∧ outside w' = outside sample_destination.
Proof.
  eapply (export_container_unassigned_error_msg (ProjectScope sample_tree) 0
            "t.json" (Some "out.csv") false "new" "old" sample_destination).
  - vm_compute. reflexivity.
  - eexists. split; [apply list_elem_of_further, list_elem_of_here|discriminate].
Defined.

(** C10 on [sample_notes], a session without a DICOM file, exported without
    the files of its subject and project: [export_session] returns [None],
    and [_export_session] raises [TypeError]. *)
Lemma export_session_returns_None_witness :
  (∃ w', export_session (sample_origin sample_notes) 0 "t.json" false false
           None false sample_destination = (Ok None, w'))
  ∧ ∀ report, ∃ w',
      _export_session 0 report false (sample_origin sample_notes) "t.json"
        false false None sample_destination = (Raise TypeError, w').
Proof.
  edestruct (export_session_returns_None (sample_origin sample_notes) 0 "t.json"
               false false None false sample_destination) as (_ & _ & Hreturns).
  - vm_compute. reflexivity.
  - intros f Hin. apply list_elem_of_In in Hin. simpl in Hin.
    destruct Hin as [<-|[<-|[]]]; vm_compute; reflexivity.
  - apply Hreturns.
    + vm_compute. reflexivity.
    + discriminate.
    + discriminate.
    + intros a Ha. apply list_elem_of_In in Ha. simpl in Ha.
      destruct Ha as [<-|[]]. discriminate.
    + eexists. vm_compute. reflexivity.
    + eexists. vm_compute. reflexivity.
Defined.



(** C2. Two runs in which no transfer fails and [export_container] raises:
    a session scope without a subject CSV raises [NameError], and a subject
    scope whose session has no file to export raises [TypeError]. *)
Theorem export_container_raises :
  (export_container (SessionScope (sample_origin sample_notes)) 0 "t.json"
     (Some "out.csv") false None "new" "old" sample_destination).1
  = Raise NameError
  ∧ (export_container (SubjectScope sample_project sample_quiet_subject) 0
       "t.json" (Some "out.csv") false (Some "s.csv") "new" "old"
       sample_destination).1
    = Raise TypeError.
Proof. split; vm_compute; reflexivity. Qed.




(** X7 on [sample_heap], without a config: nothing of the origin
    [{'id': 'a', 'info': {'k': 1}}] is in the payload. *)
Lemma create_metadata_dict_default_witness :
  create_metadata_dict (Snapshot (VRef 1)) "session" VNone sample_heap
  = (Ok (VRef 4), sample_heap ++ stamp_only 4 (hash_string "a")).
Proof.
  apply (create_metadata_dict_default (VRef 1) "session" VNone sample_heap
           [("id", VStr "a"); ("info", VRef 0)] "a").
  - reflexivity.
  - reflexivity.
  - discriminate.
  - by left.
Defined.

(** X9 on [sample_session], whose subject has no template: three rows,
    for [scan.dcm] and [bad.dcm] of the session and [a.dcm] of its
    acquisition, and the call returns 3. *)
Lemma inner_export_session_error_rows_witness :
  let row ty id name :=
    {| r_origin_filename := name; r_origin_parent := (ty, id);
       r_export_filename := None; r_export_file_id := None;
       r_export_parent := None; r_state := "error";
       r_errors := Some "no template" |} in
  ∃ w',
    _export_session 0 (Some "out.csv") false (sample_origin sample_session)
      "t.json" true true (Some "no template") sample_destination
    = (Ok 3%nat, w')
    ∧ w_store w' = w_store sample_destination
    ∧ w_transfers w' = w_transfers sample_destination
    ∧ w_heap w' = w_heap sample_destination
    ∧ report_at "out.csv" w'
      = report_at "out.csv" sample_destination
        ++ [row Session "ses1" "scan.dcm"; row Session "ses1" "bad.dcm";
            row Acquisition "a1" "a.dcm"].
Proof.
  exact (inner_export_session_error_rows 0 (Some "out.csv") false
           (sample_origin sample_session) "t.json" true true "no template"
           sample_destination ltac:(discriminate)).
Defined.

(** X10 on [sample_full_tree]: the run returns 1, for [bad.dcm]. *)
Lemma export_container_counts_report_witness :
  ∃ rows,
    report_at "out.csv"
      (export_container (ProjectScope sample_full_tree) 0 "t.json"
         (Some "out.csv") false (Some "s.csv") "new" "old" sample_destination).2
    = report_at "out.csv" sample_destination ++ rows
    ∧ 1 = count_errors rows.
Proof.
  apply (export_container_counts_report (ProjectScope sample_full_tree) 0 "t.json"
           "out.csv" false (Some "s.csv") "new" "old" sample_destination 1).
  - discriminate.
  - vm_compute. reflexivity.
Defined.

(** X11 on an acquisition *)
Lemma export_container_unsupported_witness :
  export_container (OtherScope "acquisition") 0 "t.json" (Some "out.csv") false
    (Some "s.csv") "new" "old" sample_destination
  = (Raise ValueError, (load_template_file "t.json" sample_destination).2).
Proof.
  eapply (export_container_unsupported "acquisition" 0 "t.json" (Some "out.csv")
            false (Some "s.csv") "new" "old" sample_destination).
  - intros Hin. apply list_elem_of_In in Hin. simpl in Hin.
    destruct Hin as [?|[?|[?|[]]]]; discriminate.
  - vm_compute. reflexivity.
  - intros p _. exact I.
Defined.

(** X12 on the template path [t.txt] *)
Lemma export_session_unsupported_extension_witness :
  load_template_file "t.txt" sample_destination = (Ok VNone, sample_destination)
  ∧ ∃ w', export_session (sample_origin sample_session) 0 "t.txt" true true
            (Some "out.csv") false sample_destination = (Raise AttributeError, w')
          ∧ outside w' = outside sample_destination.
Proof.
  apply (export_session_unsupported_extension (sample_origin sample_session) 0
           "t.txt" true true (Some "out.csv") false sample_destination).
  intros Hin. apply list_elem_of_In in Hin. simpl in Hin.
  destruct Hin as [?|[?|[?|[]]]]; discriminate.
Defined.

(** X13 on [sample_unsaved], under the session of [sample_world] *)
Lemma matchers_require_id_witness :
  (∀ code, effective_label (w_heap sample_world) VNone "code" "S9" = Some code →
           ∃ w', find_or_create_subject sample_unsaved 2 VNone sample_world
                 = (Raise ValueError, w') ∧ w_store w' = w_store sample_world)
  ∧ (∀ label, effective_label (w_heap sample_world) VNone "label" "S9" = Some label →
              ∃ w', find_or_create_subject_session sample_unsaved 2 VNone sample_world
                    = (Raise ValueError, w') ∧ w_store w' = w_store sample_world)
  ∧ ∃ w', find_or_create_session_acquisition sample_unsaved 2 VNone sample_world
          = (Raise ValueError, w') ∧ w_store w' = w_store sample_world.
Proof.
  apply (matchers_require_id sample_unsaved 2 VNone sample_world).
  reflexivity.
Defined.

(** X15 on [sample_session]: the report, which held a row, holds the three
    rows of the session. *)
Lemma export_session_report_witness :
  let w := set_reports sample_destination
             [("out.csv", get_session_error_df (sample_origin sample_notes) "old"
                            (Some ["text"]) false false)] in
  let run := export_session (sample_origin sample_session) 0 "t.json" false false
               (Some "out.csv") false w in
  ∃ rows, run.1 = Ok (Some rows) ∧ length rows = 3
          ∧ w_reports run.2 = [("out.csv", rows)].
Proof.
  intros w run.
  assert (∃ rows, run = (Ok (Some rows), run.2) ∧ length rows = 3)
    as (rows & Hrun & Hlen).
  { vm_compute. eexists. split; reflexivity. }
  exists rows. split; [by rewrite Hrun|]. split; [exact Hlen|].
  pose proof (export_session_report (sample_origin sample_session) 0 "t.json"
                false false (Some "out.csv") false w (Some rows) run.2 Hrun)
    as [_ Hrep].
  exact Hrep.
Defined.

(** X16 on [sample_session], with [sample_unwritable] *)
Lemma export_container_template_failure_witness :
  ∃ w', @export_container sample_unwritable
          (SessionScope (sample_origin sample_session)) 0 "t.json" (Some "out.csv")
          false (Some "s.csv") "new" "old" sample_destination
        = (Raise NameError, w')
        ∧ outside w' = outside sample_destination.
Proof.
  eapply (@export_container_template_failure sample_unwritable
            (SessionScope (sample_origin sample_session)) 0 "t.json"
            (Some "out.csv") false (Some "s.csv") "s.csv" "new" "old"
            sample_destination _ _ [("old", "new")] sample_subject "no such code").
  - reflexivity.
  - vm_compute. reflexivity.
  - reflexivity.
  - reflexivity.
  - reflexivity.
  - intros path. reflexivity.
Defined.
